(** * Korifi repositories: organizations, spaces and service bindings

    A shallow embedding of [api/repositories/org_repository.go] (in its two
    revisions: organizations backed by HNC subnamespace anchors, and
    organizations backed by the CFOrg custom resource) and of
    [api/repositories/service_binding_repository.go].

    Go packages become modules, structs become records, Go maps become
    [gmap]/[gset], and the Kubernetes cluster the repositories talk to is an
    explicit [World] threaded through a small state-and-error monad.

    - Every call to the API server is appended to the world's call log, so
      that "this call is never made" and "this call comes first" can be
      stated.
    - Time is a logical clock in milliseconds that only [time.Sleep]
      advances; [time.After] has fired when the clock has advanced by the
      timeout.
    - A watch is the finite list of events its channel delivers before it is
      closed.
    - The polling loop takes fuel; with fuel for the polls that fit in the
      timeout it always ends ([createSubnamespaceAnchor_total]).
    - What the code cannot decide - rejections by the cluster, the answers of
      [NamespacePermissions], the order in which [range] visits a map, UUIDs -
      is read from an environment [Env]. *)

From stdpp Require Import base strings gmap list.
From Stdlib Require Import ZArith Lia.

(** ** Go errors *)

(** [metav1.StatusReason], as far as the repositories distinguish it. The
    empty reason (a transport failure, a timeout of the API server, ...) is
    [StatusReasonUnknown]. *)
Inductive StatusReason :=
| StatusReasonUnknown
| StatusReasonUnauthorized
| StatusReasonForbidden
| StatusReasonNotFound
| StatusReasonAlreadyExists
| StatusReasonInvalid.

#[global] Instance StatusReason_eq_dec : EqDecision StatusReason.
Proof. solve_decision. Defined.

(** [StatusError]: what a client call fails with. *)
Record StatusError := { Reason : StatusReason; Message : string }.

(** An argument of a [fmt.Errorf] verb other than [%w]. Durations and
    [Milliseconds()] are kept as a number of milliseconds. *)
Inductive FmtArg :=
| ArgInt (n : Z)
| ArgString (s : string)
| ArgDuration (ms : Z).

(** The values of Go's [error] interface that the repositories produce or
    pass on. [Errorf format args wrapped] is [fmt.Errorf(format, args...,
    wrapped)], with [wrapped] the operand of [%w]; [None] there is a nil
    error. *)
#[warnings="-register-all"]
Inductive error :=
| StatusErr (e : StatusError)
| NotFoundError (cause : option error) (resourceType : string)
| ForbiddenError (cause : option error) (resourceType : string)
| UnprocessableEntityError (cause : option error) (detail : string)
| Errorf (format : string) (args : list FmtArg) (wrapped : option error)
| OpaqueError (message : string).

Module k8serrors.

(** [k8serrors.IsForbidden]. *)
Definition IsForbidden (err : error) : bool :=
  match err with
  | StatusErr e => bool_decide (Reason e = StatusReasonForbidden)
  | _ => false
  end.

(** [k8serrors.IsNotFound]. *)
Definition IsNotFound (err : error) : bool :=
  match err with
  | StatusErr e => bool_decide (Reason e = StatusReasonNotFound)
  | _ => false
  end.

End k8serrors.

Module apierrors.

(** Modelled from the spec: the error types of package apierrors are not
    among the sources. The spec lists, of the errors surfaced across the
    boundary, NotFound{resourceType}, the Forbidden error that lookups mask as
    NotFound, and Validation{message} for admission-rejected creates; the
    constructors keep the wrapped cause, as the calls in the sources pass one. *)
Definition NewNotFoundError (cause : option error) (resourceType : string) : error :=
  NotFoundError cause resourceType.

Definition NewForbiddenError (cause : option error) (resourceType : string) : error :=
  ForbiddenError cause resourceType.

Definition NewUnprocessableEntityError (cause : option error) (detail : string) : error :=
  UnprocessableEntityError cause detail.

(** Modelled from the spec: [apierrors.FromK8sError] is not among the
    sources. The spec's error taxonomy says that cluster-call failures are
    translated at the repository boundary: an absent object is reported as
    NotFound{resourceType}, a forbidden one as a Forbidden error that lookups
    then mask as NotFound, and every other failure is passed on as a generic
    error. A nil error stays nil: where the sources end in
    [return apierrors.FromK8sError(err, ...)], a call that did not fail
    succeeds, which [onError] expresses. *)
Definition FromK8sError (err : error) (resourceType : string) : error :=
  match err with
  | StatusErr e =>
      match Reason e with
      | StatusReasonNotFound => NewNotFoundError (Some err) resourceType
      | StatusReasonForbidden => NewForbiddenError (Some err) resourceType
      | _ => err
      end
  | _ => err
  end.

(** Modelled from the spec: [apierrors.ForbiddenAsNotFound] is not among the
    sources. The spec: "Forbidden reported as NotFound" - "lookups never
    distinguish the two"; any other error is left as it is. *)
Definition ForbiddenAsNotFound (err : error) : error :=
  match err with
  | ForbiddenError cause resourceType => NewNotFoundError cause resourceType
  | _ => err
  end.

End apierrors.

(** ** Kubernetes objects *)

Module metav1.

Record ObjectMeta := {
  Name : string;
  Namespace : string;
  Labels : gmap string string;
  CreationTimestamp : Z;
}.

Inductive ConditionStatus := ConditionTrue | ConditionFalse | ConditionUnknown.

#[global] Instance ConditionStatus_eq_dec : EqDecision ConditionStatus.
Proof. solve_decision. Defined.

Record Condition := { Type_ : string; Status : ConditionStatus }.

End metav1.

Module meta.

(** [meta.IsStatusConditionTrue]: the first condition of the given type
    decides; no such condition is [false]. *)
Fixpoint IsStatusConditionTrue (conditions : list metav1.Condition) (conditionType : string) : bool :=
  match conditions with
  | [] => false
  | condition :: rest =>
      if decide (metav1.Type_ condition = conditionType)
      then bool_decide (metav1.Status condition = metav1.ConditionTrue)
      else IsStatusConditionTrue rest conditionType
  end.

End meta.

Module v1alpha2.

(** The anchor's convergence state; [Pending] is the zero value an anchor has
    until the hierarchy controller has reconciled it. *)
Inductive SubnamespaceAnchorState := Pending | Ok | Missing | Conflict | Forbidden.

#[global] Instance SubnamespaceAnchorState_eq_dec : EqDecision SubnamespaceAnchorState.
Proof. solve_decision. Defined.

Record SubnamespaceAnchorStatus := { State : SubnamespaceAnchorState }.

Record SubnamespaceAnchor := {
  ObjectMeta : metav1.ObjectMeta;
  Status : SubnamespaceAnchorStatus;
}.

Record HierarchyConfiguration := {
  HCObjectMeta : metav1.ObjectMeta;
  AllowCascadingDeletion : bool;
}.

End v1alpha2.

Module workloads.

Record CFOrgSpec := { Name : string }.
Record CFOrgStatus := { Conditions : list metav1.Condition }.

Record CFOrg := {
  ObjectMeta : metav1.ObjectMeta;
  Spec : CFOrgSpec;
  Status : CFOrgStatus;
}.

End workloads.

Module corev1.

Record ServiceAccount := {
  ObjectMeta : metav1.ObjectMeta;
  ImagePullSecrets : list string;
  Secrets : list string;
}.

End corev1.

Module servicesv1alpha1.

Record CFServiceBindingSpec := {
  Name : option string;
  Service : string;   (* Spec.Service.Name *)
  AppRef : string;    (* Spec.AppRef.Name *)
}.

Record CFServiceBinding := {
  ObjectMeta : metav1.ObjectMeta;
  Spec : CFServiceBindingSpec;
}.

End servicesv1alpha1.

Module labels.

(** A label-selector requirement with operator [selection.In]. *)
Record Requirement := { key : string; strValues : list string }.

(** [Requirement.Matches] for [selection.In]: the label is present and its
    value is one of the requirement's. *)
Definition Matches (r : Requirement) (ls : gmap string string) : bool :=
  match ls !! key r with
  | Some v => bool_decide (v ∈ strValues r)
  | None => false
  end.

End labels.

Module authorization.

(** The caller's identity. *)
Definition Info := string.

End authorization.

(** ** The cluster, the collaborators and the calls made to them *)

Module client.

Inductive Identity := Privileged | AsUser (info : authorization.Info).

Inductive Verb := Create | Get | List | Delete | Watch.

Inductive Kind :=
| SubnamespaceAnchor
| HierarchyConfiguration
| CFOrg
| ServiceAccount
| CFServiceBinding.

(** One call to the API server. [namespace] is empty for a list over all
    namespaces, [name] is empty for a list. *)
Record Request := {
  identity : Identity;
  verb : Verb;
  kind : Kind;
  namespace : string;
  name : string;
}.

#[global] Instance Identity_eq_dec : EqDecision Identity.
Proof. solve_decision. Defined.
#[global] Instance Verb_eq_dec : EqDecision Verb.
Proof. solve_decision. Defined.
#[global] Instance Kind_eq_dec : EqDecision Kind.
Proof. solve_decision. Defined.
#[global] Instance Request_eq_dec : EqDecision Request.
Proof. solve_decision. Defined.

End client.

(** What a watch delivers: the object of an event, which the repositories
    type-assert to the kind they wait for. *)
Inductive WatchObject :=
| AnchorObject (a : v1alpha2.SubnamespaceAnchor)
| CFOrgObject (o : workloads.CFOrg)
| StatusObject.

(** The objects stored in the cluster. *)
Record Cluster := {
  anchors : list v1alpha2.SubnamespaceAnchor;
  hierarchies : list v1alpha2.HierarchyConfiguration;
  cfOrgs : list workloads.CFOrg;
  serviceAccounts : list corev1.ServiceAccount;
  serviceBindings : list servicesv1alpha1.CFServiceBinding;
}.

(** The state a repository call runs in and changes: the cluster, a logical
    clock in milliseconds that only [time.Sleep] advances, the number of
    UUIDs drawn so far, and the API calls made so far, oldest first. *)
Record World := {
  cluster : Cluster;
  clock : Z;
  uuids : nat;
  calls : list client.Request;
}.

(** Everything the repositories do not decide themselves: which API calls
    the cluster rejects (admission, RBAC, transport), what a watch delivers
    before its channel is closed, what [NamespacePermissions] answers at a
    given time, in which order Go's [range] visits the keys of a map, and the
    helpers of other packages. *)
Record Env := {
  apiFault : client.Request -> option StatusError;
  buildClientFault : authorization.Info -> option error;
  watchEvents : client.Request -> list WatchObject;
  authorizedOrgNamespaces : authorization.Info -> Z -> error + gmap string bool;
  authorizedSpaceNamespaces : authorization.Info -> Z -> error + gmap string bool;
  namespaceFor : string -> string -> error + string;
  uuidAt : nat -> string;
  validLabelValue : string -> bool;
  WebhookErrorToValidationError : error -> option string;
  rangeKeys : gmap string bool -> list string;
  formatTimestamp : Z -> string;
  getTimeLastUpdatedTimestamp : metav1.ObjectMeta -> string;
}.

(** ** The monad of repository calls *)

Inductive Outcome (A : Type) :=
| Done (a : A)
| Failed (e : error)
| OutOfFuel.

Arguments Done {A} a.
Arguments Failed {A} e.
Arguments OutOfFuel {A}.

Definition M (A : Type) : Type := World -> Outcome A * World.

Definition ret {A} (a : A) : M A := fun w => (Done a, w).

Definition throw {A} (e : error) : M A := fun w => (Failed e, w).

Definition bind {A B} (c : M A) (k : A -> M B) : M B :=
  fun w =>
    match c w with
    | (Done a, w') => k a w'
    | (Failed e, w') => (Failed e, w')
    | (OutOfFuel, w') => (OutOfFuel, w')
    end.

Notation "x <~ c ;; k" := (bind c (fun x => k))
  (at level 100, c at next level, right associativity).
Notation "c ;;; k" := (bind c (fun _ => k))
  (at level 100, right associativity).

(** [if err != nil { return ..., f(err) }] around a call. *)
Definition onError {A} (f : error -> error) (c : M A) : M A :=
  fun w =>
    match c w with
    | (Failed e, w') => (Failed (f e), w')
    | r => r
    end.

(** A call whose error the caller inspects instead of returning it. *)
Definition try {A} (c : M A) : M (error + A) :=
  fun w =>
    match c w with
    | (Done a, w') => (Done (inr a), w')
    | (Failed e, w') => (Done (inl e), w')
    | (OutOfFuel, w') => (OutOfFuel, w')
    end.

Definition liftResult {A} (r : error + A) : M A :=
  match r with inl e => throw e | inr a => ret a end.

Definition getWorld : M World := fun w => (Done w, w).

Definition setCluster (c : Cluster) : M unit :=
  fun w => (Done tt, {| cluster := c; clock := clock w; uuids := uuids w; calls := calls w |}).

(** [time.Sleep]. *)
Definition Sleep (ms : Z) : M unit :=
  fun w => (Done tt, {| cluster := cluster w; clock := (clock w + ms)%Z; uuids := uuids w; calls := calls w |}).

Definition logCall (req : client.Request) : M unit :=
  fun w => (Done tt, {| cluster := cluster w; clock := clock w; uuids := uuids w; calls := calls w ++ [req] |}).

Definition result {A} (x : Outcome A * World) : Outcome A := fst x.
Definition final {A} (x : Outcome A * World) : World := snd x.

(** The slice a Go function returns next to its error: nil with an error. *)
Definition returned {A} (o : Outcome (list A)) : list A :=
  match o with Done l => l | _ => [] end.

(** ** The Kubernetes client against the modelled cluster *)

Module k8s.

Section Collaborators.

Variable env : Env.

(** Every API call is recorded; the cluster may reject it. *)
Definition request (req : client.Request) : M unit :=
  logCall req ;;;
  match apiFault env req with
  | Some e => throw (StatusErr e)
  | None => ret tt
  end.

Definition notFound : error :=
  StatusErr {| Reason := StatusReasonNotFound; Message := "not found" |}.

Definition alreadyExists : error :=
  StatusErr {| Reason := StatusReasonAlreadyExists; Message := "already exists" |}.

(** [client.InNamespace(ns)], or no namespace option at all. *)
Definition inNamespace (ns : option string) (m : metav1.ObjectMeta) : Prop :=
  match ns with
  | Some n => metav1.Namespace m = n
  | None => True
  end.

#[global] Instance inNamespace_dec ns m : Decision (inNamespace ns m).
Proof. destruct ns; simpl; apply _. Defined.

(** [client.MatchingLabelsSelector], or no selector at all. *)
Definition matchesSelector (selector : option labels.Requirement) (m : metav1.ObjectMeta) : Prop :=
  match selector with
  | Some r => labels.Matches r (metav1.Labels m) = true
  | None => True
  end.

#[global] Instance matchesSelector_dec selector m : Decision (matchesSelector selector m).
Proof. destruct selector; simpl; apply _. Defined.

Definition named (ns name : string) (m : metav1.ObjectMeta) : Prop :=
  metav1.Namespace m = ns ∧ metav1.Name m = name.

#[global] Instance named_dec ns name m : Decision (named ns name m).
Proof. unfold named. apply _. Defined.

Definition listRequest (who : client.Identity) (k : client.Kind) (ns : option string) : client.Request :=
  {| client.identity := who; client.verb := client.List; client.kind := k;
     client.namespace := default "" ns; client.name := "" |}.

Definition objectRequest (who : client.Identity) (v : client.Verb) (k : client.Kind) (ns name : string) : client.Request :=
  {| client.identity := who; client.verb := v; client.kind := k;
     client.namespace := ns; client.name := name |}.

Definition ListAnchors (who : client.Identity) (ns : option string) (selector : option labels.Requirement) : M (list v1alpha2.SubnamespaceAnchor) :=
  request (listRequest who client.SubnamespaceAnchor ns) ;;;
  w <~ getWorld ;;
  ret (filter (fun a => inNamespace ns (v1alpha2.ObjectMeta a) ∧ matchesSelector selector (v1alpha2.ObjectMeta a))
              (anchors (cluster w))).

Definition ListCFOrgs (who : client.Identity) (ns : option string) : M (list workloads.CFOrg) :=
  request (listRequest who client.CFOrg ns) ;;;
  w <~ getWorld ;;
  ret (filter (fun o => inNamespace ns (workloads.ObjectMeta o)) (cfOrgs (cluster w))).

Definition ListServiceBindings (who : client.Identity) (ns : option string) : M (list servicesv1alpha1.CFServiceBinding) :=
  request (listRequest who client.CFServiceBinding ns) ;;;
  w <~ getWorld ;;
  ret (filter (fun b => inNamespace ns (servicesv1alpha1.ObjectMeta b)) (serviceBindings (cluster w))).

Definition GetHierarchyConfiguration (who : client.Identity) (ns name : string) : M v1alpha2.HierarchyConfiguration :=
  request (objectRequest who client.Get client.HierarchyConfiguration ns name) ;;;
  w <~ getWorld ;;
  match filter (fun h => named ns name (v1alpha2.HCObjectMeta h)) (hierarchies (cluster w)) with
  | h :: _ => ret h
  | [] => throw notFound
  end.

Definition GetServiceBinding (who : client.Identity) (ns name : string) : M servicesv1alpha1.CFServiceBinding :=
  request (objectRequest who client.Get client.CFServiceBinding ns name) ;;;
  w <~ getWorld ;;
  match filter (fun b => named ns name (servicesv1alpha1.ObjectMeta b)) (serviceBindings (cluster w)) with
  | b :: _ => ret b
  | [] => throw notFound
  end.

Definition stamp (m : metav1.ObjectMeta) (now : Z) : metav1.ObjectMeta :=
  {| metav1.Name := metav1.Name m; metav1.Namespace := metav1.Namespace m;
     metav1.Labels := metav1.Labels m; metav1.CreationTimestamp := now |}.

Definition CreateAnchor (who : client.Identity) (a : v1alpha2.SubnamespaceAnchor) : M unit :=
  let m := v1alpha2.ObjectMeta a in
  request (objectRequest who client.Create client.SubnamespaceAnchor (metav1.Namespace m) (metav1.Name m)) ;;;
  w <~ getWorld ;;
  let c := cluster w in
  if decide (Exists (fun x => named (metav1.Namespace m) (metav1.Name m) (v1alpha2.ObjectMeta x)) (anchors c))
  then throw alreadyExists
  else setCluster {| anchors := anchors c ++ [ {| v1alpha2.ObjectMeta := stamp m (clock w); v1alpha2.Status := v1alpha2.Status a |} ];
                     hierarchies := hierarchies c; cfOrgs := cfOrgs c;
                     serviceAccounts := serviceAccounts c; serviceBindings := serviceBindings c |}.

Definition CreateCFOrg (who : client.Identity) (o : workloads.CFOrg) : M unit :=
  let m := workloads.ObjectMeta o in
  request (objectRequest who client.Create client.CFOrg (metav1.Namespace m) (metav1.Name m)) ;;;
  w <~ getWorld ;;
  let c := cluster w in
  if decide (Exists (fun x => named (metav1.Namespace m) (metav1.Name m) (workloads.ObjectMeta x)) (cfOrgs c))
  then throw alreadyExists
  else setCluster {| anchors := anchors c; hierarchies := hierarchies c;
                     cfOrgs := cfOrgs c ++ [ {| workloads.ObjectMeta := stamp m (clock w); workloads.Spec := workloads.Spec o; workloads.Status := workloads.Status o |} ];
                     serviceAccounts := serviceAccounts c; serviceBindings := serviceBindings c |}.

Definition CreateServiceAccount (who : client.Identity) (sa : corev1.ServiceAccount) : M unit :=
  let m := corev1.ObjectMeta sa in
  request (objectRequest who client.Create client.ServiceAccount (metav1.Namespace m) (metav1.Name m)) ;;;
  w <~ getWorld ;;
  let c := cluster w in
  if decide (Exists (fun x => named (metav1.Namespace m) (metav1.Name m) (corev1.ObjectMeta x)) (serviceAccounts c))
  then throw alreadyExists
  else setCluster {| anchors := anchors c; hierarchies := hierarchies c; cfOrgs := cfOrgs c;
                     serviceAccounts := serviceAccounts c ++ [ {| corev1.ObjectMeta := stamp m (clock w); corev1.ImagePullSecrets := corev1.ImagePullSecrets sa; corev1.Secrets := corev1.Secrets sa |} ];
                     serviceBindings := serviceBindings c |}.

Definition DeleteAnchor (who : client.Identity) (ns name : string) : M unit :=
  request (objectRequest who client.Delete client.SubnamespaceAnchor ns name) ;;;
  w <~ getWorld ;;
  let c := cluster w in
  if decide (Exists (fun x => named ns name (v1alpha2.ObjectMeta x)) (anchors c))
  then setCluster {| anchors := filter (fun x => ¬ named ns name (v1alpha2.ObjectMeta x)) (anchors c);
                     hierarchies := hierarchies c; cfOrgs := cfOrgs c;
                     serviceAccounts := serviceAccounts c; serviceBindings := serviceBindings c |}
  else throw notFound.

Definition DeleteServiceBinding (who : client.Identity) (ns name : string) : M unit :=
  request (objectRequest who client.Delete client.CFServiceBinding ns name) ;;;
  w <~ getWorld ;;
  let c := cluster w in
  if decide (Exists (fun x => named ns name (servicesv1alpha1.ObjectMeta x)) (serviceBindings c))
  then setCluster {| anchors := anchors c; hierarchies := hierarchies c; cfOrgs := cfOrgs c;
                     serviceAccounts := serviceAccounts c;
                     serviceBindings := filter (fun x => ¬ named ns name (servicesv1alpha1.ObjectMeta x)) (serviceBindings c) |}
  else throw notFound.

(** [Create] of a service binding; the object comes back as the server
    stored it, with its creation timestamp. *)
Definition CreateServiceBinding (who : client.Identity) (b : servicesv1alpha1.CFServiceBinding)
    : M servicesv1alpha1.CFServiceBinding :=
  let m := servicesv1alpha1.ObjectMeta b in
  request (objectRequest who client.Create client.CFServiceBinding (metav1.Namespace m) (metav1.Name m)) ;;;
  w <~ getWorld ;;
  let c := cluster w in
  if decide (Exists (fun x => named (metav1.Namespace m) (metav1.Name m) (servicesv1alpha1.ObjectMeta x)) (serviceBindings c))
  then throw alreadyExists
  else
    let stored := {| servicesv1alpha1.ObjectMeta := stamp m (clock w);
                     servicesv1alpha1.Spec := servicesv1alpha1.Spec b |} in
    setCluster {| anchors := anchors c; hierarchies := hierarchies c; cfOrgs := cfOrgs c;
                  serviceAccounts := serviceAccounts c;
                  serviceBindings := serviceBindings c ++ [stored] |} ;;;
    ret stored.

(** [Watch] with [InNamespace] and a [metadata.name] field selector: the
    events the channel yields until it is closed, by the deadline of the
    context at the latest. *)
Definition Watch (who : client.Identity) (k : client.Kind) (ns name : string) : M (list WatchObject) :=
  let req := objectRequest who client.Watch k ns name in
  request req ;;;
  ret (watchEvents env req).

(** [UserK8sClientFactory.BuildClient]. *)
Definition BuildClient (info : authorization.Info) : M client.Identity :=
  match buildClientFault env info with
  | Some e => throw e
  | None => ret (client.AsUser info)
  end.

(** [NamespacePermissions]: a snapshot taken at the time of the call. *)
Definition GetAuthorizedOrgNamespaces (info : authorization.Info) : M (gmap string bool) :=
  fun w => liftResult (authorizedOrgNamespaces env info (clock w)) w.

Definition GetAuthorizedSpaceNamespaces (info : authorization.Info) : M (gmap string bool) :=
  fun w => liftResult (authorizedSpaceNamespaces env info (clock w)) w.

(** [NamespaceRetriever.NamespaceFor]. *)
Definition NamespaceFor (guid resourceType : string) : M string :=
  liftResult (namespaceFor env guid resourceType).

(** [uuid.NewString]. *)
Definition NewString : M string :=
  fun w => (Done (uuidAt env (uuids w)),
            {| cluster := cluster w; clock := clock w; uuids := S (uuids w); calls := calls w |}).

(** [labels.NewRequirement(key, selection.In, vals)]: refused when there is
    no value or when a value is not a valid label value. *)
Definition NewRequirement (key : string) (vals : list string) : M labels.Requirement :=
  if decide (vals = []) then throw (OpaqueError "for 'in', 'notin' operators, values set can't be empty")
  else if forallb (validLabelValue env) vals
  then ret {| labels.key := key; labels.strValues := vals |}
  else throw (OpaqueError "invalid label value").

End Collaborators.

End k8s.

(** Go's [m[k]] on a [map[string]bool]: [false] for an absent key. *)
Definition index (m : gmap string bool) (k : string) : bool := default false (m !! k).

(** Go's [_, ok := m[k]]. *)
Definition present {V} (m : gmap string V) (k : string) : bool := bool_decide (is_Some (m !! k)).

(** ** package repositories: what both revisions of the organization
    repository share *)

Module OrgRecord.
Record t := {
  Name : string;
  GUID : string;
  Suspended : bool;
  Labels : gmap string string;
  Annotations : gmap string string;
  CreatedAt : Z;
  UpdatedAt : Z;
}.
End OrgRecord.

Module SpaceRecord.
Record t := {
  Name : string;
  GUID : string;
  OrganizationGUID : string;
  Labels : gmap string string;
  Annotations : gmap string string;
  CreatedAt : Z;
  UpdatedAt : Z;
}.
End SpaceRecord.

Module CreateSpaceMessage.
Record t := {
  Name : string;
  OrganizationGUID : string;
  ImageRegistryCredentials : string;
}.
End CreateSpaceMessage.

Module ListOrgsMessage.
Record t := { Names : list string; GUIDs : list string }.
End ListOrgsMessage.

Module ListSpacesMessage.
Record t := {
  Names : list string;
  GUIDs : list string;
  OrganizationGUIDs : list string;
}.
End ListSpacesMessage.

Module DeleteOrgMessage.
Record t := { GUID : string }.
End DeleteOrgMessage.

Module CreateOrgMessage.
Record t := {
  Name : string;
  Suspended : bool;
  Labels : gmap string string;
  Annotations : gmap string string;
}.
End CreateOrgMessage.

(** [PermissionDeniedOrNotFoundError]: the error that does not tell a denied
    resource from an absent one. [errorText] is the [Error] method of the
    wrapped error. *)
Module PermissionDeniedOrNotFoundError.

Record t := {
  Err : option error;
  ResourceType : string;
}.

Section Text.

Variable errorText : error -> string.

Definition Error (e : t) : string :=
  let msg := "not found" in
  let msg := if decide (ResourceType e ≠ "") then (ResourceType e +:+ " ") +:+ msg else msg in
  let msg := match Err e with
             | Some err => (msg +:+ ": ") +:+ errorText err
             | None => msg
             end in
  msg.

End Text.

Definition Unwrap (e : t) : option error := Err e.

End PermissionDeniedOrNotFoundError.

Module DeleteSpaceMessage.
Record t := { GUID : string; OrganizationGUID : string }.
End DeleteSpaceMessage.

(** The fields of the [OrgRepo] struct that are plain data; its clients and
    [nsPerms] are in [Env]. [timeout] is in milliseconds. *)
Record OrgRepo := {
  rootNamespace : string;
  timeout : Z;
}.

Module repositories.

Definition OrgNameLabel : string := "cloudfoundry.org/org-name".
Definition SpaceNameLabel : string := "cloudfoundry.org/space-name".
Definition hierarchyMetadataName : string := "hierarchy".
Definition OrgResourceType : string := "Org".
Definition SpaceResourceType : string := "Space".
Definition OrgPrefix : string := "cf-org-".
Definition SpacePrefix : string := "cf-space-".

Definition toMap (elements : list string) : gset string := list_to_set elements.

Definition matchFilter (filter : gset string) (value : string) : bool :=
  if decide (size filter = 0) then true
  else bool_decide (value ∈ filter).

(** Modelled from the spec: [matchesFilter], the slice version of
    [matchFilter], is not among the sources. The spec: "empty filter matches
    all, non-empty is a membership test". *)
Definition matchesFilter (field : string) (filter : list string) : bool :=
  if decide (length filter = 0) then true
  else bool_decide (field ∈ filter).

(** [anchor.Labels[key]]: the empty string for an absent label. *)
Definition label (m : metav1.ObjectMeta) (key : string) : string :=
  default "" (metav1.Labels m !! key).

(** The [OrgRecord] literal that [ListOrgs] appends for an anchor. *)
Definition anchorToOrgRecord (anchor : v1alpha2.SubnamespaceAnchor) : OrgRecord.t :=
  let m := v1alpha2.ObjectMeta anchor in
  {| OrgRecord.Name := label m OrgNameLabel;
     OrgRecord.GUID := metav1.Name m;
     OrgRecord.Suspended := false;
     OrgRecord.Labels := ∅;
     OrgRecord.Annotations := ∅;
     OrgRecord.CreatedAt := metav1.CreationTimestamp m;
     OrgRecord.UpdatedAt := metav1.CreationTimestamp m |}.

(** The [OrgRecord] literal that [ListOrgs] appends for a CFOrg. *)
Definition cfOrgToOrgRecord (cfOrg : workloads.CFOrg) : OrgRecord.t :=
  let m := workloads.ObjectMeta cfOrg in
  {| OrgRecord.Name := workloads.Name (workloads.Spec cfOrg);
     OrgRecord.GUID := metav1.Name m;
     OrgRecord.Suspended := false;
     OrgRecord.Labels := ∅;
     OrgRecord.Annotations := ∅;
     OrgRecord.CreatedAt := metav1.CreationTimestamp m;
     OrgRecord.UpdatedAt := metav1.CreationTimestamp m |}.

(** The [SpaceRecord] literal that [ListSpaces] appends for an anchor. *)
Definition anchorToSpaceRecord (anchor : v1alpha2.SubnamespaceAnchor) : SpaceRecord.t :=
  let m := v1alpha2.ObjectMeta anchor in
  {| SpaceRecord.Name := label m SpaceNameLabel;
     SpaceRecord.GUID := metav1.Name m;
     SpaceRecord.OrganizationGUID := metav1.Namespace m;
     SpaceRecord.Labels := ∅;
     SpaceRecord.Annotations := ∅;
     SpaceRecord.CreatedAt := metav1.CreationTimestamp m;
     SpaceRecord.UpdatedAt := metav1.CreationTimestamp m |}.

Section OrgRepo.

Variable env : Env.
Variable r : OrgRepo.

(** The [for res := range watch.ResultChan()] loop of
    [createSubnamespaceAnchor]: [Some createdAnchor] when it leaves with
    [stateOK], [None] when the channel is closed first. *)
Fixpoint createSubnamespaceAnchor_watch (events : list WatchObject) : option v1alpha2.SubnamespaceAnchor :=
  match events with
  | [] => None
  | AnchorObject createdAnchor :: rest =>
      if decide (v1alpha2.State (v1alpha2.Status createdAnchor) = v1alpha2.Ok)
      then Some createdAnchor
      else createSubnamespaceAnchor_watch rest
  | _ :: rest => createSubnamespaceAnchor_watch rest
  end.

(** The loop labelled [outer] of [createSubnamespaceAnchor]; [fuel] bounds
    the number of iterations. *)
Fixpoint createSubnamespaceAnchor_outer (fuel : nat) (info : authorization.Info)
    (resourceType anchorName : string) (t1 : Z) : M unit :=
  match fuel with
  | O => fun w => (OutOfFuel, w)
  | S fuel' =>
      w <~ getWorld ;;
      if decide (timeout r <= clock w - t1)%Z
      then throw (Errorf "failed establishing permissions in new namespace after %s: %w"
                         [ArgDuration (clock w - t1)] None)
      else
        authorizedNamespaces <~
          (if decide (resourceType = OrgResourceType)
           then k8s.GetAuthorizedOrgNamespaces env info
           else k8s.GetAuthorizedSpaceNamespaces env info) ;;
        if present authorizedNamespaces anchorName then ret tt
        else
          Sleep 500 ;;;
          createSubnamespaceAnchor_outer fuel' info resourceType anchorName t1
  end.

Definition createSubnamespaceAnchor (fuel : nat) (info : authorization.Info)
    (userClient : client.Identity) (anchor : v1alpha2.SubnamespaceAnchor)
    (resourceType : string) : M v1alpha2.SubnamespaceAnchor :=
  let m := v1alpha2.ObjectMeta anchor in
  onError (fun err => Errorf "failed to create subnamespaceanchor: %w" []
                             (Some (apierrors.FromK8sError err resourceType)))
          (k8s.CreateAnchor env userClient anchor) ;;;
  events <~ onError (fun err => Errorf "failed to set up watch on subnamespaceanchors: %w" []
                                       (Some (apierrors.FromK8sError err resourceType)))
                    (k8s.Watch env client.Privileged client.SubnamespaceAnchor
                               (metav1.Namespace m) (metav1.Name m)) ;;
  match createSubnamespaceAnchor_watch events with
  | None =>
      throw (Errorf "subnamespaceanchor did not get state 'ok' within timeout period %d ms"
                    [ArgInt (timeout r)] None)
  | Some createdAnchor =>
      w <~ getWorld ;;
      let t1 := clock w in
      createSubnamespaceAnchor_outer fuel info resourceType (metav1.Name m) t1 ;;;
      ret createdAnchor
  end.

Definition ListSpaces (info : authorization.Info) (message : ListSpacesMessage.t) : M (list SpaceRecord.t) :=
  items <~ onError (fun err => apierrors.FromK8sError err SpaceResourceType)
                   (k8s.ListAnchors env client.Privileged None None) ;;
  let orgsFilter := toMap (ListSpacesMessage.OrganizationGUIDs message) in
  let orgUIDs : gset string :=
    list_to_set
      (omap (fun anchor : v1alpha2.SubnamespaceAnchor =>
               let m := v1alpha2.ObjectMeta anchor in
               if decide (metav1.Namespace m ≠ rootNamespace r) then None
               else if negb (matchFilter orgsFilter (metav1.Name m)) then None
               else Some (metav1.Name m))
            items) in
  let nameFilter := toMap (ListSpacesMessage.Names message) in
  let guidFilter := toMap (ListSpacesMessage.GUIDs message) in
  let records :=
    omap (fun anchor : v1alpha2.SubnamespaceAnchor =>
            let m := v1alpha2.ObjectMeta anchor in
            if decide (v1alpha2.State (v1alpha2.Status anchor) ≠ v1alpha2.Ok) then None
            else
              let spaceName := label m SpaceNameLabel in
              if negb (matchFilter nameFilter spaceName) then None
              else if negb (matchFilter guidFilter (metav1.Name m)) then None
              else if negb (bool_decide (metav1.Namespace m ∈ orgUIDs)) then None
              else Some (anchorToSpaceRecord anchor))
         items in
  authorizedNamespaces <~ k8s.GetAuthorizedSpaceNamespaces env info ;;
  ret (omap (fun space => if negb (index authorizedNamespaces (SpaceRecord.GUID space)) then None
                          else Some space)
            records).

Definition GetSpace (info : authorization.Info) (spaceGUID : string) : M SpaceRecord.t :=
  spaceRecords <~ ListSpaces info {| ListSpacesMessage.Names := [];
                                     ListSpacesMessage.GUIDs := [spaceGUID];
                                     ListSpacesMessage.OrganizationGUIDs := [] |} ;;
  match spaceRecords with
  | [] => throw (apierrors.NewNotFoundError
                   (Some (Errorf "space %q not found" [ArgString spaceGUID] None))
                   SpaceResourceType)
  | record :: _ => ret record
  end.

Definition DeleteOrg (info : authorization.Info) (message : DeleteOrgMessage.t) : M unit :=
  onError (fun err => apierrors.FromK8sError err OrgResourceType)
          (k8s.GetHierarchyConfiguration env client.Privileged
             (DeleteOrgMessage.GUID message) hierarchyMetadataName) ;;;
  userClient <~ onError (fun err => Errorf "failed to build user client: %w" [] (Some err))
                        (k8s.BuildClient env info) ;;
  onError (fun err => apierrors.FromK8sError err OrgResourceType)
          (k8s.DeleteAnchor env userClient (rootNamespace r) (DeleteOrgMessage.GUID message)).

Definition DeleteSpace (info : authorization.Info) (message : DeleteSpaceMessage.t) : M unit :=
  userClient <~ onError (fun err => Errorf "failed to build user client: %w" [] (Some err))
                        (k8s.BuildClient env info) ;;
  onError (fun err => apierrors.FromK8sError err SpaceResourceType)
          (k8s.DeleteAnchor env userClient
             (DeleteSpaceMessage.OrganizationGUID message) (DeleteSpaceMessage.GUID message)).

Section WithGetOrg.

(** [CreateSpace] is the same text in both revisions; the [GetOrg] it calls
    is the revision's own. *)
Variable GetOrg : authorization.Info -> string -> M OrgRecord.t.

Definition CreateSpace (fuel : nat) (info : authorization.Info) (message : CreateSpaceMessage.t) : M SpaceRecord.t :=
  onError (fun err => Errorf "failed to get parent organization: %w" [] (Some err))
          (GetOrg info (CreateSpaceMessage.OrganizationGUID message)) ;;;
  uuid <~ k8s.NewString env ;;
  let spaceGUID := SpacePrefix +:+ uuid in
  userClient <~ onError (fun err => Errorf "failed to build user client: %w" [] (Some err))
                        (k8s.BuildClient env info) ;;
  anchor <~ onError (fun err => match WebhookErrorToValidationError env err with
                                | Some webhookError => apierrors.NewUnprocessableEntityError (Some err) webhookError
                                | None => err
                                end)
                    (createSubnamespaceAnchor fuel info userClient
                       {| v1alpha2.ObjectMeta :=
                            {| metav1.Name := spaceGUID;
                               metav1.Namespace := CreateSpaceMessage.OrganizationGUID message;
                               metav1.Labels := {[ SpaceNameLabel := CreateSpaceMessage.Name message ]};
                               metav1.CreationTimestamp := 0 |};
                          v1alpha2.Status := {| v1alpha2.State := v1alpha2.Pending |} |}
                       SpaceResourceType) ;;
  let kpackServiceAccount :=
    {| corev1.ObjectMeta := {| metav1.Name := "kpack-service-account"; metav1.Namespace := spaceGUID;
                               metav1.Labels := ∅; metav1.CreationTimestamp := 0 |};
       corev1.ImagePullSecrets := [CreateSpaceMessage.ImageRegistryCredentials message];
       corev1.Secrets := [CreateSpaceMessage.ImageRegistryCredentials message] |} in
  onError (fun err => apierrors.FromK8sError err SpaceResourceType)
          (k8s.CreateServiceAccount env client.Privileged kpackServiceAccount) ;;;
  let eiriniServiceAccount :=
    {| corev1.ObjectMeta := {| metav1.Name := "eirini"; metav1.Namespace := spaceGUID;
                               metav1.Labels := ∅; metav1.CreationTimestamp := 0 |};
       corev1.ImagePullSecrets := []; corev1.Secrets := [] |} in
  onError (fun err => apierrors.FromK8sError err SpaceResourceType)
          (k8s.CreateServiceAccount env client.Privileged eiriniServiceAccount) ;;;
  let anchorMeta := v1alpha2.ObjectMeta anchor in
  ret {| SpaceRecord.Name := CreateSpaceMessage.Name message;
         SpaceRecord.GUID := metav1.Name anchorMeta;
         SpaceRecord.OrganizationGUID := CreateSpaceMessage.OrganizationGUID message;
         SpaceRecord.Labels := ∅;
         SpaceRecord.Annotations := ∅;
         SpaceRecord.CreatedAt := metav1.CreationTimestamp anchorMeta;
         SpaceRecord.UpdatedAt := metav1.CreationTimestamp anchorMeta |}.

End WithGetOrg.

End OrgRepo.

End repositories.

(** ** api/repositories/org_repository.go: organizations are subnamespace
    anchors under the root namespace *)

Module AnchorOrgs.

Import repositories.

Section OrgRepo.

Variable env : Env.
Variable r : OrgRepo.

Definition ListOrgs (info : authorization.Info) (filter : ListOrgsMessage.t) : M (list OrgRecord.t) :=
  namesSelector <~
    (if decide (0 < length (ListOrgsMessage.Names filter))
     then
       namesRequirement <~ k8s.NewRequirement env OrgNameLabel (ListOrgsMessage.Names filter) ;;
       ret (Some namesRequirement)
     else ret None) ;;
  items <~ onError (fun err => apierrors.FromK8sError err OrgResourceType)
                   (k8s.ListAnchors env client.Privileged (Some (rootNamespace r)) namesSelector) ;;
  let guidFilter := toMap (ListOrgsMessage.GUIDs filter) in
  let records :=
    omap (fun anchor : v1alpha2.SubnamespaceAnchor =>
            let m := v1alpha2.ObjectMeta anchor in
            if decide (v1alpha2.State (v1alpha2.Status anchor) ≠ v1alpha2.Ok) then None
            else if negb (matchFilter guidFilter (metav1.Name m)) then None
            else Some (anchorToOrgRecord anchor))
         items in
  authorizedNamespaces <~ k8s.GetAuthorizedOrgNamespaces env info ;;
  ret (omap (fun org => if negb (index authorizedNamespaces (OrgRecord.GUID org)) then None
                        else Some org)
            records).

Definition GetOrg (info : authorization.Info) (orgGUID : string) : M OrgRecord.t :=
  orgRecords <~ ListOrgs info {| ListOrgsMessage.Names := []; ListOrgsMessage.GUIDs := [orgGUID] |} ;;
  match orgRecords with
  | [] => throw (apierrors.NewNotFoundError None OrgResourceType)
  | record :: _ => ret record
  end.

Definition CreateSpace : nat -> authorization.Info -> CreateSpaceMessage.t -> M SpaceRecord.t :=
  repositories.CreateSpace env r GetOrg.

End OrgRepo.

End AnchorOrgs.

(** ** The other revision of org_repository.go: organizations are CFOrg
    resources with a Ready condition *)

Module CFOrgs.

Import repositories.

Section OrgRepo.

Variable env : Env.
Variable r : OrgRepo.

(** The [for res := range watch.ResultChan()] loop of [createOrgCR]. *)
Fixpoint createOrgCR_watch (events : list WatchObject) : option workloads.CFOrg :=
  match events with
  | [] => None
  | CFOrgObject createdOrg :: rest =>
      if meta.IsStatusConditionTrue (workloads.Conditions (workloads.Status createdOrg)) "Ready"
      then Some createdOrg
      else createOrgCR_watch rest
  | _ :: rest => createOrgCR_watch rest
  end.

(** The loop labelled [outer] of [createOrgCR]. *)
Fixpoint createOrgCR_outer (fuel : nat) (info : authorization.Info) (orgName : string) (t1 : Z) : M unit :=
  match fuel with
  | O => fun w => (OutOfFuel, w)
  | S fuel' =>
      w <~ getWorld ;;
      if decide (timeout r <= clock w - t1)%Z
      then throw (Errorf "failed establishing permissions in new namespace after %s: %w"
                         [ArgDuration (clock w - t1)] None)
      else
        authorizedNamespaces <~ k8s.GetAuthorizedOrgNamespaces env info ;;
        if present authorizedNamespaces orgName then ret tt
        else
          Sleep 500 ;;;
          createOrgCR_outer fuel' info orgName t1
  end.

Definition createOrgCR (fuel : nat) (info : authorization.Info)
    (userClient : client.Identity) (org : workloads.CFOrg) : M workloads.CFOrg :=
  let m := workloads.ObjectMeta org in
  onError (fun err => Errorf "failed to create cf org: %w" []
                             (Some (apierrors.FromK8sError err OrgResourceType)))
          (k8s.CreateCFOrg env userClient org) ;;;
  events <~ onError (fun err => Errorf "failed to set up watch on cf org: %w" []
                                       (Some (apierrors.FromK8sError err OrgResourceType)))
                    (k8s.Watch env client.Privileged client.CFOrg
                               (metav1.Namespace m) (metav1.Name m)) ;;
  match createOrgCR_watch events with
  | None =>
      throw (Errorf "cf org did not get Condition `Ready`: 'True' within timeout period %d ms"
                    [ArgInt (timeout r)] None)
  | Some createdOrg =>
      w <~ getWorld ;;
      let t1 := clock w in
      createOrgCR_outer fuel info (metav1.Name m) t1 ;;;
      ret createdOrg
  end.

Definition ListOrgs (info : authorization.Info) (filter : ListOrgsMessage.t) : M (list OrgRecord.t) :=
  items <~ onError (fun err => apierrors.FromK8sError err OrgResourceType)
                   (k8s.ListCFOrgs env client.Privileged (Some (rootNamespace r))) ;;
  let records :=
    omap (fun cfOrg : workloads.CFOrg =>
            let m := workloads.ObjectMeta cfOrg in
            if negb (meta.IsStatusConditionTrue (workloads.Conditions (workloads.Status cfOrg)) "Ready")
            then None
            else if matchesFilter (metav1.Name m) (ListOrgsMessage.GUIDs filter)
                    && matchesFilter (workloads.Name (workloads.Spec cfOrg)) (ListOrgsMessage.Names filter)
            then Some (cfOrgToOrgRecord cfOrg)
            else None)
         items in
  authorizedNamespaces <~ k8s.GetAuthorizedOrgNamespaces env info ;;
  ret (omap (fun org => if negb (index authorizedNamespaces (OrgRecord.GUID org)) then None
                        else Some org)
            records).

Definition GetOrg (info : authorization.Info) (orgGUID : string) : M OrgRecord.t :=
  orgRecords <~ ListOrgs info {| ListOrgsMessage.Names := []; ListOrgsMessage.GUIDs := [orgGUID] |} ;;
  match orgRecords with
  | [] => throw (apierrors.NewNotFoundError None OrgResourceType)
  | record :: _ => ret record
  end.

Definition CreateSpace : nat -> authorization.Info -> CreateSpaceMessage.t -> M SpaceRecord.t :=
  repositories.CreateSpace env r GetOrg.

Definition CreateOrg (fuel : nat) (info : authorization.Info) (org : CreateOrgMessage.t) : M OrgRecord.t :=
  userClient <~ onError (fun err => Errorf "failed to build user client: %w" [] (Some err))
                        (k8s.BuildClient env info) ;;
  uuid <~ k8s.NewString env ;;
  orgCR <~ onError (fun err => match WebhookErrorToValidationError env err with
                               | Some webhookError => apierrors.NewUnprocessableEntityError (Some err) webhookError
                               | None => err
                               end)
                   (createOrgCR fuel info userClient
                      {| workloads.ObjectMeta :=
                           {| metav1.Name := OrgPrefix +:+ uuid;
                              metav1.Namespace := rootNamespace r;
                              metav1.Labels := ∅;
                              metav1.CreationTimestamp := 0 |};
                         workloads.Spec := {| workloads.Name := CreateOrgMessage.Name org |};
                         workloads.Status := {| workloads.Conditions := [] |} |}) ;;
  let orgMeta := workloads.ObjectMeta orgCR in
  ret {| OrgRecord.Name := CreateOrgMessage.Name org;
         OrgRecord.GUID := metav1.Name orgMeta;
         OrgRecord.Suspended := CreateOrgMessage.Suspended org;
         OrgRecord.Labels := CreateOrgMessage.Labels org;
         OrgRecord.Annotations := CreateOrgMessage.Annotations org;
         OrgRecord.CreatedAt := metav1.CreationTimestamp orgMeta;
         OrgRecord.UpdatedAt := metav1.CreationTimestamp orgMeta |}.

End OrgRepo.

End CFOrgs.

(** ** api/repositories/service_binding_repository.go *)

Module ServiceBindingLastOperation.
Record t := {
  Type_ : string;
  State : string;
  Description : option string;
  CreatedAt : string;
  UpdatedAt : string;
}.
End ServiceBindingLastOperation.

Module ServiceBindingRecord.
Record t := {
  GUID : string;
  Type_ : string;
  Name : option string;
  AppGUID : string;
  ServiceInstanceGUID : string;
  SpaceGUID : string;
  CreatedAt : string;
  UpdatedAt : string;
  LastOperation : ServiceBindingLastOperation.t;
}.
End ServiceBindingRecord.

Module ListServiceBindingsMessage.
Record t := {
  AppGUIDs : list string;
  ServiceInstanceGUIDs : list string;
}.
End ListServiceBindingsMessage.

Module CreateServiceBindingMessage.
Record t := {
  Name : option string;
  ServiceInstanceGUID : string;
  AppGUID : string;
  SpaceGUID : string;
}.
End CreateServiceBindingMessage.

Module ServiceBindingRepo.

Import repositories.

Definition ServiceBindingResourceType : string := "Service Binding".
Definition ServiceBindingTypeApp : string := "app".

Section ServiceBindingRepo.

Variable env : Env.

Definition DeleteServiceBinding (authInfo : authorization.Info) (guid : string) : M unit :=
  userClient <~ onError (fun err => Errorf "failed to build user client: %w" [] (Some err))
                        (k8s.BuildClient env authInfo) ;;
  namespace <~ k8s.NamespaceFor env guid ServiceBindingResourceType ;;
  binding <~ onError (fun err => apierrors.ForbiddenAsNotFound
                                   (apierrors.FromK8sError err ServiceBindingResourceType))
                     (k8s.GetServiceBinding env userClient namespace guid) ;;
  let m := servicesv1alpha1.ObjectMeta binding in
  onError (fun err => apierrors.FromK8sError err ServiceBindingResourceType)
          (k8s.DeleteServiceBinding env userClient (metav1.Namespace m) (metav1.Name m)).

Definition ServiceBindingExists (authInfo : authorization.Info)
    (spaceGUID appGUID serviceInstanceGUID : string) : M bool :=
  userClient <~ onError (fun err => Errorf "failed to build user client: %w" [] (Some err))
                        (k8s.BuildClient env authInfo) ;;
  items <~ onError (fun err => apierrors.FromK8sError err ServiceBindingResourceType)
                   (k8s.ListServiceBindings env userClient (Some spaceGUID)) ;;
  ret (existsb (fun serviceBinding =>
                  bool_decide (servicesv1alpha1.AppRef (servicesv1alpha1.Spec serviceBinding) = appGUID)
                  && bool_decide (servicesv1alpha1.Service (servicesv1alpha1.Spec serviceBinding) = serviceInstanceGUID))
               items).

Definition cfServiceBindingToRecord (binding : servicesv1alpha1.CFServiceBinding) : ServiceBindingRecord.t :=
  let m := servicesv1alpha1.ObjectMeta binding in
  let createdAt := formatTimestamp env (metav1.CreationTimestamp m) in
  let updatedAt := getTimeLastUpdatedTimestamp env m in
  {| ServiceBindingRecord.GUID := metav1.Name m;
     ServiceBindingRecord.Type_ := ServiceBindingTypeApp;
     ServiceBindingRecord.Name := servicesv1alpha1.Name (servicesv1alpha1.Spec binding);
     ServiceBindingRecord.AppGUID := servicesv1alpha1.AppRef (servicesv1alpha1.Spec binding);
     ServiceBindingRecord.ServiceInstanceGUID := servicesv1alpha1.Service (servicesv1alpha1.Spec binding);
     ServiceBindingRecord.SpaceGUID := metav1.Namespace m;
     ServiceBindingRecord.CreatedAt := createdAt;
     ServiceBindingRecord.UpdatedAt := updatedAt;
     ServiceBindingRecord.LastOperation :=
       {| ServiceBindingLastOperation.Type_ := "create";
          ServiceBindingLastOperation.State := "succeeded";
          ServiceBindingLastOperation.Description := None;
          ServiceBindingLastOperation.CreatedAt := createdAt;
          ServiceBindingLastOperation.UpdatedAt := updatedAt |} |}.

Definition applyServiceBindingListFilter (serviceBindingList : list servicesv1alpha1.CFServiceBinding)
    (message : ListServiceBindingsMessage.t) : list servicesv1alpha1.CFServiceBinding :=
  omap (fun serviceBinding =>
          if matchesFilter (servicesv1alpha1.Service (servicesv1alpha1.Spec serviceBinding))
                           (ListServiceBindingsMessage.ServiceInstanceGUIDs message)
             && matchesFilter (servicesv1alpha1.AppRef (servicesv1alpha1.Spec serviceBinding))
                              (ListServiceBindingsMessage.AppGUIDs message)
          then Some serviceBinding
          else None)
       serviceBindingList.

Definition toServiceBindingRecords (serviceInstanceList : list servicesv1alpha1.CFServiceBinding) : list ServiceBindingRecord.t :=
  map cfServiceBindingToRecord serviceInstanceList.

(** The [for ns := range nsList] loop of [ListServiceBindings], over the keys
    in the order the runtime visits them. *)
Fixpoint ListServiceBindings_range (userClient : client.Identity) (message : ListServiceBindingsMessage.t)
    (namespaces : list string) (filteredServiceBindings : list servicesv1alpha1.CFServiceBinding)
    : M (list servicesv1alpha1.CFServiceBinding) :=
  match namespaces with
  | [] => ret filteredServiceBindings
  | ns :: rest =>
      listed <~ try (k8s.ListServiceBindings env userClient (Some ns)) ;;
      match listed with
      | inl err =>
          if k8serrors.IsForbidden err
          then ListServiceBindings_range userClient message rest filteredServiceBindings
          else throw (Errorf "failed to list service instances in namespace %s: %w" [ArgString ns]
                             (Some (apierrors.FromK8sError err ServiceBindingResourceType)))
      | inr items =>
          ListServiceBindings_range userClient message rest
            (filteredServiceBindings ++ applyServiceBindingListFilter items message)
      end
  end.

Definition ListServiceBindings (authInfo : authorization.Info) (message : ListServiceBindingsMessage.t) : M (list ServiceBindingRecord.t) :=
  nsList <~ onError (fun err => Errorf "failed to list namespaces for spaces with user role bindings: %w" [] (Some err))
                    (k8s.GetAuthorizedSpaceNamespaces env authInfo) ;;
  userClient <~ onError (fun err => Errorf "failed to build user client: %w" [] (Some err))
                        (k8s.BuildClient env authInfo) ;;
  filteredServiceBindings <~ ListServiceBindings_range userClient message (rangeKeys env nsList) [] ;;
  ret (toServiceBindingRecords filteredServiceBindings).

Definition LabelServiceBindingProvisionedService : string := "servicebinding.io/provisioned-service".

(** [CreateServiceBindingMessage.toCFServiceBinding]; it draws the UUID that
    names the binding. *)
Definition toCFServiceBinding (m : CreateServiceBindingMessage.t) : M servicesv1alpha1.CFServiceBinding :=
  guid <~ k8s.NewString env ;;
  ret {| servicesv1alpha1.ObjectMeta :=
           {| metav1.Name := guid;
              metav1.Namespace := CreateServiceBindingMessage.SpaceGUID m;
              metav1.Labels := {[ LabelServiceBindingProvisionedService := "true" ]};
              metav1.CreationTimestamp := 0 |};
         servicesv1alpha1.Spec :=
           {| servicesv1alpha1.Name := CreateServiceBindingMessage.Name m;
              servicesv1alpha1.Service := CreateServiceBindingMessage.ServiceInstanceGUID m;
              servicesv1alpha1.AppRef := CreateServiceBindingMessage.AppGUID m |} |}.

Definition CreateServiceBinding (authInfo : authorization.Info) (message : CreateServiceBindingMessage.t)
    : M ServiceBindingRecord.t :=
  userClient <~ onError (fun err => Errorf "failed to build user client: %w" [] (Some err))
                        (k8s.BuildClient env authInfo) ;;
  cfServiceBinding <~ toCFServiceBinding message ;;
  created <~ onError (fun err => apierrors.FromK8sError err ServiceBindingResourceType)
                     (k8s.CreateServiceBinding env userClient cfServiceBinding) ;;
  ret (cfServiceBindingToRecord created).

End ServiceBindingRepo.

End ServiceBindingRepo.

(** Go's [range] over a map visits every key once, in an order of the
    runtime's choosing. *)
Definition rangeKeys_ok (env : Env) : Prop :=
  ∀ m : gmap string bool, rangeKeys env m ≡ₚ elements (dom m).

(** ** A small cluster to run the repositories on *)

Module Sample.

Definition objectMeta (ns name : string) (ls : list (string * string)) : metav1.ObjectMeta :=
  {| metav1.Name := name; metav1.Namespace := ns;
     metav1.Labels := list_to_map ls; metav1.CreationTimestamp := 0 |}.

Definition anchor (ns name labelKey labelValue : string) (st : v1alpha2.SubnamespaceAnchorState) : v1alpha2.SubnamespaceAnchor :=
  {| v1alpha2.ObjectMeta := objectMeta ns name [(labelKey, labelValue)];
     v1alpha2.Status := {| v1alpha2.State := st |} |}.

Definition cfOrg (name displayName : string) (ready : metav1.ConditionStatus) : workloads.CFOrg :=
  {| workloads.ObjectMeta := objectMeta "cf" name [];
     workloads.Spec := {| workloads.Name := displayName |};
     workloads.Status := {| workloads.Conditions := [ {| metav1.Type_ := "Ready"; metav1.Status := ready |} ] |} |}.

Definition binding (ns name app instance : string) : servicesv1alpha1.CFServiceBinding :=
  {| servicesv1alpha1.ObjectMeta := objectMeta ns name [];
     servicesv1alpha1.Spec := {| servicesv1alpha1.Name := None;
                                 servicesv1alpha1.Service := instance;
                                 servicesv1alpha1.AppRef := app |} |}.

(** Three organizations under the root namespace "cf" - "cf-org-a" converged,
    "cf-org-b" still pending, "cf-org-x" converged but granted to nobody
    here - with one space under each of the first two, and two bindings in
    the first space. *)
Definition objects : Cluster :=
  {| anchors := [ anchor "cf" "cf-org-a" repositories.OrgNameLabel "acme" v1alpha2.Ok;
                  anchor "cf" "cf-org-b" repositories.OrgNameLabel "beta" v1alpha2.Pending;
                  anchor "cf" "cf-org-x" repositories.OrgNameLabel "xeno" v1alpha2.Ok;
                  anchor "cf-org-a" "cf-space-1" repositories.SpaceNameLabel "dev" v1alpha2.Ok;
                  anchor "cf-org-b" "cf-space-2" repositories.SpaceNameLabel "staging" v1alpha2.Ok ];
     hierarchies := [ {| v1alpha2.HCObjectMeta := objectMeta "cf-org-a" "hierarchy" [];
                         v1alpha2.AllowCascadingDeletion := true |} ];
     cfOrgs := [ cfOrg "cf-org-a" "acme" metav1.ConditionTrue;
                 cfOrg "cf-org-b" "beta" metav1.ConditionFalse;
                 cfOrg "cf-org-x" "xeno" metav1.ConditionTrue ];
     serviceAccounts := [];
     serviceBindings := [ binding "cf-space-1" "binding-1" "app-1" "instance-1";
                          binding "cf-space-1" "binding-2" "app-2" "instance-2";
                          binding "cf-space-2" "binding-3" "app-1" "instance-2" ] |}.

Definition world : World :=
  {| cluster := objects; clock := 0; uuids := 0; calls := [] |}.

Definition repo : OrgRepo := {| rootNamespace := "cf"; timeout := 1200 |}.

Definition forbidden : StatusError :=
  {| Reason := StatusReasonForbidden; Message := "forbidden" |}.

(** Every caller but "bob" sees the organizations "cf-org-a" and "cf-org-b",
    "bob" sees "cf-org-x"; everyone sees both spaces; a watch delivers a
    status object, the watched object not yet converged, and then the object
    converged. *)
Definition env : Env :=
  {| apiFault := fun _ => None;
     buildClientFault := fun _ => None;
     watchEvents := fun req =>
       let ns := client.namespace req in
       let name := client.name req in
       match client.kind req with
       | client.CFOrg =>
           [ StatusObject;
             CFOrgObject (cfOrg name "acme" metav1.ConditionFalse);
             CFOrgObject (cfOrg name "acme" metav1.ConditionTrue) ]
       | _ =>
           [ StatusObject;
             AnchorObject (anchor ns name repositories.SpaceNameLabel "dev" v1alpha2.Pending);
             AnchorObject (anchor ns name repositories.SpaceNameLabel "dev" v1alpha2.Ok) ]
       end;
     authorizedOrgNamespaces := fun info _ =>
       if decide (info = "bob") then inr {[ "cf-org-x" := true ]}
       else inr {[ "cf-org-a" := true; "cf-org-b" := true ]};
     authorizedSpaceNamespaces := fun _ _ => inr {[ "cf-space-1" := true; "cf-space-2" := true ]};
     namespaceFor := fun _ _ => inr "cf-space-1";
     uuidAt := fun n => "0000";
     validLabelValue := fun _ => true;
     WebhookErrorToValidationError := fun _ => None;
     rangeKeys := fun m => elements (dom m);
     formatTimestamp := fun _ => "1970-01-01T00:00:00Z";
     getTimeLastUpdatedTimestamp := fun _ => "1970-01-01T00:00:00Z" |}.

Definition withApiFault (f : client.Request -> option StatusError) (e : Env) : Env :=
  {| apiFault := f;
     buildClientFault := buildClientFault e;
     watchEvents := watchEvents e;
     authorizedOrgNamespaces := authorizedOrgNamespaces e;
     authorizedSpaceNamespaces := authorizedSpaceNamespaces e;
     namespaceFor := namespaceFor e;
     uuidAt := uuidAt e;
     validLabelValue := validLabelValue e;
     WebhookErrorToValidationError := WebhookErrorToValidationError e;
     rangeKeys := rangeKeys e;
     formatTimestamp := formatTimestamp e;
     getTimeLastUpdatedTimestamp := getTimeLastUpdatedTimestamp e |}.

Definition withWatchEvents (g : client.Request -> list WatchObject) (e : Env) : Env :=
  {| apiFault := apiFault e;
     buildClientFault := buildClientFault e;
     watchEvents := g;
     authorizedOrgNamespaces := authorizedOrgNamespaces e;
     authorizedSpaceNamespaces := authorizedSpaceNamespaces e;
     namespaceFor := namespaceFor e;
     uuidAt := uuidAt e;
     validLabelValue := validLabelValue e;
     WebhookErrorToValidationError := WebhookErrorToValidationError e;
     rangeKeys := rangeKeys e;
     formatTimestamp := formatTimestamp e;
     getTimeLastUpdatedTimestamp := getTimeLastUpdatedTimestamp e |}.

Definition withPermissions (orgs spaces : gmap string bool) (e : Env) : Env :=
  {| apiFault := apiFault e;
     buildClientFault := buildClientFault e;
     watchEvents := watchEvents e;
     authorizedOrgNamespaces := fun _ _ => inr orgs;
     authorizedSpaceNamespaces := fun _ _ => inr spaces;
     namespaceFor := namespaceFor e;
     uuidAt := uuidAt e;
     validLabelValue := validLabelValue e;
     WebhookErrorToValidationError := WebhookErrorToValidationError e;
     rangeKeys := rangeKeys e;
     formatTimestamp := formatTimestamp e;
     getTimeLastUpdatedTimestamp := getTimeLastUpdatedTimestamp e |}.

(** A stricter cluster: the caller may not get service bindings and may not
    list those of "cf-space-2". *)
Definition guarded : Env :=
  withApiFault
    (fun req =>
       if decide (client.kind req = client.CFServiceBinding
                  ∧ (client.verb req = client.Get ∨ client.namespace req = "cf-space-2"))
       then Some forbidden else None)
    env.

(** A hierarchy controller that never converges: the watch only ever shows
    the object as it was created. *)
Definition stalled : Env :=
  withWatchEvents
    (fun req =>
       [ StatusObject;
         AnchorObject (anchor (client.namespace req) (client.name req) repositories.SpaceNameLabel "dev" v1alpha2.Pending);
         CFOrgObject (cfOrg (client.name req) "acme" metav1.ConditionFalse) ])
    env.

(** Permissions that name the new namespaces, and two more, with the value
    false. *)
Definition denied : Env :=
  withPermissions {[ "cf-org-new" := false; "cf-org-a" := false ]}
                  {[ "cf-space-new" := false; "cf-space-1" := false ]}
                  env.

Definition newSpace : v1alpha2.SubnamespaceAnchor :=
  anchor "cf-org-a" "cf-space-new" repositories.SpaceNameLabel "dev" v1alpha2.Pending.

Definition newOrg : workloads.CFOrg := cfOrg "cf-org-new" "acme" metav1.ConditionUnknown.

(** Permissions that answer with every namespace missing at first and fail
    from 500 ms on. *)
Definition flaky : Env :=
  {| apiFault := apiFault env;
     buildClientFault := buildClientFault env;
     watchEvents := watchEvents env;
     authorizedOrgNamespaces := fun _ t =>
       if decide (t < 500)%Z then inr ∅ else inl (OpaqueError "permissions unavailable");
     authorizedSpaceNamespaces := fun _ t =>
       if decide (t < 500)%Z then inr ∅ else inl (OpaqueError "permissions unavailable");
     namespaceFor := namespaceFor env;
     uuidAt := uuidAt env;
     validLabelValue := validLabelValue env;
     WebhookErrorToValidationError := WebhookErrorToValidationError env;
     rangeKeys := rangeKeys env;
     formatTimestamp := formatTimestamp env;
     getTimeLastUpdatedTimestamp := getTimeLastUpdatedTimestamp env |}.

(** A caller the client factory refuses: "mallory". *)
Definition gated : Env :=
  {| apiFault := apiFault env;
     buildClientFault := fun info =>
       if decide (info = "mallory") then Some (OpaqueError "invalid token") else None;
     watchEvents := watchEvents env;
     authorizedOrgNamespaces := authorizedOrgNamespaces env;
     authorizedSpaceNamespaces := authorizedSpaceNamespaces env;
     namespaceFor := namespaceFor env;
     uuidAt := uuidAt env;
     validLabelValue := validLabelValue env;
     WebhookErrorToValidationError := WebhookErrorToValidationError env;
     rangeKeys := rangeKeys env;
     formatTimestamp := formatTimestamp env;
     getTimeLastUpdatedTimestamp := getTimeLastUpdatedTimestamp env |}.

(** Label values must not be longer than three characters here. *)
Definition strict : Env :=
  {| apiFault := apiFault env;
     buildClientFault := buildClientFault env;
     watchEvents := watchEvents env;
     authorizedOrgNamespaces := authorizedOrgNamespaces env;
     authorizedSpaceNamespaces := authorizedSpaceNamespaces env;
     namespaceFor := namespaceFor env;
     uuidAt := uuidAt env;
     validLabelValue := fun v => bool_decide (String.length v <= 3);
     WebhookErrorToValidationError := WebhookErrorToValidationError env;
     rangeKeys := rangeKeys env;
     formatTimestamp := formatTimestamp env;
     getTimeLastUpdatedTimestamp := getTimeLastUpdatedTimestamp env |}.

(** The new space and the new organization are granted at once. *)
Definition granted : Env :=
  withPermissions {[ "cf-org-a" := true; "cf-org-0000" := true ]}
                  {[ "cf-space-1" := true; "cf-space-0000" := true ]}
                  env.

(** UUIDs that differ from draw to draw, and a namespace retriever that
    resolves every binding to "cf-space-1". *)
Definition counting : Env :=
  {| apiFault := apiFault env;
     buildClientFault := buildClientFault env;
     watchEvents := watchEvents env;
     authorizedOrgNamespaces := authorizedOrgNamespaces env;
     authorizedSpaceNamespaces := authorizedSpaceNamespaces env;
     namespaceFor := namespaceFor env;
     uuidAt := fun n => String.concat "" (replicate (S n) "u");
     validLabelValue := validLabelValue env;
     WebhookErrorToValidationError := WebhookErrorToValidationError env;
     rangeKeys := rangeKeys env;
     formatTimestamp := formatTimestamp env;
     getTimeLastUpdatedTimestamp := getTimeLastUpdatedTimestamp env |}.

End Sample.

(** ** Vocabulary of the properties *)

Import repositories.

(** What [AnchorOrgs.ListOrgs] returns when no call fails, as a function of
    the selector it builds from the names. *)
Definition anchorOrgRecords (r : OrgRepo) (F : ListOrgsMessage.t)
    (selector : option labels.Requirement) (authorized : gmap string bool) (c : Cluster) : list OrgRecord.t :=
  omap (fun org => if negb (index authorized (OrgRecord.GUID org)) then None else Some org)
    (omap (fun anchor : v1alpha2.SubnamespaceAnchor =>
             if decide (v1alpha2.State (v1alpha2.Status anchor) ≠ v1alpha2.Ok) then None
             else if negb (matchFilter (toMap (ListOrgsMessage.GUIDs F)) (metav1.Name (v1alpha2.ObjectMeta anchor))) then None
             else Some (anchorToOrgRecord anchor))
       (filter (fun a => k8s.inNamespace (Some (rootNamespace r)) (v1alpha2.ObjectMeta a)
                         ∧ k8s.matchesSelector selector (v1alpha2.ObjectMeta a))
               (anchors c))).

Definition namesSelector (F : ListOrgsMessage.t) : option labels.Requirement :=
  if decide (0 < length (ListOrgsMessage.Names F))
  then Some {| labels.key := OrgNameLabel; labels.strValues := ListOrgsMessage.Names F |}
  else None.

Definition anchorListRequest (r : OrgRepo) : client.Request :=
  k8s.listRequest client.Privileged client.SubnamespaceAnchor (Some (rootNamespace r)).

Definition cfOrgListRequest (r : OrgRepo) : client.Request :=
  k8s.listRequest client.Privileged client.CFOrg (Some (rootNamespace r)).

(** What [CFOrgs.ListOrgs] returns when no call fails. *)
Definition cfOrgRecords (r : OrgRepo) (F : ListOrgsMessage.t)
    (authorized : gmap string bool) (c : Cluster) : list OrgRecord.t :=
  omap (fun org => if negb (index authorized (OrgRecord.GUID org)) then None else Some org)
    (omap (fun cfOrg : workloads.CFOrg =>
             if negb (meta.IsStatusConditionTrue (workloads.Conditions (workloads.Status cfOrg)) "Ready")
             then None
             else if matchesFilter (metav1.Name (workloads.ObjectMeta cfOrg)) (ListOrgsMessage.GUIDs F)
                     && matchesFilter (workloads.Name (workloads.Spec cfOrg)) (ListOrgsMessage.Names F)
             then Some (cfOrgToOrgRecord cfOrg)
             else None)
       (filter (fun o => k8s.inNamespace (Some (rootNamespace r)) (workloads.ObjectMeta o)) (cfOrgs c))).

(** An anchor named [orgGUID] under the root namespace has state Ok. *)
Definition convergedAnchor (r : OrgRepo) (c : Cluster) (orgGUID : string) : Prop :=
  ∃ anchor, anchor ∈ anchors c
    ∧ metav1.Namespace (v1alpha2.ObjectMeta anchor) = rootNamespace r
    ∧ metav1.Name (v1alpha2.ObjectMeta anchor) = orgGUID
    ∧ v1alpha2.State (v1alpha2.Status anchor) = v1alpha2.Ok.

(** A CFOrg named [orgGUID] under the root namespace has its Ready condition
    true. *)
Definition readyCFOrg (r : OrgRepo) (c : Cluster) (orgGUID : string) : Prop :=
  ∃ cfOrg, cfOrg ∈ cfOrgs c
    ∧ metav1.Namespace (workloads.ObjectMeta cfOrg) = rootNamespace r
    ∧ metav1.Name (workloads.ObjectMeta cfOrg) = orgGUID
    ∧ meta.IsStatusConditionTrue (workloads.Conditions (workloads.Status cfOrg)) "Ready" = true.

(** The filter that selects nothing out: no names, no GUIDs. *)
Definition allOrgs : ListOrgsMessage.t :=
  {| ListOrgsMessage.Names := []; ListOrgsMessage.GUIDs := [] |}.

Definition bindingRequest (authInfo : authorization.Info) (v : client.Verb) (ns guid : string) : client.Request :=
  k8s.objectRequest (client.AsUser authInfo) v client.CFServiceBinding ns guid.

Definition bindingListRequest (authInfo : authorization.Info) (ns : string) : client.Request :=
  k8s.listRequest (client.AsUser authInfo) client.CFServiceBinding (Some ns).

(** The bindings the caller can list in a namespace. *)
Definition bindingsIn (c : Cluster) (ns : string) : list servicesv1alpha1.CFServiceBinding :=
  filter (fun b => k8s.inNamespace (Some ns) (servicesv1alpha1.ObjectMeta b)) (serviceBindings c).

(** A per-namespace list call that is refused as forbidden, or not refused. *)
Definition forbiddenOrListed (env : Env) (authInfo : authorization.Info) (ns : string) : Prop :=
  match apiFault env (bindingListRequest authInfo ns) with
  | Some e => Reason e = StatusReasonForbidden
  | None => True
  end.

#[global] Instance forbiddenOrListed_dec env authInfo ns :
  Decision (forbiddenOrListed env authInfo ns).
Proof. unfold forbiddenOrListed. destruct (apiFault env _); apply _. Defined.

(** What one namespace contributes to [ListServiceBindings]. *)
Definition contribution (env : Env) (authInfo : authorization.Info)
    (message : ListServiceBindingsMessage.t) (c : Cluster) (ns : string) : list servicesv1alpha1.CFServiceBinding :=
  match apiFault env (bindingListRequest authInfo ns) with
  | Some _ => []
  | None => ServiceBindingRepo.applyServiceBindingListFilter (bindingsIn c ns) message
  end.

(** The world after some more API calls that changed nothing else. *)
Definition logged (reqs : list client.Request) (w : World) : World :=
  {| cluster := cluster w; clock := clock w; uuids := uuids w; calls := calls w ++ reqs |}.

(** What [NamespacePermissions] answers for the kind of resource that
    [createSubnamespaceAnchor] waits for. *)
Definition permsFor (env : Env) (resourceType : string) (info : authorization.Info) (t : Z)
    : error + gmap string bool :=
  if decide (resourceType = OrgResourceType)
  then authorizedOrgNamespaces env info t
  else authorizedSpaceNamespaces env info t.

(** The namespace never appears among the caller's namespaces. *)
Definition neverAuthorized (env : Env) (resourceType : string) (info : authorization.Info) (name : string) : Prop :=
  ∀ t, ∃ authorized, permsFor env resourceType info t = inr authorized ∧ authorized !! name = None.

(** The world after [time.Sleep]. *)
Definition slept (ms : Z) (w : World) : World :=
  {| cluster := cluster w; clock := (clock w + ms)%Z; uuids := uuids w; calls := calls w |}.

Definition anchorRequest (who : client.Identity) (v : client.Verb) (anchor : v1alpha2.SubnamespaceAnchor) : client.Request :=
  k8s.objectRequest who v client.SubnamespaceAnchor
    (metav1.Namespace (v1alpha2.ObjectMeta anchor)) (metav1.Name (v1alpha2.ObjectMeta anchor)).

Definition cfOrgRequest (who : client.Identity) (v : client.Verb) (org : workloads.CFOrg) : client.Request :=
  k8s.objectRequest who v client.CFOrg
    (metav1.Namespace (workloads.ObjectMeta org)) (metav1.Name (workloads.ObjectMeta org)).

(** The cluster accepts the creation of the anchor and the watch on it. *)
Definition anchorAccepted (env : Env) (userClient : client.Identity) (anchor : v1alpha2.SubnamespaceAnchor) (w : World) : Prop :=
  apiFault env (anchorRequest userClient client.Create anchor) = None
  ∧ ¬ Exists (fun x => k8s.named (metav1.Namespace (v1alpha2.ObjectMeta anchor))
                                 (metav1.Name (v1alpha2.ObjectMeta anchor)) (v1alpha2.ObjectMeta x))
             (anchors (cluster w))
  ∧ apiFault env (anchorRequest client.Privileged client.Watch anchor) = None.

Definition cfOrgAccepted (env : Env) (userClient : client.Identity) (org : workloads.CFOrg) (w : World) : Prop :=
  apiFault env (cfOrgRequest userClient client.Create org) = None
  ∧ ¬ Exists (fun x => k8s.named (metav1.Namespace (workloads.ObjectMeta org))
                                 (metav1.Name (workloads.ObjectMeta org)) (workloads.ObjectMeta x))
             (cfOrgs (cluster w))
  ∧ apiFault env (cfOrgRequest client.Privileged client.Watch org) = None.

(** The world once the anchor is created and the watch is set up. *)
Definition anchorProvisioned (userClient : client.Identity) (anchor : v1alpha2.SubnamespaceAnchor) (w : World) : World :=
  {| cluster :=
       {| anchors := anchors (cluster w)
                     ++ [ {| v1alpha2.ObjectMeta := k8s.stamp (v1alpha2.ObjectMeta anchor) (clock w);
                             v1alpha2.Status := v1alpha2.Status anchor |} ];
          hierarchies := hierarchies (cluster w);
          cfOrgs := cfOrgs (cluster w);
          serviceAccounts := serviceAccounts (cluster w);
          serviceBindings := serviceBindings (cluster w) |};
     clock := clock w;
     uuids := uuids w;
     calls := calls w ++ [anchorRequest userClient client.Create anchor;
                          anchorRequest client.Privileged client.Watch anchor] |}.

Definition cfOrgProvisioned (userClient : client.Identity) (org : workloads.CFOrg) (w : World) : World :=
  {| cluster :=
       {| anchors := anchors (cluster w);
          hierarchies := hierarchies (cluster w);
          cfOrgs := cfOrgs (cluster w)
                    ++ [ {| workloads.ObjectMeta := k8s.stamp (workloads.ObjectMeta org) (clock w);
                            workloads.Spec := workloads.Spec org;
                            workloads.Status := workloads.Status org |} ];
          serviceAccounts := serviceAccounts (cluster w);
          serviceBindings := serviceBindings (cluster w) |};
     clock := clock w;
     uuids := uuids w;
     calls := calls w ++ [cfOrgRequest userClient client.Create org;
                          cfOrgRequest client.Privileged client.Watch org] |}.

(** The organizations that pass 1 of [ListSpaces] admits. *)
Definition orgUIDsOf (r : OrgRepo) (message : ListSpacesMessage.t) (c : Cluster) : gset string :=
  list_to_set
    (omap (fun anchor : v1alpha2.SubnamespaceAnchor =>
             if decide (metav1.Namespace (v1alpha2.ObjectMeta anchor) ≠ rootNamespace r) then None
             else if negb (matchFilter (toMap (ListSpacesMessage.OrganizationGUIDs message))
                                       (metav1.Name (v1alpha2.ObjectMeta anchor))) then None
             else Some (metav1.Name (v1alpha2.ObjectMeta anchor)))
          (filter (fun a => k8s.inNamespace None (v1alpha2.ObjectMeta a)
                            ∧ k8s.matchesSelector None (v1alpha2.ObjectMeta a)) (anchors c))).

(** What [ListSpaces] returns when no call fails. *)
Definition spaceRecords (r : OrgRepo) (message : ListSpacesMessage.t)
    (authorized : gmap string bool) (c : Cluster) : list SpaceRecord.t :=
  omap (fun space => if negb (index authorized (SpaceRecord.GUID space)) then None else Some space)
    (omap (fun anchor : v1alpha2.SubnamespaceAnchor =>
             if decide (v1alpha2.State (v1alpha2.Status anchor) ≠ v1alpha2.Ok) then None
             else if negb (matchFilter (toMap (ListSpacesMessage.Names message))
                                       (label (v1alpha2.ObjectMeta anchor) SpaceNameLabel)) then None
             else if negb (matchFilter (toMap (ListSpacesMessage.GUIDs message))
                                       (metav1.Name (v1alpha2.ObjectMeta anchor))) then None
             else if negb (bool_decide (metav1.Namespace (v1alpha2.ObjectMeta anchor)
                                        ∈ orgUIDsOf r message c)) then None
             else Some (anchorToSpaceRecord anchor))
          (filter (fun a => k8s.inNamespace None (v1alpha2.ObjectMeta a)
                            ∧ k8s.matchesSelector None (v1alpha2.ObjectMeta a)) (anchors c))).

Definition allAnchorsRequest : client.Request :=
  k8s.listRequest client.Privileged client.SubnamespaceAnchor None.

Definition hierarchyRequest (ns : string) : client.Request :=
  k8s.objectRequest client.Privileged client.Get client.HierarchyConfiguration ns hierarchyMetadataName.

(** The calls made from [before] to [after] start with the fetch of the
    hierarchy configuration of namespace [ns]. *)
Definition fetchesHierarchyFirst (before after : World) (ns : string) : Prop :=
  ∃ rest, calls after = calls before ++ hierarchyRequest ns :: rest.

(** The cluster holds the hierarchy configuration of namespace [ns]. *)
Definition hasHierarchy (c : Cluster) (ns : string) : Prop :=
  Exists (fun h => k8s.named ns hierarchyMetadataName (v1alpha2.HCObjectMeta h)) (hierarchies c).

(** The cluster holds an anchor of that name in that namespace. *)
Definition hasAnchor (c : Cluster) (ns name : string) : Prop :=
  Exists (fun x => k8s.named ns name (v1alpha2.ObjectMeta x)) (anchors c).

Definition deleteAnchorRequest (info : authorization.Info) (ns name : string) : client.Request :=
  k8s.objectRequest (client.AsUser info) client.Delete client.SubnamespaceAnchor ns name.


(** ** Vocabulary of the further properties *)

(** The filter that selects no space out. *)
Definition allSpaces : ListSpacesMessage.t :=
  {| ListSpacesMessage.Names := []; ListSpacesMessage.GUIDs := [];
     ListSpacesMessage.OrganizationGUIDs := [] |}.

(** The world after [uuid.NewString]. *)
Definition drawn (w : World) : World :=
  {| cluster := cluster w; clock := clock w; uuids := S (uuids w); calls := calls w |}.

(** The anchor that [CreateSpace] asks for when the next UUID is [uuid]. *)
Definition spaceAnchor (message : CreateSpaceMessage.t) (uuid : string) : v1alpha2.SubnamespaceAnchor :=
  {| v1alpha2.ObjectMeta :=
       {| metav1.Name := SpacePrefix +:+ uuid;
          metav1.Namespace := CreateSpaceMessage.OrganizationGUID message;
          metav1.Labels := {[ SpaceNameLabel := CreateSpaceMessage.Name message ]};
          metav1.CreationTimestamp := 0 |};
     v1alpha2.Status := {| v1alpha2.State := v1alpha2.Pending |} |}.

(** The CFOrg that [CreateOrg] asks for when the next UUID is [uuid]. *)
Definition orgResource (r : OrgRepo) (org : CreateOrgMessage.t) (uuid : string) : workloads.CFOrg :=
  {| workloads.ObjectMeta :=
       {| metav1.Name := OrgPrefix +:+ uuid;
          metav1.Namespace := rootNamespace r;
          metav1.Labels := ∅;
          metav1.CreationTimestamp := 0 |};
     workloads.Spec := {| workloads.Name := CreateOrgMessage.Name org |};
     workloads.Status := {| workloads.Conditions := [] |} |}.

Definition serviceAccountRequest (ns name : string) : client.Request :=
  k8s.objectRequest client.Privileged client.Create client.ServiceAccount ns name.

(** The cluster holds a service account of that name in that namespace. *)
Definition hasServiceAccount (c : Cluster) (ns name : string) : Prop :=
  Exists (fun x => k8s.named ns name (corev1.ObjectMeta x)) (serviceAccounts c).

(** The cluster holds a service binding of that name in that namespace. *)
Definition hasBinding (c : Cluster) (ns name : string) : Prop :=
  Exists (fun x => k8s.named ns name (servicesv1alpha1.ObjectMeta x)) (serviceBindings c).

(** The binding is one between this app and this service instance in this
    space. *)
Definition binds (spaceGUID appGUID serviceInstanceGUID : string)
    (binding : servicesv1alpha1.CFServiceBinding) : Prop :=
  metav1.Namespace (servicesv1alpha1.ObjectMeta binding) = spaceGUID
  ∧ servicesv1alpha1.AppRef (servicesv1alpha1.Spec binding) = appGUID
  ∧ servicesv1alpha1.Service (servicesv1alpha1.Spec binding) = serviceInstanceGUID.

#[global] Instance binds_dec spaceGUID appGUID serviceInstanceGUID binding :
  Decision (binds spaceGUID appGUID serviceInstanceGUID binding).
Proof. unfold binds. apply _. Defined.

(** The binding that [CreateServiceBinding] asks for when the next UUID is
    [guid], as the server stores it at time [now]. *)
Definition storedBinding (message : CreateServiceBindingMessage.t) (guid : string) (now : Z)
    : servicesv1alpha1.CFServiceBinding :=
  {| servicesv1alpha1.ObjectMeta :=
       {| metav1.Name := guid;
          metav1.Namespace := CreateServiceBindingMessage.SpaceGUID message;
          metav1.Labels := {[ ServiceBindingRepo.LabelServiceBindingProvisionedService := "true" ]};
          metav1.CreationTimestamp := now |};
     servicesv1alpha1.Spec :=
       {| servicesv1alpha1.Name := CreateServiceBindingMessage.Name message;
          servicesv1alpha1.Service := CreateServiceBindingMessage.ServiceInstanceGUID message;
          servicesv1alpha1.AppRef := CreateServiceBindingMessage.AppGUID message |} |}.


(** The two service accounts of [CreateSpace], as the server stores them at
    time [now]. *)
Definition kpackServiceAccount (message : CreateSpaceMessage.t) (spaceGUID : string) (now : Z)
    : corev1.ServiceAccount :=
  {| corev1.ObjectMeta := {| metav1.Name := "kpack-service-account"; metav1.Namespace := spaceGUID;
                             metav1.Labels := ∅; metav1.CreationTimestamp := now |};
     corev1.ImagePullSecrets := [CreateSpaceMessage.ImageRegistryCredentials message];
     corev1.Secrets := [CreateSpaceMessage.ImageRegistryCredentials message] |}.

Definition eiriniServiceAccount (spaceGUID : string) (now : Z) : corev1.ServiceAccount :=
  {| corev1.ObjectMeta := {| metav1.Name := "eirini"; metav1.Namespace := spaceGUID;
                             metav1.Labels := ∅; metav1.CreationTimestamp := now |};
     corev1.ImagePullSecrets := []; corev1.Secrets := [] |}.

(** What the callers of the provisioning functions do with an error of
    theirs. *)
Definition asValidationError (env : Env) (err : error) : error :=
  match WebhookErrorToValidationError env err with
  | Some webhookError => apierrors.NewUnprocessableEntityError (Some err) webhookError
  | None => err
  end.


(** The caller can see a space of that GUID: an anchor of that name in state
    Ok whose namespace is the name of an anchor under the root namespace, and
    the GUID maps to true in the caller's authorized space namespaces. *)
Definition visibleSpace (r : OrgRepo) (c : Cluster) (authorized : gmap string bool)
    (spaceGUID : string) : Prop :=
  ∃ space org, space ∈ anchors c ∧ org ∈ anchors c
    ∧ metav1.Name (v1alpha2.ObjectMeta space) = spaceGUID
    ∧ v1alpha2.State (v1alpha2.Status space) = v1alpha2.Ok
    ∧ metav1.Namespace (v1alpha2.ObjectMeta org) = rootNamespace r
    ∧ metav1.Name (v1alpha2.ObjectMeta org) = metav1.Namespace (v1alpha2.ObjectMeta space)
    ∧ authorized !! spaceGUID = Some true.




(** The world after [CreateServiceBinding] stored the binding of the message
    under the next UUID. *)
Definition bindingCreated (env : Env) (authInfo : authorization.Info)
    (message : CreateServiceBindingMessage.t) (w : World) : World :=
  let guid := uuidAt env (uuids w) in
  {| cluster :=
       {| anchors := anchors (cluster w); hierarchies := hierarchies (cluster w);
          cfOrgs := cfOrgs (cluster w); serviceAccounts := serviceAccounts (cluster w);
          serviceBindings := serviceBindings (cluster w) ++ [storedBinding message guid (clock w)] |};
     clock := clock w;
     uuids := S (uuids w);
     calls := calls w ++ [bindingRequest authInfo client.Create
                            (CreateServiceBindingMessage.SpaceGUID message) guid] |}.

(** The world after [DeleteServiceBinding] fetched and deleted the binding
    [guid] of namespace [ns]. *)
Definition bindingDeleted (authInfo : authorization.Info) (ns guid : string) (w : World) : World :=
  {| cluster :=
       {| anchors := anchors (cluster w); hierarchies := hierarchies (cluster w);
          cfOrgs := cfOrgs (cluster w); serviceAccounts := serviceAccounts (cluster w);
          serviceBindings :=
            filter (fun x => ¬ k8s.named ns guid (servicesv1alpha1.ObjectMeta x))
                   (serviceBindings (cluster w)) |};
     clock := clock w;
     uuids := uuids w;
     calls := calls w ++ [bindingRequest authInfo client.Get ns guid;
                          bindingRequest authInfo client.Delete ns guid] |}.

(** The second world differs from the first in the calls it records at
    most. *)
Definition sameState (w w' : World) : Prop :=
  cluster w' = cluster w ∧ clock w' = clock w ∧ uuids w' = uuids w.

(** A binding that [ListServiceBindings] has to return: it lies in a
    namespace that is a key of the caller's authorized space namespaces and
    whose list call is not refused, and it passes both filters. *)
Definition listedBinding (env : Env) (authInfo : authorization.Info)
    (message : ListServiceBindingsMessage.t) (namespaces : list string)
    (binding : servicesv1alpha1.CFServiceBinding) : Prop :=
  metav1.Namespace (servicesv1alpha1.ObjectMeta binding) ∈ namespaces
  ∧ apiFault env (bindingListRequest authInfo
                    (metav1.Namespace (servicesv1alpha1.ObjectMeta binding))) = None
  ∧ matchesFilter (servicesv1alpha1.Service (servicesv1alpha1.Spec binding))
                  (ListServiceBindingsMessage.ServiceInstanceGUIDs message) = true
  ∧ matchesFilter (servicesv1alpha1.AppRef (servicesv1alpha1.Spec binding))
                  (ListServiceBindingsMessage.AppGUIDs message) = true.

#[global] Instance listedBinding_dec env authInfo message namespaces binding :
  Decision (listedBinding env authInfo message namespaces binding).
Proof. unfold listedBinding. apply _. Defined.

(** From the first world to the second nothing happened but list calls made
    under the identity [who]: the cluster, the clock and the UUID source are
    as they were. *)
Definition readOnly (who : client.Identity) (w w' : World) : Prop :=
  sameState w w'
  ∧ ∃ reqs, calls w' = calls w ++ reqs
      ∧ Forall (fun req => client.identity req = who ∧ client.verb req = client.List) reqs.

(** The world after the calls [reqs], the last of which deleted the anchors
    named [name] in namespace [ns]. *)
Definition anchorDeleted (reqs : list client.Request) (ns name : string) (w : World) : World :=
  {| cluster :=
       {| anchors := filter (fun x => ¬ k8s.named ns name (v1alpha2.ObjectMeta x)) (anchors (cluster w));
          hierarchies := hierarchies (cluster w); cfOrgs := cfOrgs (cluster w);
          serviceAccounts := serviceAccounts (cluster w);
          serviceBindings := serviceBindings (cluster w) |};
     clock := clock w;
     uuids := uuids w;
     calls := calls w ++ reqs |}.
(** * Properties *)

(** ** The repositories on the sample cluster *)

Example sample_ListOrgs :
  map OrgRecord.GUID (returned (result (AnchorOrgs.ListOrgs Sample.env Sample.repo "alice" allOrgs Sample.world)))
  = ["cf-org-a"]
  ∧ map OrgRecord.GUID (returned (result (CFOrgs.ListOrgs Sample.env Sample.repo "bob" allOrgs Sample.world)))
    = ["cf-org-x"].
Proof. split; reflexivity. Qed.

Example sample_ListSpaces :
  map SpaceRecord.GUID
      (returned (result (ListSpaces Sample.env Sample.repo "alice"
                           {| ListSpacesMessage.Names := [];
                              ListSpacesMessage.GUIDs := [];
                              ListSpacesMessage.OrganizationGUIDs := [] |} Sample.world)))
  = ["cf-space-1"; "cf-space-2"].
Proof. reflexivity. Qed.

Example sample_CreateSpace :
  let run := AnchorOrgs.CreateSpace Sample.env Sample.repo 4 "alice"
               {| CreateSpaceMessage.Name := "dev";
                  CreateSpaceMessage.OrganizationGUID := "cf-org-a";
                  CreateSpaceMessage.ImageRegistryCredentials := "registry-secret" |}
               Sample.world in
  result run = Failed (Errorf "failed establishing permissions in new namespace after %s: %w"
                              [ArgDuration 1500] None)
  ∧ map client.verb (calls (final run)) = [client.List; client.Create; client.Watch]
  ∧ clock (final run) = 1500%Z.
Proof. vm_compute. done. Qed.

Example sample_CreateSpace_granted :
  let run := AnchorOrgs.CreateSpace
               (Sample.withPermissions {[ "cf-org-a" := true ]} {[ "cf-space-0000" := true ]} Sample.env)
               Sample.repo 4 "alice"
               {| CreateSpaceMessage.Name := "dev";
                  CreateSpaceMessage.OrganizationGUID := "cf-org-a";
                  CreateSpaceMessage.ImageRegistryCredentials := "registry-secret" |}
               Sample.world in
  (∃ record, result run = Done record
             ∧ SpaceRecord.GUID record = "cf-space-0000"
             ∧ SpaceRecord.OrganizationGUID record = "cf-org-a")
  ∧ map client.verb (calls (final run))
    = [client.List; client.Create; client.Watch; client.Create; client.Create]
  ∧ map (fun sa => metav1.Name (corev1.ObjectMeta sa)) (serviceAccounts (cluster (final run)))
    = ["kpack-service-account"; "eirini"].
Proof. vm_compute. split; [|done]. eexists. done. Qed.

(** ** Running the monad *)

Lemma result_pair {A} (o : Outcome A) (w : World) : result (o, w) = o.
Proof. done. Qed.

Lemma final_pair {A} (o : Outcome A) (w : World) : final (o, w) = w.
Proof. done. Qed.

Lemma result_bind {A B} (c : M A) (k : A → M B) (w : World) :
  result (bind c k w) =
  match result (c w) with
  | Done a => result (k a (final (c w)))
  | Failed e => Failed e
  | OutOfFuel => OutOfFuel
  end.
Proof. unfold result, final, bind. by destruct (c w) as [[a|e|] w']. Qed.

Lemma final_bind {A B} (c : M A) (k : A → M B) (w : World) :
  final (bind c k w) =
  match result (c w) with
  | Done a => final (k a (final (c w)))
  | _ => final (c w)
  end.
Proof. unfold result, final, bind. by destruct (c w) as [[a|e|] w']. Qed.

Lemma result_onError {A} (f : error → error) (c : M A) (w : World) :
  result (onError f c w) =
  match result (c w) with
  | Failed e => Failed (f e)
  | o => o
  end.
Proof. unfold result, onError. by destruct (c w) as [[a|e|] w']. Qed.

Lemma final_onError {A} (f : error → error) (c : M A) (w : World) :
  final (onError f c w) = final (c w).
Proof. unfold final, onError. by destruct (c w) as [[a|e|] w']. Qed.

(** ** Lists *)

Lemma omap_sublist {A B} (f g : A → option B) (l1 l2 : list A) :
  l1 `sublist_of` l2 → (∀ x, f x = None ∨ f x = g x) →
  omap f l1 `sublist_of` omap g l2.
Proof.
  intros Hsub Hfg. induction Hsub as [|x l1 l2 _ IH|x l1 l2 _ IH]; simpl.
  - constructor.
  - destruct (Hfg x) as [-> | ->]; [|destruct (g x)].
    + destruct (g x); [by apply sublist_cons|done].
    + by apply sublist_skip.
    + done.
  - destruct (g x); [by apply sublist_cons|done].
Qed.

Lemma filter_sublist_impl {A} (P Q : A → Prop)
    `{!∀ x, Decision (P x)} `{!∀ x, Decision (Q x)} (l : list A) :
  (∀ x, P x → Q x) → filter P l `sublist_of` filter Q l.
Proof.
  intros HPQ. induction l as [|x l IH]; [done|].
  rewrite !filter_cons. destruct (decide (P x)) as [HP|HP].
  - rewrite decide_True; [|by apply HPQ]. by apply sublist_skip.
  - destruct (decide (Q x)); [by apply sublist_cons|done].
Qed.

Lemma omap_guard_filter {A} (p : A → bool) (l : list A) :
  omap (fun x => if negb (p x) then None else Some x) l = filter (fun x => p x = true) l.
Proof.
  induction l as [|x l IH]; [done|]. rewrite filter_cons. cbn [omap list_omap].
  destruct (p x) eqn:Hp; simpl; by f_equal.
Qed.

Lemma not_nil_elem {A} (l : list A) : l ≠ [] ↔ ∃ x, x ∈ l.
Proof.
  split.
  - destruct l as [|x l]; [done|]. intros _. exists x. by left.
  - intros [x Hx]. by eapply elem_of_not_nil.
Qed.

(** ** The filters *)

Lemma matchFilter_toMap (xs : list string) (v : string) :
  matchFilter (toMap xs) v = true ↔ xs = [] ∨ v ∈ xs.
Proof.
  unfold matchFilter, toMap.
  destruct (decide (size (list_to_set xs : gset string) = 0)) as [Hs|Hs].
  - apply size_empty_inv in Hs. split; [|done]. intros _. left.
    destruct xs as [|x xs]; [done|]. exfalso. set_solver.
  - rewrite bool_decide_eq_true, elem_of_list_to_set. split; [by right|].
    intros [->|?]; [|done]. exfalso. by apply Hs.
Qed.

Lemma matchesFilter_spec (v : string) (xs : list string) :
  matchesFilter v xs = true ↔ xs = [] ∨ v ∈ xs.
Proof.
  unfold matchesFilter. destruct (decide (length xs = 0)) as [Hs|Hs].
  - split; [|done]. intros _. left. by destruct xs.
  - rewrite bool_decide_eq_true. split; [by right|].
    by intros [->|?].
Qed.

Lemma index_true (m : gmap string bool) (k : string) :
  index m k = true ↔ m !! k = Some true.
Proof. unfold index. destruct (m !! k) as [[]|]; simpl; split; congruence. Qed.

Lemma present_true {V} (m : gmap string V) (k : string) :
  present m k = true ↔ is_Some (m !! k).
Proof. unfold present. by rewrite bool_decide_eq_true. Qed.

(** ** ListOrgs and GetOrg *)

Lemma AnchorOrgs_ListOrgs_inv env r info F w l :
  result (AnchorOrgs.ListOrgs env r info F w) = Done l →
  apiFault env (anchorListRequest r) = None
  ∧ ∃ authorized, authorizedOrgNamespaces env info (clock w) = inr authorized
    ∧ l = anchorOrgRecords r F (namesSelector F) authorized (cluster w).
Proof.
  unfold AnchorOrgs.ListOrgs, anchorOrgRecords, namesSelector, anchorListRequest, result.
  unfold bind, onError, k8s.ListAnchors, k8s.request, k8s.NewRequirement,
    k8s.GetAuthorizedOrgNamespaces, bind, logCall, ret, throw, getWorld, liftResult.
  destruct (decide (0 < length (ListOrgsMessage.Names F))) as [Hlen|Hlen]; simpl.
  - destruct (decide (ListOrgsMessage.Names F = [])) as [Hnil|Hnil]; simpl; [discriminate|].
    destruct (forallb (validLabelValue env) (ListOrgsMessage.Names F)); simpl; [|discriminate].
    destruct (apiFault env _); simpl; [discriminate|].
    destruct (authorizedOrgNamespaces env info (clock w)) as [e|authorized]; simpl; [discriminate|].
    intros [= <-]. split; [done|]. by exists authorized.
  - destruct (apiFault env _); simpl; [discriminate|].
    destruct (authorizedOrgNamespaces env info (clock w)) as [e|authorized]; simpl; [discriminate|].
    intros [= <-]. split; [done|]. by exists authorized.
Qed.

Lemma AnchorOrgs_ListOrgs_no_names env r info F w authorized :
  ListOrgsMessage.Names F = [] →
  apiFault env (anchorListRequest r) = None →
  authorizedOrgNamespaces env info (clock w) = inr authorized →
  result (AnchorOrgs.ListOrgs env r info F w)
  = Done (anchorOrgRecords r F None authorized (cluster w)).
Proof.
  intros Hn Hf Ha. unfold anchorListRequest in Hf.
  unfold AnchorOrgs.ListOrgs, anchorOrgRecords, result. rewrite Hn. simpl.
  unfold bind, onError, k8s.ListAnchors, k8s.request, k8s.GetAuthorizedOrgNamespaces,
    bind, logCall, ret, throw, getWorld, liftResult. simpl.
  rewrite Hf. simpl. by rewrite Ha.
Qed.

Lemma elem_of_anchorOrgRecords r F selector authorized c record :
  record ∈ anchorOrgRecords r F selector authorized c ↔
  ∃ anchor, anchor ∈ anchors c
    ∧ metav1.Namespace (v1alpha2.ObjectMeta anchor) = rootNamespace r
    ∧ k8s.matchesSelector selector (v1alpha2.ObjectMeta anchor)
    ∧ v1alpha2.State (v1alpha2.Status anchor) = v1alpha2.Ok
    ∧ matchFilter (toMap (ListOrgsMessage.GUIDs F)) (metav1.Name (v1alpha2.ObjectMeta anchor)) = true
    ∧ authorized !! metav1.Name (v1alpha2.ObjectMeta anchor) = Some true
    ∧ record = anchorToOrgRecord anchor.
Proof.
  unfold anchorOrgRecords. rewrite list_elem_of_omap. split.
  - intros (org & Horg & Hauth). apply list_elem_of_omap in Horg as (anchor & Hin & Hrec).
    apply list_elem_of_filter in Hin as ((Hns & Hsel) & Hin).
    destruct (decide (v1alpha2.State (v1alpha2.Status anchor) ≠ v1alpha2.Ok)) as [|Hok]; [done|].
    apply dec_stable in Hok.
    destruct (matchFilter _ _) eqn:Hguid; simpl in Hrec; [|done].
    injection Hrec as <-.
    destruct (index authorized _) eqn:Hidx; simpl in Hauth; [|done].
    injection Hauth as <-. apply index_true in Hidx.
    exists anchor. by repeat split.
  - intros (anchor & Hin & Hns & Hsel & Hok & Hguid & Hauth & ->).
    exists (anchorToOrgRecord anchor). split.
    + apply list_elem_of_omap. exists anchor. split.
      * apply list_elem_of_filter. by repeat split.
      * rewrite decide_False by (by intros ?). by rewrite Hguid.
    + apply index_true in Hauth. simpl. by rewrite Hauth.
Qed.

Lemma AnchorOrgs_GetOrg_result env r info orgGUID w :
  result (AnchorOrgs.GetOrg env r info orgGUID w) =
  match result (AnchorOrgs.ListOrgs env r info
                  {| ListOrgsMessage.Names := []; ListOrgsMessage.GUIDs := [orgGUID] |} w) with
  | Done [] => Failed (NotFoundError None OrgResourceType)
  | Done (record :: _) => Done record
  | Failed e => Failed e
  | OutOfFuel => OutOfFuel
  end.
Proof.
  unfold AnchorOrgs.GetOrg. rewrite result_bind.
  destruct (result _) as [[|record l]|e|]; done.
Qed.

Lemma CFOrgs_ListOrgs_result env r info F w :
  result (CFOrgs.ListOrgs env r info F w) =
  match apiFault env (cfOrgListRequest r) with
  | Some e => Failed (apierrors.FromK8sError (StatusErr e) OrgResourceType)
  | None =>
      match authorizedOrgNamespaces env info (clock w) with
      | inl e => Failed e
      | inr authorized => Done (cfOrgRecords r F authorized (cluster w))
      end
  end.
Proof.
  unfold CFOrgs.ListOrgs, cfOrgRecords, cfOrgListRequest, result.
  unfold bind, onError, k8s.ListCFOrgs, k8s.request, k8s.GetAuthorizedOrgNamespaces,
    bind, logCall, ret, throw, getWorld, liftResult. simpl.
  destruct (apiFault env _); simpl; [done|].
  by destruct (authorizedOrgNamespaces env info (clock w)).
Qed.

Lemma elem_of_cfOrgRecords r F authorized c record :
  record ∈ cfOrgRecords r F authorized c ↔
  ∃ cfOrg, cfOrg ∈ cfOrgs c
    ∧ metav1.Namespace (workloads.ObjectMeta cfOrg) = rootNamespace r
    ∧ meta.IsStatusConditionTrue (workloads.Conditions (workloads.Status cfOrg)) "Ready" = true
    ∧ matchesFilter (metav1.Name (workloads.ObjectMeta cfOrg)) (ListOrgsMessage.GUIDs F) = true
    ∧ matchesFilter (workloads.Name (workloads.Spec cfOrg)) (ListOrgsMessage.Names F) = true
    ∧ authorized !! metav1.Name (workloads.ObjectMeta cfOrg) = Some true
    ∧ record = cfOrgToOrgRecord cfOrg.
Proof.
  unfold cfOrgRecords. rewrite list_elem_of_omap. split.
  - intros (org & Horg & Hauth). apply list_elem_of_omap in Horg as (cfOrg & Hin & Hrec).
    apply list_elem_of_filter in Hin as (Hns & Hin).
    destruct (meta.IsStatusConditionTrue _ _) eqn:Hready; simpl in Hrec; [|done].
    destruct (matchesFilter (metav1.Name _) _) eqn:Hguid; simpl in Hrec; [|done].
    destruct (matchesFilter (workloads.Name _) _) eqn:Hname; simpl in Hrec; [|done].
    injection Hrec as <-.
    destruct (index authorized _) eqn:Hidx; simpl in Hauth; [|done].
    injection Hauth as <-. apply index_true in Hidx.
    exists cfOrg. by repeat split.
  - intros (cfOrg & Hin & Hns & Hready & Hguid & Hname & Hauth & ->).
    exists (cfOrgToOrgRecord cfOrg). split.
    + apply list_elem_of_omap. exists cfOrg. split.
      * apply list_elem_of_filter. by split.
      * by rewrite Hready, Hguid, Hname.
    + apply index_true in Hauth. simpl. by rewrite Hauth.
Qed.

Lemma CFOrgs_GetOrg_result env r info orgGUID w :
  result (CFOrgs.GetOrg env r info orgGUID w) =
  match result (CFOrgs.ListOrgs env r info
                  {| ListOrgsMessage.Names := []; ListOrgsMessage.GUIDs := [orgGUID] |} w) with
  | Done [] => Failed (NotFoundError None OrgResourceType)
  | Done (record :: _) => Done record
  | Failed e => Failed e
  | OutOfFuel => OutOfFuel
  end.
Proof.
  unfold CFOrgs.GetOrg. rewrite result_bind.
  destruct (result _) as [[|record l]|e|]; done.
Qed.

Lemma anchorOrgRecords_guid_nonempty r orgGUID authorized c :
  anchorOrgRecords r {| ListOrgsMessage.Names := []; ListOrgsMessage.GUIDs := [orgGUID] |} None authorized c ≠ []
  ↔ convergedAnchor r c orgGUID ∧ authorized !! orgGUID = Some true.
Proof.
  rewrite not_nil_elem. split.
  - intros (record & Hrec). apply elem_of_anchorOrgRecords in Hrec
      as (anchor & Hin & Hns & _ & Hok & Hguid & Hauth & _).
    apply matchFilter_toMap in Hguid as [?|Hguid]; [done|].
    simpl in Hguid. apply list_elem_of_singleton in Hguid. rewrite Hguid in *.
    split; [|done]. by exists anchor.
  - intros ((anchor & Hin & Hns & Hname & Hok) & Hauth).
    exists (anchorToOrgRecord anchor). apply elem_of_anchorOrgRecords.
    exists anchor. repeat split; try done.
    + apply matchFilter_toMap. right. simpl. rewrite Hname. by left.
    + by rewrite Hname.
Qed.

Lemma cfOrgRecords_guid_nonempty r orgGUID authorized c :
  cfOrgRecords r {| ListOrgsMessage.Names := []; ListOrgsMessage.GUIDs := [orgGUID] |} authorized c ≠ []
  ↔ readyCFOrg r c orgGUID ∧ authorized !! orgGUID = Some true.
Proof.
  rewrite not_nil_elem. split.
  - intros (record & Hrec). apply elem_of_cfOrgRecords in Hrec
      as (cfOrg & Hin & Hns & Hready & Hguid & _ & Hauth & _).
    apply matchesFilter_spec in Hguid as [?|Hguid]; [done|].
    simpl in Hguid. apply list_elem_of_singleton in Hguid. rewrite Hguid in *.
    split; [|done]. by exists cfOrg.
  - intros ((cfOrg & Hin & Hns & Hname & Hready) & Hauth).
    exists (cfOrgToOrgRecord cfOrg). apply elem_of_cfOrgRecords.
    exists cfOrg. repeat split; try done.
    + apply matchesFilter_spec. right. simpl. rewrite Hname. by left.
    + by rewrite Hname.
Qed.

(** C1: with the list call and the permission lookup succeeding, GetOrg
    returns a record exactly when an org-backing resource named orgGUID under
    the root namespace has converged (anchor state Ok in one revision, Ready
    condition true in the other) and orgGUID maps to true in the caller's
    authorized org namespaces; the record carries that GUID; in every other
    case GetOrg fails with NotFound for the resource type Org. *)
Theorem GetOrg_found_iff_converged_and_authorized
    env r info orgGUID w (authorized : gmap string bool) :
  apiFault env (anchorListRequest r) = None →
  apiFault env (cfOrgListRequest r) = None →
  authorizedOrgNamespaces env info (clock w) = inr authorized →
  ((∃ record, result (AnchorOrgs.GetOrg env r info orgGUID w) = Done record)
     ↔ convergedAnchor r (cluster w) orgGUID ∧ authorized !! orgGUID = Some true)
  ∧ (∀ record, result (AnchorOrgs.GetOrg env r info orgGUID w) = Done record →
       OrgRecord.GUID record = orgGUID)
  ∧ (¬ (convergedAnchor r (cluster w) orgGUID ∧ authorized !! orgGUID = Some true) →
       result (AnchorOrgs.GetOrg env r info orgGUID w)
       = Failed (NotFoundError None OrgResourceType))
  ∧ ((∃ record, result (CFOrgs.GetOrg env r info orgGUID w) = Done record)
       ↔ readyCFOrg r (cluster w) orgGUID ∧ authorized !! orgGUID = Some true)
  ∧ (∀ record, result (CFOrgs.GetOrg env r info orgGUID w) = Done record →
       OrgRecord.GUID record = orgGUID)
  ∧ (¬ (readyCFOrg r (cluster w) orgGUID ∧ authorized !! orgGUID = Some true) →
       result (CFOrgs.GetOrg env r info orgGUID w)
       = Failed (NotFoundError None OrgResourceType)).
Proof.
  intros Hanchors Hcforgs Hauth.
  rewrite AnchorOrgs_GetOrg_result, CFOrgs_GetOrg_result.
  rewrite (AnchorOrgs_ListOrgs_no_names env r info
             {| ListOrgsMessage.Names := []; ListOrgsMessage.GUIDs := [orgGUID] |}
             w authorized eq_refl Hanchors Hauth).
  rewrite CFOrgs_ListOrgs_result, Hcforgs, Hauth.
  pose proof (anchorOrgRecords_guid_nonempty r orgGUID authorized (cluster w)) as HA.
  pose proof (cfOrgRecords_guid_nonempty r orgGUID authorized (cluster w)) as HC.
  split_and!.
  - split.
    + intros [record Hrec]. apply HA. by destruct (anchorOrgRecords _ _ _ _ _).
    + intros Hconv. apply HA in Hconv.
      destruct (anchorOrgRecords _ _ _ _ _) as [|record l]; [done|]. by exists record.
  - intros record Hrec.
    destruct (anchorOrgRecords _ _ _ _ _) as [|record' l] eqn:Hl; [done|].
    injection Hrec as ->.
    assert (record ∈ anchorOrgRecords r {| ListOrgsMessage.Names := []; ListOrgsMessage.GUIDs := [orgGUID] |}
                       None authorized (cluster w)) as Hin by (rewrite Hl; by left).
    apply elem_of_anchorOrgRecords in Hin as (anchor & _ & _ & _ & _ & Hguid & _ & ->).
    apply matchFilter_toMap in Hguid as [?|Hguid]; [done|].
    simpl in Hguid. by apply list_elem_of_singleton in Hguid.
  - intros Hnot. destruct (anchorOrgRecords _ _ _ _ _) as [|record l]; [done|].
    exfalso. apply Hnot, HA. done.
  - split.
    + intros [record Hrec]. apply HC. by destruct (cfOrgRecords _ _ _ _).
    + intros Hconv. apply HC in Hconv.
      destruct (cfOrgRecords _ _ _ _) as [|record l]; [done|]. by exists record.
  - intros record Hrec.
    destruct (cfOrgRecords _ _ _ _) as [|record' l] eqn:Hl; [done|].
    injection Hrec as ->.
    assert (record ∈ cfOrgRecords r {| ListOrgsMessage.Names := []; ListOrgsMessage.GUIDs := [orgGUID] |}
                       authorized (cluster w)) as Hin by (rewrite Hl; by left).
    apply elem_of_cfOrgRecords in Hin as (cfOrg & _ & _ & _ & Hguid & _ & _ & ->).
    apply matchesFilter_spec in Hguid as [?|Hguid]; [done|].
    simpl in Hguid. by apply list_elem_of_singleton in Hguid.
  - intros Hnot. destruct (cfOrgRecords _ _ _ _) as [|record l]; [done|].
    exfalso. apply Hnot, HC. done.
Qed.

(** On the sample cluster "alice" gets the converged, granted "cf-org-a" and
    is told NotFound for the converged "cf-org-x" that only "bob" is granted. *)
Lemma GetOrg_found_iff_converged_and_authorized_witness :
  apiFault Sample.env (anchorListRequest Sample.repo) = None
  ∧ apiFault Sample.env (cfOrgListRequest Sample.repo) = None
  ∧ (∃ record, result (AnchorOrgs.GetOrg Sample.env Sample.repo "alice" "cf-org-a" Sample.world) = Done record)
  ∧ result (AnchorOrgs.GetOrg Sample.env Sample.repo "alice" "cf-org-x" Sample.world)
    = Failed (NotFoundError None OrgResourceType).
Proof.
  split_and!; [reflexivity|reflexivity| |].
  - apply (GetOrg_found_iff_converged_and_authorized Sample.env Sample.repo "alice" "cf-org-a"
             Sample.world {[ "cf-org-a" := true; "cf-org-b" := true ]} eq_refl eq_refl eq_refl).
    split; [|reflexivity].
    eexists. split; [by left|]. by split_and!.
  - apply (GetOrg_found_iff_converged_and_authorized Sample.env Sample.repo "alice" "cf-org-x"
             Sample.world {[ "cf-org-a" := true; "cf-org-b" := true ]} eq_refl eq_refl eq_refl).
    intros [_ Hauth]. vm_compute in Hauth. discriminate.
Defined.

(** ** ListOrgs under a filter *)

Lemma anchorOrgRecords_sublist r F selector authorized c :
  anchorOrgRecords r F selector authorized c
  `sublist_of` anchorOrgRecords r allOrgs None authorized c.
Proof.
  unfold anchorOrgRecords. apply omap_sublist; [|by right].
  apply omap_sublist.
  - apply filter_sublist_impl. by intros a [Hns _].
  - intros anchor. destruct (decide _); [by left|].
    destruct (matchFilter (toMap (ListOrgsMessage.GUIDs F)) _); simpl; [by right|by left].
Qed.

Lemma anchorOrgRecords_guids r F authorized c :
  anchorOrgRecords r F None authorized c
  = filter (fun record => matchFilter (toMap (ListOrgsMessage.GUIDs F)) (OrgRecord.GUID record) = true)
           (anchorOrgRecords r allOrgs None authorized c).
Proof.
  unfold anchorOrgRecords.
  induction (filter _ (anchors c)) as [|anchor l IH]; [done|].
  cbn [omap list_omap]. destruct (decide _) as [|Hok]; [done|].
  change (matchFilter (toMap (ListOrgsMessage.GUIDs allOrgs)) _) with true. cbn [negb].
  destruct (matchFilter (toMap (ListOrgsMessage.GUIDs F)) _) eqn:Hguid; cbn [negb omap list_omap].
  - destruct (index authorized _); cbn [negb]; [|done].
    rewrite filter_cons, decide_True by done. by f_equal.
  - destruct (index authorized _); cbn [negb]; [|done].
    rewrite filter_cons, decide_False; [done|]. simpl. by rewrite Hguid.
Qed.

Lemma cfOrgRecords_filter r F authorized c :
  cfOrgRecords r F authorized c
  = filter (fun record => matchesFilter (OrgRecord.GUID record) (ListOrgsMessage.GUIDs F) = true
                          ∧ matchesFilter (OrgRecord.Name record) (ListOrgsMessage.Names F) = true)
           (cfOrgRecords r allOrgs authorized c).
Proof.
  unfold cfOrgRecords.
  induction (filter _ (cfOrgs c)) as [|cfOrg l IH]; [done|].
  cbn [omap list_omap]. destruct (meta.IsStatusConditionTrue _ _); cbn [negb]; [|done].
  change (matchesFilter _ (ListOrgsMessage.GUIDs allOrgs)) with true.
  change (matchesFilter _ (ListOrgsMessage.Names allOrgs)) with true. cbn [andb].
  destruct (matchesFilter _ (ListOrgsMessage.GUIDs F)) eqn:Hguid;
    [destruct (matchesFilter _ (ListOrgsMessage.Names F)) eqn:Hname|]; cbn [andb omap list_omap].
  - destruct (index authorized _); cbn [negb]; [|done].
    rewrite filter_cons, decide_True by done. by f_equal.
  - destruct (index authorized _); cbn [negb]; [|done].
    rewrite filter_cons, decide_False; [done|]. simpl. rewrite Hname. by intros [_ ?].
  - destruct (index authorized _); cbn [negb]; [|done].
    rewrite filter_cons, decide_False; [done|]. simpl. rewrite Hguid. by intros [? _].
Qed.

Lemma matchesSelector_names F (m : metav1.ObjectMeta) :
  k8s.matchesSelector (namesSelector F) m →
  ListOrgsMessage.Names F = [] ∨ label m OrgNameLabel ∈ ListOrgsMessage.Names F.
Proof.
  unfold namesSelector, label. destruct (decide _) as [Hlen|Hlen]; simpl.
  - unfold labels.Matches. simpl. destruct (metav1.Labels m !! OrgNameLabel); [|done].
    rewrite bool_decide_eq_true. by right.
  - intros _. left. destruct (ListOrgsMessage.Names F); [done|simpl in Hlen; lia].
Qed.

Lemma matchesSelector_names_iff F (m : metav1.ObjectMeta) :
  k8s.matchesSelector (namesSelector F) m ↔
  ListOrgsMessage.Names F = []
  ∨ ∃ value, metav1.Labels m !! OrgNameLabel = Some value ∧ value ∈ ListOrgsMessage.Names F.
Proof.
  unfold namesSelector. destruct (decide _) as [Hlen|Hlen]; simpl.
  - unfold labels.Matches. simpl. split.
    + destruct (metav1.Labels m !! OrgNameLabel) as [value|]; [|done].
      rewrite bool_decide_eq_true. right. by exists value.
    + intros [Hnil|(value & -> & Hin)]; [rewrite Hnil in Hlen; simpl in Hlen; lia|].
      by rewrite bool_decide_eq_true.
  - split; [|done]. intros _. left.
    destruct (ListOrgsMessage.Names F); [done|simpl in Hlen; lia].
Qed.

(** C2: for every filter, cluster state and caller, what ListOrgs returns
    under the filter is a subsequence of what it returns under the empty
    filter; every returned record is the record of a backing resource under
    the root namespace that has converged (anchor state Ok, respectively Ready
    condition true) and passes the GUID and name membership tests; an empty
    filter component matches every value and a non-empty one is a membership
    test - under the CFOrg revision on the record's GUID and name, under the
    anchor revision on the anchor's name and on the value of its org-name
    label, which the label selector requires to be present. *)
Theorem ListOrgs_filtered_within_unfiltered env r info (F : ListOrgsMessage.t) w :
  (returned (result (AnchorOrgs.ListOrgs env r info F w))
     `sublist_of` returned (result (AnchorOrgs.ListOrgs env r info allOrgs w))
   ∧ (∀ record, record ∈ returned (result (AnchorOrgs.ListOrgs env r info F w)) →
        (∃ anchor, anchor ∈ anchors (cluster w)
           ∧ metav1.Namespace (v1alpha2.ObjectMeta anchor) = rootNamespace r
           ∧ v1alpha2.State (v1alpha2.Status anchor) = v1alpha2.Ok
           ∧ record = anchorToOrgRecord anchor)
        ∧ (ListOrgsMessage.GUIDs F = [] ∨ OrgRecord.GUID record ∈ ListOrgsMessage.GUIDs F)
        ∧ (ListOrgsMessage.Names F = [] ∨ OrgRecord.Name record ∈ ListOrgsMessage.Names F))
   ∧ (ListOrgsMessage.Names F = [] →
        returned (result (AnchorOrgs.ListOrgs env r info F w))
        = filter (fun record => matchFilter (toMap (ListOrgsMessage.GUIDs F)) (OrgRecord.GUID record) = true)
                 (returned (result (AnchorOrgs.ListOrgs env r info allOrgs w))))
   ∧ (∀ listed, result (AnchorOrgs.ListOrgs env r info F w) = Done listed →
        ∃ authorized, authorizedOrgNamespaces env info (clock w) = inr authorized
          ∧ ∀ record,
              record ∈ listed
              ↔ ∃ anchor, anchor ∈ anchors (cluster w)
                  ∧ metav1.Namespace (v1alpha2.ObjectMeta anchor) = rootNamespace r
                  ∧ v1alpha2.State (v1alpha2.Status anchor) = v1alpha2.Ok
                  ∧ (ListOrgsMessage.GUIDs F = []
                     ∨ metav1.Name (v1alpha2.ObjectMeta anchor) ∈ ListOrgsMessage.GUIDs F)
                  ∧ (ListOrgsMessage.Names F = []
                     ∨ ∃ value, metav1.Labels (v1alpha2.ObjectMeta anchor) !! OrgNameLabel = Some value
                                ∧ value ∈ ListOrgsMessage.Names F)
                  ∧ authorized !! metav1.Name (v1alpha2.ObjectMeta anchor) = Some true
                  ∧ record = anchorToOrgRecord anchor))
  ∧ (returned (result (CFOrgs.ListOrgs env r info F w))
       `sublist_of` returned (result (CFOrgs.ListOrgs env r info allOrgs w))
     ∧ (∀ record, record ∈ returned (result (CFOrgs.ListOrgs env r info F w)) →
          (∃ cfOrg, cfOrg ∈ cfOrgs (cluster w)
             ∧ metav1.Namespace (workloads.ObjectMeta cfOrg) = rootNamespace r
             ∧ meta.IsStatusConditionTrue (workloads.Conditions (workloads.Status cfOrg)) "Ready" = true
             ∧ record = cfOrgToOrgRecord cfOrg)
          ∧ (ListOrgsMessage.GUIDs F = [] ∨ OrgRecord.GUID record ∈ ListOrgsMessage.GUIDs F)
          ∧ (ListOrgsMessage.Names F = [] ∨ OrgRecord.Name record ∈ ListOrgsMessage.Names F))
     ∧ returned (result (CFOrgs.ListOrgs env r info F w))
       = filter (fun record => matchesFilter (OrgRecord.GUID record) (ListOrgsMessage.GUIDs F) = true
                               ∧ matchesFilter (OrgRecord.Name record) (ListOrgsMessage.Names F) = true)
                (returned (result (CFOrgs.ListOrgs env r info allOrgs w))))
  ∧ (∀ (values : list string) (value : string),
       (matchFilter (toMap values) value = true ↔ values = [] ∨ value ∈ values)
       ∧ (matchesFilter value values = true ↔ values = [] ∨ value ∈ values)).
Proof.
  split_and!.
  - destruct (result (AnchorOrgs.ListOrgs env r info F w)) as [l|e|] eqn:HF;
      simpl; [|apply sublist_nil_l..].
    apply AnchorOrgs_ListOrgs_inv in HF as (Hfault & authorized & Hauth & ->).
    rewrite (AnchorOrgs_ListOrgs_no_names env r info allOrgs w authorized eq_refl Hfault Hauth).
    apply anchorOrgRecords_sublist.
  - intros record Hrec.
    destruct (result (AnchorOrgs.ListOrgs env r info F w)) as [l|e|] eqn:HF;
      simpl in Hrec; [|by apply elem_of_nil in Hrec..].
    apply AnchorOrgs_ListOrgs_inv in HF as (Hfault & authorized & Hauth & ->).
    apply elem_of_anchorOrgRecords in Hrec
      as (anchor & Hin & Hns & Hsel & Hok & Hguid & _ & ->).
    split_and!.
    + by exists anchor.
    + by apply matchFilter_toMap.
    + by apply matchesSelector_names.
  - intros Hnames.
    destruct (result (AnchorOrgs.ListOrgs env r info F w)) as [l|e|] eqn:HF.
    + apply AnchorOrgs_ListOrgs_inv in HF as (Hfault & authorized & Hauth & ->).
      rewrite (AnchorOrgs_ListOrgs_no_names env r info allOrgs w authorized eq_refl Hfault Hauth).
      simpl. unfold namesSelector. rewrite Hnames. simpl.
      apply anchorOrgRecords_guids.
    + destruct (result (AnchorOrgs.ListOrgs env r info allOrgs w)) as [l0|e0|] eqn:H0; [|done..].
      apply AnchorOrgs_ListOrgs_inv in H0 as (Hfault & authorized & Hauth & _).
      rewrite (AnchorOrgs_ListOrgs_no_names env r info F w authorized Hnames Hfault Hauth) in HF.
      discriminate.
    + destruct (result (AnchorOrgs.ListOrgs env r info allOrgs w)) as [l0|e0|] eqn:H0; [|done..].
      apply AnchorOrgs_ListOrgs_inv in H0 as (Hfault & authorized & Hauth & _).
      rewrite (AnchorOrgs_ListOrgs_no_names env r info F w authorized Hnames Hfault Hauth) in HF.
      discriminate.
  - intros listed HF.
    apply AnchorOrgs_ListOrgs_inv in HF as (Hfault & authorized & Hauth & ->).
    exists authorized. split; [done|]. intros record.
    rewrite elem_of_anchorOrgRecords. split.
    + intros (anchor & Hin & Hns & Hsel & Hok & Hguid & Htrue & ->).
      exists anchor. split_and!; try done.
      * by apply matchFilter_toMap.
      * by apply matchesSelector_names_iff.
    + intros (anchor & Hin & Hns & Hok & Hguid & Hsel & Htrue & ->).
      exists anchor. split_and!; try done.
      * by apply matchesSelector_names_iff.
      * by apply matchFilter_toMap.
  - rewrite !CFOrgs_ListOrgs_result. destruct (apiFault env _); [done|].
    destruct (authorizedOrgNamespaces env info (clock w)) as [e|authorized]; [done|].
    simpl. rewrite (cfOrgRecords_filter r F). apply sublist_filter.
  - intros record. rewrite CFOrgs_ListOrgs_result. destruct (apiFault env _); simpl; [by intros ?%elem_of_nil|].
    destruct (authorizedOrgNamespaces env info (clock w)) as [e|authorized]; simpl; [by intros ?%elem_of_nil|].
    intros (cfOrg & Hin & Hns & Hready & Hguid & Hname & _ & ->)%elem_of_cfOrgRecords.
    split_and!.
    + by exists cfOrg.
    + by apply matchesFilter_spec.
    + by apply matchesFilter_spec.
  - rewrite !CFOrgs_ListOrgs_result. destruct (apiFault env _); [done|].
    destruct (authorizedOrgNamespaces env info (clock w)) as [e|authorized]; [done|].
    simpl. apply cfOrgRecords_filter.
  - intros values value. split; [apply matchFilter_toMap|apply matchesFilter_spec].
Qed.

(** On the sample cluster the names "acme" and "xeno" select "cf-org-a" alone
    for "alice", out of what the empty filter gives her. *)
Lemma ListOrgs_filtered_within_unfiltered_witness :
  returned (result (AnchorOrgs.ListOrgs Sample.env Sample.repo "alice"
                      {| ListOrgsMessage.Names := ["acme"; "xeno"]; ListOrgsMessage.GUIDs := [] |} Sample.world))
  `sublist_of` returned (result (AnchorOrgs.ListOrgs Sample.env Sample.repo "alice" allOrgs Sample.world))
  ∧ map OrgRecord.GUID
        (returned (result (AnchorOrgs.ListOrgs Sample.env Sample.repo "alice"
                             {| ListOrgsMessage.Names := ["acme"; "xeno"]; ListOrgsMessage.GUIDs := [] |} Sample.world)))
    = ["cf-org-a"].
Proof.
  split; [|reflexivity].
  apply (ListOrgs_filtered_within_unfiltered Sample.env Sample.repo "alice"
           {| ListOrgsMessage.Names := ["acme"; "xeno"]; ListOrgsMessage.GUIDs := [] |} Sample.world).
Defined.

(** ** CreateSpace and the parent organization *)

Lemma AnchorOrgs_ListOrgs_no_names_run env r info F w :
  ListOrgsMessage.Names F = [] →
  AnchorOrgs.ListOrgs env r info F w =
  (match apiFault env (anchorListRequest r) with
   | Some e => Failed (apierrors.FromK8sError (StatusErr e) OrgResourceType)
   | None =>
       match authorizedOrgNamespaces env info (clock w) with
       | inl e => Failed e
       | inr authorized => Done (anchorOrgRecords r F None authorized (cluster w))
       end
   end,
   final (logCall (anchorListRequest r) w)).
Proof.
  intros Hn. unfold AnchorOrgs.ListOrgs, anchorOrgRecords, anchorListRequest. rewrite Hn. simpl.
  unfold bind, onError, k8s.ListAnchors, k8s.request, k8s.GetAuthorizedOrgNamespaces,
    bind, logCall, ret, throw, getWorld, liftResult, final. simpl.
  destruct (apiFault env _); simpl; [done|].
  by destruct (authorizedOrgNamespaces env info (clock w)).
Qed.

Lemma CFOrgs_ListOrgs_run env r info F w :
  CFOrgs.ListOrgs env r info F w =
  (match apiFault env (cfOrgListRequest r) with
   | Some e => Failed (apierrors.FromK8sError (StatusErr e) OrgResourceType)
   | None =>
       match authorizedOrgNamespaces env info (clock w) with
       | inl e => Failed e
       | inr authorized => Done (cfOrgRecords r F authorized (cluster w))
       end
   end,
   final (logCall (cfOrgListRequest r) w)).
Proof.
  unfold CFOrgs.ListOrgs, cfOrgRecords, cfOrgListRequest.
  unfold bind, onError, k8s.ListCFOrgs, k8s.request, k8s.GetAuthorizedOrgNamespaces,
    bind, logCall, ret, throw, getWorld, liftResult, final. simpl.
  destruct (apiFault env _); simpl; [done|].
  by destruct (authorizedOrgNamespaces env info (clock w)).
Qed.

Lemma AnchorOrgs_GetOrg_unauthorized env r info orgGUID w :
  (∀ authorized, authorizedOrgNamespaces env info (clock w) = inr authorized →
                 authorized !! orgGUID ≠ Some true) →
  ∃ err, AnchorOrgs.GetOrg env r info orgGUID w
         = (Failed err, final (logCall (anchorListRequest r) w)).
Proof.
  intros Hno. unfold AnchorOrgs.GetOrg, bind.
  rewrite AnchorOrgs_ListOrgs_no_names_run by done.
  destruct (apiFault env _); [by eexists|].
  destruct (authorizedOrgNamespaces env info (clock w)) as [e|authorized] eqn:Hauth; [by eexists|].
  destruct (anchorOrgRecords _ _ _ _ _) as [|record l] eqn:Hl; [by eexists|].
  exfalso. apply (Hno authorized eq_refl).
  eapply anchorOrgRecords_guid_nonempty. by rewrite Hl.
Qed.

Lemma CFOrgs_GetOrg_unauthorized env r info orgGUID w :
  (∀ authorized, authorizedOrgNamespaces env info (clock w) = inr authorized →
                 authorized !! orgGUID ≠ Some true) →
  ∃ err, CFOrgs.GetOrg env r info orgGUID w
         = (Failed err, final (logCall (cfOrgListRequest r) w)).
Proof.
  intros Hno. unfold CFOrgs.GetOrg, bind.
  rewrite CFOrgs_ListOrgs_run.
  destruct (apiFault env _); [by eexists|].
  destruct (authorizedOrgNamespaces env info (clock w)) as [e|authorized] eqn:Hauth; [by eexists|].
  destruct (cfOrgRecords _ _ _ _) as [|record l] eqn:Hl; [by eexists|].
  exfalso. apply (Hno authorized eq_refl).
  eapply cfOrgRecords_guid_nonempty. by rewrite Hl.
Qed.

Lemma CreateSpace_GetOrg_failed env r GetOrg fuel info message w err w' :
  GetOrg info (CreateSpaceMessage.OrganizationGUID message) w = (Failed err, w') →
  repositories.CreateSpace env r GetOrg fuel info message w
  = (Failed (Errorf "failed to get parent organization: %w" [] (Some err)), w').
Proof.
  intros Hget. unfold repositories.CreateSpace.
  unfold bind at 1. unfold onError at 1. by rewrite Hget.
Qed.

(** C3: when the organization of a CreateSpaceMessage does not map to true in
    the caller's authorized org namespaces - whatever anchors or CFOrgs the
    cluster holds and whatever other callers see - CreateSpace fails with
    "failed to get parent organization: %w" wrapping the GetOrg failure; the
    only API call it has made is the privileged list of GetOrg, and the
    cluster is unchanged: no anchor was created. *)
Theorem CreateSpace_invisible_parent env r fuel info (message : CreateSpaceMessage.t) w :
  (∀ authorized, authorizedOrgNamespaces env info (clock w) = inr authorized →
                 authorized !! CreateSpaceMessage.OrganizationGUID message ≠ Some true) →
  ((∃ err, result (AnchorOrgs.CreateSpace env r fuel info message w)
           = Failed (Errorf "failed to get parent organization: %w" [] (Some err)))
   ∧ calls (final (AnchorOrgs.CreateSpace env r fuel info message w))
     = calls w ++ [anchorListRequest r]
   ∧ cluster (final (AnchorOrgs.CreateSpace env r fuel info message w)) = cluster w)
  ∧ ((∃ err, result (CFOrgs.CreateSpace env r fuel info message w)
             = Failed (Errorf "failed to get parent organization: %w" [] (Some err)))
     ∧ calls (final (CFOrgs.CreateSpace env r fuel info message w))
       = calls w ++ [cfOrgListRequest r]
     ∧ cluster (final (CFOrgs.CreateSpace env r fuel info message w)) = cluster w).
Proof.
  intros Hno. split.
  - destruct (AnchorOrgs_GetOrg_unauthorized env r info _ w Hno) as [err Hget].
    unfold AnchorOrgs.CreateSpace.
    rewrite (CreateSpace_GetOrg_failed env r _ fuel info message w _ _ Hget).
    split_and!; [by exists err|done..].
  - destruct (CFOrgs_GetOrg_unauthorized env r info _ w Hno) as [err Hget].
    unfold CFOrgs.CreateSpace.
    rewrite (CreateSpace_GetOrg_failed env r _ fuel info message w _ _ Hget).
    split_and!; [by exists err|done..].
Qed.

(** "cf-org-x" is converged and "bob" can get it, yet "alice" cannot create a
    space in it. *)
Lemma CreateSpace_invisible_parent_witness :
  convergedAnchor Sample.repo Sample.objects "cf-org-x"
  ∧ (∃ record, result (AnchorOrgs.GetOrg Sample.env Sample.repo "bob" "cf-org-x" Sample.world) = Done record)
  ∧ (∃ err, result (AnchorOrgs.CreateSpace Sample.env Sample.repo 4 "alice"
                      {| CreateSpaceMessage.Name := "dev";
                         CreateSpaceMessage.OrganizationGUID := "cf-org-x";
                         CreateSpaceMessage.ImageRegistryCredentials := "registry-secret" |}
                      Sample.world)
            = Failed (Errorf "failed to get parent organization: %w" [] (Some err))).
Proof.
  split_and!.
  - eexists. split; [right; right; by left|]. by split_and!.
  - eexists. reflexivity.
  - apply (CreateSpace_invisible_parent Sample.env Sample.repo 4 "alice"
             {| CreateSpaceMessage.Name := "dev";
                CreateSpaceMessage.OrganizationGUID := "cf-org-x";
                CreateSpaceMessage.ImageRegistryCredentials := "registry-secret" |}
             Sample.world).
    intros authorized [= <-]. vm_compute. discriminate.
Defined.

(** ** Service bindings *)

Lemma GetServiceBinding_final env who ns guid w :
  final (k8s.GetServiceBinding env who ns guid w)
  = final (logCall (k8s.objectRequest who client.Get client.CFServiceBinding ns guid) w).
Proof.
  unfold k8s.GetServiceBinding, k8s.request, bind, logCall, getWorld, ret, throw, final. simpl.
  destruct (apiFault env _); [done|]. simpl. by destruct (filter _ _).
Qed.

Lemma ForbiddenAsNotFound_never_forbidden err cause resourceType :
  apierrors.ForbiddenAsNotFound err ≠ ForbiddenError cause resourceType.
Proof. by destruct err. Qed.

(** C4: when DeleteServiceBinding's fetch of the binding in the namespace the
    GUID resolves to fails, the call fails with that error passed through
    FromK8sError and ForbiddenAsNotFound; this is NotFound for the resource
    type "Service Binding" both when the binding is absent and when the
    caller is forbidden to see it, and it is never a Forbidden error; no
    delete is attempted. *)
Theorem DeleteServiceBinding_fetch_failure_is_NotFound
    env authInfo guid w (namespace : string) (err : error) :
  buildClientFault env authInfo = None →
  namespaceFor env guid ServiceBindingRepo.ServiceBindingResourceType = inr namespace →
  result (k8s.GetServiceBinding env (client.AsUser authInfo) namespace guid w) = Failed err →
  result (ServiceBindingRepo.DeleteServiceBinding env authInfo guid w)
  = Failed (apierrors.ForbiddenAsNotFound
              (apierrors.FromK8sError err ServiceBindingRepo.ServiceBindingResourceType))
  ∧ (k8serrors.IsNotFound err = true ∨ k8serrors.IsForbidden err = true →
       result (ServiceBindingRepo.DeleteServiceBinding env authInfo guid w)
       = Failed (NotFoundError (Some err) ServiceBindingRepo.ServiceBindingResourceType))
  ∧ (∀ cause resourceType,
       result (ServiceBindingRepo.DeleteServiceBinding env authInfo guid w)
       ≠ Failed (ForbiddenError cause resourceType))
  ∧ calls (final (ServiceBindingRepo.DeleteServiceBinding env authInfo guid w))
    = calls w ++ [bindingRequest authInfo client.Get namespace guid]
  ∧ cluster (final (ServiceBindingRepo.DeleteServiceBinding env authInfo guid w)) = cluster w.
Proof.
  intros Hbuild Hns Hget.
  pose proof (GetServiceBinding_final env (client.AsUser authInfo) namespace guid w) as Hfinal.
  assert (ServiceBindingRepo.DeleteServiceBinding env authInfo guid w
          = (Failed (apierrors.ForbiddenAsNotFound
                       (apierrors.FromK8sError err ServiceBindingRepo.ServiceBindingResourceType)),
             final (logCall (bindingRequest authInfo client.Get namespace guid) w))) as Hrun.
  { unfold ServiceBindingRepo.DeleteServiceBinding, k8s.BuildClient, k8s.NamespaceFor.
    rewrite Hbuild, Hns. unfold bind at 1. unfold onError at 1, ret at 1.
    unfold bind at 1. unfold liftResult, ret at 1.
    unfold bind at 1. unfold onError at 1.
    unfold result in Hget. unfold final at 1 in Hfinal.
    destruct (k8s.GetServiceBinding env (client.AsUser authInfo) namespace guid w) as [o w'].
    simpl in Hget, Hfinal. by subst. }
  rewrite Hrun. split_and!; try done.
  - intros Hkind. simpl. f_equal.
    destruct err as [e| | | | |]; simpl in Hkind; try (by destruct Hkind).
    destruct Hkind as [Hk|Hk]; apply bool_decide_eq_true in Hk; simpl; by rewrite Hk.
  - intros cause resourceType [= Heq]. by eapply ForbiddenAsNotFound_never_forbidden.
Qed.

(** "binding-3" lives in another namespace than the one its GUID resolves
    to, and in the stricter cluster the caller may not get "binding-1": both
    deletions fail with NotFound. *)
Lemma DeleteServiceBinding_fetch_failure_is_NotFound_witness :
  (∃ cause, result (ServiceBindingRepo.DeleteServiceBinding Sample.env "alice" "binding-3" Sample.world)
            = Failed (NotFoundError cause ServiceBindingRepo.ServiceBindingResourceType))
  ∧ (∃ cause, result (ServiceBindingRepo.DeleteServiceBinding Sample.guarded "alice" "binding-1" Sample.world)
              = Failed (NotFoundError cause ServiceBindingRepo.ServiceBindingResourceType)).
Proof.
  split.
  - eexists.
    apply (DeleteServiceBinding_fetch_failure_is_NotFound Sample.env "alice" "binding-3"
             Sample.world "cf-space-1" k8s.notFound eq_refl eq_refl eq_refl).
    by left.
  - eexists.
    apply (DeleteServiceBinding_fetch_failure_is_NotFound Sample.guarded "alice" "binding-1"
             Sample.world "cf-space-1" (StatusErr Sample.forbidden) eq_refl eq_refl eq_refl).
    by right.
Defined.

Lemma k8s_ListServiceBindings_run env who ns w :
  k8s.ListServiceBindings env who (Some ns) w =
  (match apiFault env (k8s.listRequest who client.CFServiceBinding (Some ns)) with
   | Some e => Failed (StatusErr e)
   | None => Done (bindingsIn (cluster w) ns)
   end,
   final (logCall (k8s.listRequest who client.CFServiceBinding (Some ns)) w)).
Proof.
  unfold k8s.ListServiceBindings, k8s.request, bind, logCall, getWorld, ret, throw, final, bindingsIn.
  simpl. by destruct (apiFault env _).
Qed.

(** C6: with the client built and the list call accepted,
    ServiceBindingExists returns true exactly when a binding in the space
    namespace has its app reference equal to appGUID and its service-instance
    reference equal to instanceGUID, and false otherwise - in particular when
    every binding there matches at most one of the two. *)
Theorem ServiceBindingExists_iff_both_match
    env authInfo (spaceGUID appGUID serviceInstanceGUID : string) w :
  buildClientFault env authInfo = None →
  apiFault env (bindingListRequest authInfo spaceGUID) = None →
  (result (ServiceBindingRepo.ServiceBindingExists env authInfo spaceGUID appGUID serviceInstanceGUID w)
   = Done true
   ↔ ∃ binding, binding ∈ serviceBindings (cluster w)
       ∧ metav1.Namespace (servicesv1alpha1.ObjectMeta binding) = spaceGUID
       ∧ servicesv1alpha1.AppRef (servicesv1alpha1.Spec binding) = appGUID
       ∧ servicesv1alpha1.Service (servicesv1alpha1.Spec binding) = serviceInstanceGUID)
  ∧ ((∀ binding, binding ∈ serviceBindings (cluster w) →
        metav1.Namespace (servicesv1alpha1.ObjectMeta binding) = spaceGUID →
        ¬ (servicesv1alpha1.AppRef (servicesv1alpha1.Spec binding) = appGUID
           ∧ servicesv1alpha1.Service (servicesv1alpha1.Spec binding) = serviceInstanceGUID)) →
     result (ServiceBindingRepo.ServiceBindingExists env authInfo spaceGUID appGUID serviceInstanceGUID w)
     = Done false).
Proof.
  intros Hbuild Hlist. unfold bindingListRequest in Hlist.
  assert (result (ServiceBindingRepo.ServiceBindingExists env authInfo spaceGUID appGUID serviceInstanceGUID w)
          = Done (existsb (fun serviceBinding =>
                    bool_decide (servicesv1alpha1.AppRef (servicesv1alpha1.Spec serviceBinding) = appGUID)
                    && bool_decide (servicesv1alpha1.Service (servicesv1alpha1.Spec serviceBinding) = serviceInstanceGUID))
                    (bindingsIn (cluster w) spaceGUID))) as ->.
  { unfold ServiceBindingRepo.ServiceBindingExists, k8s.BuildClient. rewrite Hbuild.
    unfold bind at 1. unfold onError at 1, ret at 1.
    unfold bind at 1. unfold onError at 1.
    rewrite k8s_ListServiceBindings_run, Hlist. done. }
  split.
  - split.
    + intros [= Hex]. apply existsb_exists in Hex as (binding & Hin & Hboth).
      apply list_elem_of_In, list_elem_of_filter in Hin as [Hns Hin].
      apply andb_true_iff in Hboth as [Happ Hsvc].
      apply bool_decide_eq_true in Happ, Hsvc. by exists binding.
    + intros (binding & Hin & Hns & Happ & Hsvc). f_equal.
      apply existsb_exists. exists binding. split.
      * apply list_elem_of_In, list_elem_of_filter. by split.
      * apply andb_true_iff. by rewrite !bool_decide_eq_true.
  - intros Hnone. f_equal. apply not_true_is_false. intros Hex.
    apply existsb_exists in Hex as (binding & Hin & Hboth).
    apply list_elem_of_In, list_elem_of_filter in Hin as [Hns Hin].
    apply andb_true_iff in Hboth as [Happ Hsvc].
    apply bool_decide_eq_true in Happ, Hsvc. by apply (Hnone binding).
Qed.

(** In "cf-space-1" the pair (app-1, instance-2) matches "binding-1" on the
    app and "binding-2" on the instance only: false; (app-1, instance-1) is
    "binding-1": true. *)
Lemma ServiceBindingExists_iff_both_match_witness :
  result (ServiceBindingRepo.ServiceBindingExists Sample.env "alice" "cf-space-1" "app-1" "instance-2" Sample.world)
  = Done false
  ∧ result (ServiceBindingRepo.ServiceBindingExists Sample.env "alice" "cf-space-1" "app-1" "instance-1" Sample.world)
    = Done true.
Proof.
  split.
  - apply (ServiceBindingExists_iff_both_match Sample.env "alice" "cf-space-1" "app-1" "instance-2"
             Sample.world eq_refl eq_refl).
    intros binding Hin Hns [Happ Hsvc].
    repeat (apply elem_of_cons in Hin as [->|Hin]; [by vm_compute in Hns, Happ, Hsvc|]).
    by apply elem_of_nil in Hin.
  - apply (ServiceBindingExists_iff_both_match Sample.env "alice" "cf-space-1" "app-1" "instance-1"
             Sample.world eq_refl eq_refl).
    eexists. split; [by left|]. by split_and!.
Defined.

Lemma logged_logged l1 l2 w : logged l2 (logged l1 w) = logged (l1 ++ l2) w.
Proof. unfold logged. simpl. by rewrite app_assoc. Qed.

Lemma logged_nil w : logged [] w = w.
Proof. destruct w. unfold logged. simpl. by rewrite app_nil_r. Qed.

Lemma elem_of_applyServiceBindingListFilter binding items message :
  binding ∈ ServiceBindingRepo.applyServiceBindingListFilter items message ↔
  binding ∈ items
  ∧ matchesFilter (servicesv1alpha1.Service (servicesv1alpha1.Spec binding))
                  (ListServiceBindingsMessage.ServiceInstanceGUIDs message) = true
  ∧ matchesFilter (servicesv1alpha1.AppRef (servicesv1alpha1.Spec binding))
                  (ListServiceBindingsMessage.AppGUIDs message) = true.
Proof.
  unfold ServiceBindingRepo.applyServiceBindingListFilter. rewrite list_elem_of_omap. split.
  - intros (b & Hin & Hsome).
    destruct (matchesFilter (servicesv1alpha1.Service _) _) eqn:Hsvc; simpl in Hsome; [|done].
    destruct (matchesFilter (servicesv1alpha1.AppRef _) _) eqn:Happ; simpl in Hsome; [|done].
    injection Hsome as <-. done.
  - intros (Hin & Hsvc & Happ). exists binding. split; [done|]. by rewrite Hsvc, Happ.
Qed.

Lemma ListServiceBindings_range_ok env authInfo message namespaces acc w :
  (∀ ns, ns ∈ namespaces → forbiddenOrListed env authInfo ns) →
  ServiceBindingRepo.ListServiceBindings_range env (client.AsUser authInfo) message namespaces acc w
  = (Done (acc ++ (namespaces ≫= contribution env authInfo message (cluster w))),
     logged (map (bindingListRequest authInfo) namespaces) w).
Proof.
  revert acc w. induction namespaces as [|ns rest IH]; intros acc w Hok.
  - simpl. unfold ret. by rewrite app_nil_r, logged_nil.
  - cbn [ServiceBindingRepo.ListServiceBindings_range].
    unfold bind at 1. unfold try at 1. rewrite k8s_ListServiceBindings_run.
    pose proof (Hok ns ltac:(by left)) as Hns. unfold forbiddenOrListed, bindingListRequest in Hns.
    cbn [mbind list_bind]. unfold contribution at 1. unfold bindingListRequest at 1.
    destruct (apiFault env _) as [e|] eqn:Hfault.
    + simpl. rewrite Hns. rewrite bool_decide_true by done.
      rewrite IH by (intros; apply Hok; by right).
      simpl. f_equal. unfold logged. simpl. by rewrite <- app_assoc.
    + rewrite IH by (intros; apply Hok; by right).
      simpl. rewrite <- app_assoc. f_equal. unfold logged. simpl. by rewrite <- app_assoc.
Qed.

Lemma ListServiceBindings_range_fails env authInfo message namespaces acc w :
  (∃ ns, ns ∈ namespaces ∧ ¬ forbiddenOrListed env authInfo ns) →
  ∃ ns e, ns ∈ namespaces
    ∧ apiFault env (bindingListRequest authInfo ns) = Some e
    ∧ Reason e ≠ StatusReasonForbidden
    ∧ result (ServiceBindingRepo.ListServiceBindings_range env (client.AsUser authInfo) message namespaces acc w)
      = Failed (Errorf "failed to list service instances in namespace %s: %w" [ArgString ns]
                       (Some (apierrors.FromK8sError (StatusErr e)
                                ServiceBindingRepo.ServiceBindingResourceType))).
Proof.
  revert acc w. induction namespaces as [|ns rest IH]; intros acc w (bad & Hin & Hbad).
  - by apply elem_of_nil in Hin.
  - cbn [ServiceBindingRepo.ListServiceBindings_range].
    unfold bind at 1. unfold try at 1. rewrite k8s_ListServiceBindings_run.
    destruct (decide (forbiddenOrListed env authInfo ns)) as [Hns|Hns].
    + assert (∃ ns0, ns0 ∈ rest ∧ ¬ forbiddenOrListed env authInfo ns0) as Hrest.
      { apply elem_of_cons in Hin as [->|Hin]; [done|]. by exists bad. }
      unfold forbiddenOrListed, bindingListRequest in Hns.
      destruct (apiFault env _) as [e|] eqn:Hfault.
      * simpl. rewrite Hns. rewrite bool_decide_true by done.
        destruct (IH acc (final (logCall (k8s.listRequest (client.AsUser authInfo) client.CFServiceBinding (Some ns)) w)) Hrest)
          as (ns' & e' & Hin' & Hf' & Hr' & Hres).
        exists ns', e'. split_and!; [by right|done..].
      * destruct (IH (acc ++ ServiceBindingRepo.applyServiceBindingListFilter (bindingsIn (cluster w) ns) message)
                     (final (logCall (k8s.listRequest (client.AsUser authInfo) client.CFServiceBinding (Some ns)) w)) Hrest)
          as (ns' & e' & Hin' & Hf' & Hr' & Hres).
        exists ns', e'. split_and!; [by right|done..].
    + unfold forbiddenOrListed, bindingListRequest in Hns.
      destruct (apiFault env _) as [e|] eqn:Hfault; [|done].
      exists ns, e. split_and!; [by left|done..|].
      simpl. by rewrite bool_decide_false.
Qed.

Lemma ListServiceBindings_run env authInfo message w nsList :
  authorizedSpaceNamespaces env authInfo (clock w) = inr nsList →
  buildClientFault env authInfo = None →
  ServiceBindingRepo.ListServiceBindings env authInfo message w
  = (match result (ServiceBindingRepo.ListServiceBindings_range env (client.AsUser authInfo) message
                     (rangeKeys env nsList) [] w) with
     | Done bindings => Done (ServiceBindingRepo.toServiceBindingRecords env bindings)
     | Failed e => Failed e
     | OutOfFuel => OutOfFuel
     end,
     final (ServiceBindingRepo.ListServiceBindings_range env (client.AsUser authInfo) message
              (rangeKeys env nsList) [] w)).
Proof.
  intros Hauth Hbuild.
  unfold ServiceBindingRepo.ListServiceBindings, k8s.GetAuthorizedSpaceNamespaces, k8s.BuildClient.
  rewrite Hbuild. unfold bind at 1. unfold onError at 1. rewrite Hauth. simpl.
  unfold bind at 1. unfold onError at 1, ret at 1.
  unfold bind, result, final.
  by destruct (ServiceBindingRepo.ListServiceBindings_range _ _ _ _ _ _) as [[l|e|] w'].
Qed.

Lemma elem_of_rangeKeys env (nsList : gmap string bool) ns :
  rangeKeys_ok env → ns ∈ rangeKeys env nsList ↔ ns ∈ dom nsList.
Proof. intros Hok. by rewrite (Hok nsList), elem_of_elements. Qed.

Lemma elem_of_contributions env authInfo message c namespaces binding :
  binding ∈ namespaces ≫= contribution env authInfo message c ↔
  binding ∈ serviceBindings c
  ∧ metav1.Namespace (servicesv1alpha1.ObjectMeta binding) ∈ namespaces
  ∧ apiFault env (bindingListRequest authInfo (metav1.Namespace (servicesv1alpha1.ObjectMeta binding))) = None
  ∧ matchesFilter (servicesv1alpha1.Service (servicesv1alpha1.Spec binding))
                  (ListServiceBindingsMessage.ServiceInstanceGUIDs message) = true
  ∧ matchesFilter (servicesv1alpha1.AppRef (servicesv1alpha1.Spec binding))
                  (ListServiceBindingsMessage.AppGUIDs message) = true.
Proof.
  rewrite list_elem_of_bind. unfold contribution. split.
  - intros (ns & Hin & Hns). destruct (apiFault env (bindingListRequest authInfo ns)) eqn:Hfault.
    + by apply elem_of_nil in Hin.
    + apply elem_of_applyServiceBindingListFilter in Hin as (Hin & Hsvc & Happ).
      apply list_elem_of_filter in Hin as [Heq Hin]. simpl in Heq. by rewrite Heq.
  - intros (Hin & Hns & Hfault & Hsvc & Happ).
    exists (metav1.Namespace (servicesv1alpha1.ObjectMeta binding)). split; [|done].
    rewrite Hfault. apply elem_of_applyServiceBindingListFilter. split_and!; [|done..].
    apply list_elem_of_filter. by split.
Qed.

(** C7: ListServiceBindings lists bindings in exactly the namespaces that are
    keys of the caller's authorized space namespaces, each once, in the order
    the runtime ranges over them. When every one of these list calls is
    accepted or refused as forbidden, the call succeeds and returns the records
    of the bindings of the accepted namespaces that pass both filters, a
    forbidden namespace contributing nothing; when some list call fails
    otherwise, the whole call fails with "failed to list service instances in
    namespace %s: %w". Every returned record's app GUID and instance GUID pass
    the membership tests, an empty filter list matching everything. *)
Theorem ListServiceBindings_over_authorized_spaces
    env authInfo (message : ListServiceBindingsMessage.t) w (nsList : gmap string bool) :
  rangeKeys_ok env →
  authorizedSpaceNamespaces env authInfo (clock w) = inr nsList →
  buildClientFault env authInfo = None →
  ((∀ ns, ns ∈ dom nsList → forbiddenOrListed env authInfo ns) →
     result (ServiceBindingRepo.ListServiceBindings env authInfo message w)
     = Done (ServiceBindingRepo.toServiceBindingRecords env
               (rangeKeys env nsList ≫= contribution env authInfo message (cluster w)))
     ∧ calls (final (ServiceBindingRepo.ListServiceBindings env authInfo message w))
       = calls w ++ map (bindingListRequest authInfo) (rangeKeys env nsList)
     ∧ ∀ record,
         record ∈ returned (result (ServiceBindingRepo.ListServiceBindings env authInfo message w))
         ↔ ∃ binding, binding ∈ serviceBindings (cluster w)
             ∧ metav1.Namespace (servicesv1alpha1.ObjectMeta binding) ∈ dom nsList
             ∧ apiFault env (bindingListRequest authInfo
                               (metav1.Namespace (servicesv1alpha1.ObjectMeta binding))) = None
             ∧ matchesFilter (servicesv1alpha1.Service (servicesv1alpha1.Spec binding))
                             (ListServiceBindingsMessage.ServiceInstanceGUIDs message) = true
             ∧ matchesFilter (servicesv1alpha1.AppRef (servicesv1alpha1.Spec binding))
                             (ListServiceBindingsMessage.AppGUIDs message) = true
             ∧ record = ServiceBindingRepo.cfServiceBindingToRecord env binding)
  ∧ ((∃ ns, ns ∈ dom nsList ∧ ¬ forbiddenOrListed env authInfo ns) →
       ∃ ns e, ns ∈ dom nsList
         ∧ apiFault env (bindingListRequest authInfo ns) = Some e
         ∧ Reason e ≠ StatusReasonForbidden
         ∧ result (ServiceBindingRepo.ListServiceBindings env authInfo message w)
           = Failed (Errorf "failed to list service instances in namespace %s: %w" [ArgString ns]
                            (Some (apierrors.FromK8sError (StatusErr e)
                                     ServiceBindingRepo.ServiceBindingResourceType))))
  ∧ (∀ record,
       record ∈ returned (result (ServiceBindingRepo.ListServiceBindings env authInfo message w)) →
       (ListServiceBindingsMessage.AppGUIDs message = []
        ∨ ServiceBindingRecord.AppGUID record ∈ ListServiceBindingsMessage.AppGUIDs message)
       ∧ (ListServiceBindingsMessage.ServiceInstanceGUIDs message = []
          ∨ ServiceBindingRecord.ServiceInstanceGUID record
            ∈ ListServiceBindingsMessage.ServiceInstanceGUIDs message)).
Proof.
  intros Hrange Hauth Hbuild.
  rewrite (ListServiceBindings_run env authInfo message w nsList Hauth Hbuild).
  rewrite !result_pair, !final_pair.
  assert ((∀ ns, ns ∈ dom nsList → forbiddenOrListed env authInfo ns) →
          ∀ record,
            record ∈ ServiceBindingRepo.toServiceBindingRecords env
                       (rangeKeys env nsList ≫= contribution env authInfo message (cluster w))
            ↔ ∃ binding, binding ∈ serviceBindings (cluster w)
                ∧ metav1.Namespace (servicesv1alpha1.ObjectMeta binding) ∈ dom nsList
                ∧ apiFault env (bindingListRequest authInfo
                                  (metav1.Namespace (servicesv1alpha1.ObjectMeta binding))) = None
                ∧ matchesFilter (servicesv1alpha1.Service (servicesv1alpha1.Spec binding))
                                (ListServiceBindingsMessage.ServiceInstanceGUIDs message) = true
                ∧ matchesFilter (servicesv1alpha1.AppRef (servicesv1alpha1.Spec binding))
                                (ListServiceBindingsMessage.AppGUIDs message) = true
                ∧ record = ServiceBindingRepo.cfServiceBindingToRecord env binding) as Hmem.
  { intros _ record. unfold ServiceBindingRepo.toServiceBindingRecords.
    rewrite list_elem_of_fmap. split.
    - intros (binding & -> & Hin). apply elem_of_contributions in Hin as (? & Hns & ? & ? & ?).
      apply (elem_of_rangeKeys env nsList _ Hrange) in Hns. by exists binding.
    - intros (binding & ? & Hns & ? & ? & ? & ->). exists binding. split; [done|].
      apply elem_of_contributions. split_and!; try done.
      by apply (elem_of_rangeKeys env nsList _ Hrange). }
  split_and!.
  - intros Hok.
    rewrite ListServiceBindings_range_ok
      by (intros ns Hns; by apply Hok, (elem_of_rangeKeys env nsList ns Hrange)).
    rewrite result_pair, final_pair. cbn [app returned]. split_and!; [done|done|].
    by apply Hmem.
  - intros (bad & Hin & Hbad).
    destruct (ListServiceBindings_range_fails env authInfo message (rangeKeys env nsList) [] w)
      as (ns & e & Hns & Hfault & Hreason & Hres).
    { exists bad. split; [|done]. by apply (elem_of_rangeKeys env nsList bad Hrange). }
    exists ns, e. split_and!; try done.
    + by apply (elem_of_rangeKeys env nsList ns Hrange).
    + by rewrite Hres.
  - intros record.
    destruct (decide (Forall (forbiddenOrListed env authInfo) (rangeKeys env nsList))) as [Hall|Hsome].
    + rewrite Forall_forall in Hall. rewrite ListServiceBindings_range_ok by done.
      rewrite result_pair. cbn [app returned].
      intros Hrec. apply Hmem in Hrec as (binding & _ & _ & _ & Hsvc & Happ & ->).
      * split; by apply matchesFilter_spec.
      * intros ns Hns. by apply Hall, (elem_of_rangeKeys env nsList ns Hrange).
    + apply not_Forall_Exists in Hsome; [|apply _]. apply Exists_exists in Hsome.
      destruct (ListServiceBindings_range_fails env authInfo message (rangeKeys env nsList) [] w Hsome)
        as (ns & e & _ & _ & _ & Hres).
      rewrite Hres. simpl. by intros ?%elem_of_nil.
Qed.

(** In the stricter cluster the list of "cf-space-2" is forbidden: the
    bindings of app-1 are those of "cf-space-1" alone, and the call succeeds. *)
Lemma ListServiceBindings_over_authorized_spaces_witness :
  rangeKeys_ok Sample.guarded
  ∧ map ServiceBindingRecord.GUID
        (returned (result (ServiceBindingRepo.ListServiceBindings Sample.guarded "alice"
                             {| ListServiceBindingsMessage.AppGUIDs := ["app-1"];
                                ListServiceBindingsMessage.ServiceInstanceGUIDs := [] |}
                             Sample.world)))
    = ["binding-1"]
  ∧ (∀ record,
       record ∈ returned (result (ServiceBindingRepo.ListServiceBindings Sample.guarded "alice"
                                    {| ListServiceBindingsMessage.AppGUIDs := ["app-1"];
                                       ListServiceBindingsMessage.ServiceInstanceGUIDs := [] |}
                                    Sample.world)) →
       ServiceBindingRecord.AppGUID record ∈ ["app-1"]).
Proof.
  assert (rangeKeys_ok Sample.guarded) as Hok by (by intros m).
  split_and!; [done|reflexivity|].
  intros record Hrec.
  destruct (ListServiceBindings_over_authorized_spaces Sample.guarded "alice"
              {| ListServiceBindingsMessage.AppGUIDs := ["app-1"];
                 ListServiceBindingsMessage.ServiceInstanceGUIDs := [] |}
              Sample.world {[ "cf-space-1" := true; "cf-space-2" := true ]} Hok eq_refl eq_refl)
    as (_ & _ & Hfilters).
  by destruct (Hfilters record Hrec) as [[?|?] _].
Defined.

(** ** The provisioning wait *)

Lemma slept_0 w : slept 0 w = w.
Proof. destruct w. unfold slept. simpl. f_equal. lia. Qed.

Lemma slept_slept a b w : slept b (slept a w) = slept (a + b) w.
Proof. unfold slept. simpl. f_equal. lia. Qed.

Lemma GetAuthorized_permsFor env resourceType info w :
  (if decide (resourceType = OrgResourceType)
   then k8s.GetAuthorizedOrgNamespaces env info
   else k8s.GetAuthorizedSpaceNamespaces env info) w
  = liftResult (permsFor env resourceType info (clock w)) w.
Proof. unfold permsFor. by destruct (decide _). Qed.

Lemma outer_step env r fuel info resourceType name t1 w :
  createSubnamespaceAnchor_outer env r (S fuel) info resourceType name t1 w =
  if decide (timeout r <= clock w - t1)%Z
  then (Failed (Errorf "failed establishing permissions in new namespace after %s: %w"
                       [ArgDuration (clock w - t1)] None), w)
  else match permsFor env resourceType info (clock w) with
       | inl e => (Failed e, w)
       | inr authorized =>
           if present authorized name then (Done tt, w)
           else createSubnamespaceAnchor_outer env r fuel info resourceType name t1 (slept 500 w)
       end.
Proof.
  cbn [createSubnamespaceAnchor_outer]. unfold bind at 1. unfold getWorld at 1.
  destruct (decide _); [done|].
  unfold bind at 1. rewrite GetAuthorized_permsFor.
  destruct (permsFor env resourceType info (clock w)) as [e|authorized]; [done|].
  simpl. destruct (present authorized name); [done|]. done.
Qed.

Lemma createOrgCR_outer_eq env r fuel info name t1 w :
  CFOrgs.createOrgCR_outer env r fuel info name t1 w
  = createSubnamespaceAnchor_outer env r fuel info OrgResourceType name t1 w.
Proof.
  revert w. induction fuel as [|fuel IH]; intros w; [done|].
  rewrite outer_step. cbn [CFOrgs.createOrgCR_outer]. unfold bind at 1. unfold getWorld at 1.
  destruct (decide _); [done|].
  unfold bind at 1. unfold permsFor. rewrite decide_True by done.
  unfold k8s.GetAuthorizedOrgNamespaces.
  destruct (authorizedOrgNamespaces env info (clock w)) as [e|authorized]; [done|].
  simpl. destruct (present authorized name); [done|]. apply IH.
Qed.

(** Enough fuel: the loop always comes to an end. *)
Lemma outer_total env r f info resourceType name t1 w :
  (timeout r - (clock w - t1) <= 500 * Z.of_nat f)%Z →
  result (createSubnamespaceAnchor_outer env r (S f) info resourceType name t1 w) ≠ OutOfFuel.
Proof.
  revert w. induction f as [|f IH]; intros w Hfuel; rewrite outer_step.
  - rewrite decide_True by lia. done.
  - destruct (decide _); [done|].
    destruct (permsFor env resourceType info (clock w)) as [e|authorized]; [done|].
    destruct (present authorized name); [done|].
    apply IH. simpl. lia.
Qed.

Lemma outer_never_authorized env r f info resourceType name t1 w :
  (timeout r - (clock w - t1) <= 500 * Z.of_nat f)%Z →
  neverAuthorized env resourceType info name →
  ∃ elapsed : Z,
    (timeout r <= elapsed)%Z
    ∧ (clock w - t1 <= elapsed)%Z
    ∧ (elapsed = clock w - t1 ∨ elapsed < timeout r + 500)%Z
    ∧ createSubnamespaceAnchor_outer env r (S f) info resourceType name t1 w
      = (Failed (Errorf "failed establishing permissions in new namespace after %s: %w"
                        [ArgDuration elapsed] None),
         slept (elapsed - (clock w - t1)) w).
Proof.
  intros Hfuel Hnever. revert w Hfuel. induction f as [|f IH]; intros w Hfuel; rewrite outer_step.
  - rewrite decide_True by lia. exists (clock w - t1)%Z.
    split_and!; [lia|lia|by left|]. by rewrite Z.sub_diag, slept_0.
  - destruct (decide _) as [Hnow|Hlater].
    + exists (clock w - t1)%Z. split_and!; [lia|lia|by left|]. by rewrite Z.sub_diag, slept_0.
    + destruct (Hnever (clock w)) as (authorized & -> & Habsent).
      unfold present. rewrite bool_decide_false by (rewrite Habsent; by intros [? ?]).
      destruct (IH (slept 500 w)) as (elapsed & Hge & Hle & Hbound & Hrun); [simpl; lia|].
      change (clock (slept 500 w)) with (clock w + 500)%Z in Hle, Hbound, Hrun. exists elapsed. split_and!; [lia|lia|right; lia|].
      rewrite Hrun, slept_slept. do 2 f_equal. lia.
Qed.

Lemma CreateAnchor_run env userClient anchor w :
  apiFault env (anchorRequest userClient client.Create anchor) = None →
  ¬ Exists (fun x => k8s.named (metav1.Namespace (v1alpha2.ObjectMeta anchor))
                               (metav1.Name (v1alpha2.ObjectMeta anchor)) (v1alpha2.ObjectMeta x))
           (anchors (cluster w)) →
  k8s.CreateAnchor env userClient anchor w
  = (Done tt,
     {| cluster :=
          {| anchors := anchors (cluster w)
                        ++ [ {| v1alpha2.ObjectMeta := k8s.stamp (v1alpha2.ObjectMeta anchor) (clock w);
                                v1alpha2.Status := v1alpha2.Status anchor |} ];
             hierarchies := hierarchies (cluster w);
             cfOrgs := cfOrgs (cluster w);
             serviceAccounts := serviceAccounts (cluster w);
             serviceBindings := serviceBindings (cluster w) |};
        clock := clock w;
        uuids := uuids w;
        calls := calls w ++ [anchorRequest userClient client.Create anchor] |}).
Proof.
  intros Hfault Hfresh. unfold anchorRequest in Hfault.
  unfold k8s.CreateAnchor, k8s.request, bind, logCall, getWorld, ret, throw, setCluster.
  cbn [fst snd]. rewrite Hfault. cbn [cluster clock uuids calls].
  by rewrite decide_False.
Qed.

Lemma CreateCFOrg_run env userClient org w :
  apiFault env (cfOrgRequest userClient client.Create org) = None →
  ¬ Exists (fun x => k8s.named (metav1.Namespace (workloads.ObjectMeta org))
                               (metav1.Name (workloads.ObjectMeta org)) (workloads.ObjectMeta x))
           (cfOrgs (cluster w)) →
  k8s.CreateCFOrg env userClient org w
  = (Done tt,
     {| cluster :=
          {| anchors := anchors (cluster w);
             hierarchies := hierarchies (cluster w);
             cfOrgs := cfOrgs (cluster w)
                       ++ [ {| workloads.ObjectMeta := k8s.stamp (workloads.ObjectMeta org) (clock w);
                               workloads.Spec := workloads.Spec org;
                               workloads.Status := workloads.Status org |} ];
             serviceAccounts := serviceAccounts (cluster w);
             serviceBindings := serviceBindings (cluster w) |};
        clock := clock w;
        uuids := uuids w;
        calls := calls w ++ [cfOrgRequest userClient client.Create org] |}).
Proof.
  intros Hfault Hfresh. unfold cfOrgRequest in Hfault.
  unfold k8s.CreateCFOrg, k8s.request, bind, logCall, getWorld, ret, throw, setCluster.
  cbn [fst snd]. rewrite Hfault. cbn [cluster clock uuids calls].
  by rewrite decide_False.
Qed.

Lemma createSubnamespaceAnchor_run env r fuel info userClient anchor resourceType w :
  anchorAccepted env userClient anchor w →
  createSubnamespaceAnchor env r fuel info userClient anchor resourceType w =
  match createSubnamespaceAnchor_watch (watchEvents env (anchorRequest client.Privileged client.Watch anchor)) with
  | None =>
      (Failed (Errorf "subnamespaceanchor did not get state 'ok' within timeout period %d ms"
                      [ArgInt (timeout r)] None),
       anchorProvisioned userClient anchor w)
  | Some createdAnchor =>
      match createSubnamespaceAnchor_outer env r fuel info resourceType
              (metav1.Name (v1alpha2.ObjectMeta anchor)) (clock w)
              (anchorProvisioned userClient anchor w) with
      | (Done _, w') => (Done createdAnchor, w')
      | (Failed e, w') => (Failed e, w')
      | (OutOfFuel, w') => (OutOfFuel, w')
      end
  end.
Proof.
  intros (Hcreate & Hfresh & Hwatch). unfold createSubnamespaceAnchor.
  unfold bind at 1. unfold onError at 1. rewrite (CreateAnchor_run env userClient anchor w Hcreate Hfresh).
  unfold bind at 1. unfold onError at 1.
  unfold k8s.Watch, k8s.request, bind at 1 2, logCall, ret at 1 2, throw at 1.
  unfold anchorRequest in Hwatch. cbn [fst snd]. rewrite Hwatch.
  cbn [cluster clock uuids calls]. rewrite <- app_assoc. cbn [app].
  fold (anchorRequest userClient client.Create anchor).
  fold (anchorRequest client.Privileged client.Watch anchor).
  destruct (createSubnamespaceAnchor_watch _) as [createdAnchor|]; [|done].
  unfold bind at 1. unfold getWorld at 1. unfold bind at 1. cbn [clock].
  fold (anchorProvisioned userClient anchor w).
  by destruct (createSubnamespaceAnchor_outer _ _ _ _ _ _ _ _) as [[[]|e|] w'].
Qed.

Lemma createOrgCR_run env r fuel info userClient org w :
  cfOrgAccepted env userClient org w →
  CFOrgs.createOrgCR env r fuel info userClient org w =
  match CFOrgs.createOrgCR_watch (watchEvents env (cfOrgRequest client.Privileged client.Watch org)) with
  | None =>
      (Failed (Errorf "cf org did not get Condition `Ready`: 'True' within timeout period %d ms"
                      [ArgInt (timeout r)] None),
       cfOrgProvisioned userClient org w)
  | Some createdOrg =>
      match createSubnamespaceAnchor_outer env r fuel info OrgResourceType
              (metav1.Name (workloads.ObjectMeta org)) (clock w)
              (cfOrgProvisioned userClient org w) with
      | (Done _, w') => (Done createdOrg, w')
      | (Failed e, w') => (Failed e, w')
      | (OutOfFuel, w') => (OutOfFuel, w')
      end
  end.
Proof.
  intros (Hcreate & Hfresh & Hwatch). unfold CFOrgs.createOrgCR.
  unfold bind at 1. unfold onError at 1. rewrite (CreateCFOrg_run env userClient org w Hcreate Hfresh).
  unfold bind at 1. unfold onError at 1.
  unfold k8s.Watch, k8s.request, bind at 1 2, logCall, ret at 1 2, throw at 1.
  unfold cfOrgRequest in Hwatch. cbn [fst snd]. rewrite Hwatch.
  cbn [cluster clock uuids calls]. rewrite <- app_assoc. cbn [app].
  fold (cfOrgRequest userClient client.Create org).
  fold (cfOrgRequest client.Privileged client.Watch org).
  destruct (CFOrgs.createOrgCR_watch _) as [createdOrg|]; [|done].
  unfold bind at 1. unfold getWorld at 1. unfold bind at 1. cbn [clock].
  fold (cfOrgProvisioned userClient org w).
  rewrite createOrgCR_outer_eq.
  by destruct (createSubnamespaceAnchor_outer _ _ _ _ _ _ _ _) as [[[]|e|] w'].
Qed.

(** With fuel for one iteration more than the timeout has polling
    intervals, the call comes to a result, whatever the cluster and the
    permissions do. *)
Lemma createSubnamespaceAnchor_total env r (f : nat) info userClient anchor resourceType w :
  (timeout r <= 500 * Z.of_nat f)%Z →
  result (createSubnamespaceAnchor env r (S f) info userClient anchor resourceType w) ≠ OutOfFuel.
Proof.
  intros Hfuel. unfold createSubnamespaceAnchor.
  rewrite result_bind, result_onError.
  destruct (result (k8s.CreateAnchor env userClient anchor w)) as [[]|e|] eqn:Hcreate; [|done|].
  - rewrite result_bind, result_onError.
    set (w1 := final (onError _ (k8s.CreateAnchor env userClient anchor) w)).
    assert (clock w1 = clock w) as Hclock1.
    { unfold w1. rewrite final_onError.
      unfold k8s.CreateAnchor, k8s.request, bind, logCall, getWorld, ret, throw, setCluster, final.
      cbn [fst snd]. destruct (apiFault env _); [done|]. cbn [cluster clock uuids calls].
      by destruct (decide _). }
    destruct (result (k8s.Watch env _ _ _ _ w1)) as [events|e|] eqn:Hwatch; [|done|].
    + set (w2 := final (onError _ (k8s.Watch env _ _ _ _) w1)).
      assert (clock w2 = clock w1) as Hclock2.
      { unfold w2. rewrite final_onError.
        unfold k8s.Watch, k8s.request, bind, logCall, ret, throw, final.
        cbn [fst snd]. by destruct (apiFault env _). }
      destruct (createSubnamespaceAnchor_watch events) as [createdAnchor|]; [|done].
      rewrite result_bind.
      change (result (getWorld w2)) with (Done (A:=World) w2).
      change (final (getWorld w2)) with w2. cbv beta iota.
      rewrite result_bind.
      pose proof (outer_total env r f info resourceType
                    (metav1.Name (v1alpha2.ObjectMeta anchor)) (clock w2) w2) as Htotal.
      destruct (result (createSubnamespaceAnchor_outer _ _ _ _ _ _ _ _)); [done|done|].
      exfalso. apply Htotal; [lia|done].
    + exfalso. revert Hwatch.
      unfold k8s.Watch, k8s.request, bind, logCall, ret, throw, result.
      cbn [fst snd]. by destruct (apiFault env _).
  - exfalso. revert Hcreate.
    unfold k8s.CreateAnchor, k8s.request, bind, logCall, getWorld, ret, throw, setCluster, result.
    cbn [fst snd]. destruct (apiFault env _); [done|]. cbn [cluster clock uuids calls].
    by destruct (decide _).
Qed.

Lemma createOrgCR_total env r (f : nat) info userClient org w :
  (timeout r <= 500 * Z.of_nat f)%Z →
  result (CFOrgs.createOrgCR env r (S f) info userClient org w) ≠ OutOfFuel.
Proof.
  intros Hfuel. unfold CFOrgs.createOrgCR.
  rewrite result_bind, result_onError.
  destruct (result (k8s.CreateCFOrg env userClient org w)) as [[]|e|] eqn:Hcreate; [|done|].
  - rewrite result_bind, result_onError.
    set (w1 := final (onError _ (k8s.CreateCFOrg env userClient org) w)).
    assert (clock w1 = clock w) as Hclock1.
    { unfold w1. rewrite final_onError.
      unfold k8s.CreateCFOrg, k8s.request, bind, logCall, getWorld, ret, throw, setCluster, final.
      cbn [fst snd]. destruct (apiFault env _); [done|]. cbn [cluster clock uuids calls].
      by destruct (decide _). }
    destruct (result (k8s.Watch env _ _ _ _ w1)) as [events|e|] eqn:Hwatch; [|done|].
    + set (w2 := final (onError _ (k8s.Watch env _ _ _ _) w1)).
      assert (clock w2 = clock w1) as Hclock2.
      { unfold w2. rewrite final_onError.
        unfold k8s.Watch, k8s.request, bind, logCall, ret, throw, final.
        cbn [fst snd]. by destruct (apiFault env _). }
      destruct (CFOrgs.createOrgCR_watch events) as [createdOrg|]; [|done].
      rewrite result_bind.
      change (result (getWorld w2)) with (Done (A:=World) w2).
      change (final (getWorld w2)) with w2. cbv beta iota.
      rewrite result_bind.
      pose proof (outer_total env r f info OrgResourceType
                    (metav1.Name (workloads.ObjectMeta org)) (clock w2) w2) as Htotal.
      rewrite createOrgCR_outer_eq.
      destruct (result (createSubnamespaceAnchor_outer _ _ _ _ _ _ _ _)); [done|done|].
      exfalso. apply Htotal; [lia|done].
    + exfalso. revert Hwatch.
      unfold k8s.Watch, k8s.request, bind, logCall, ret, throw, result.
      cbn [fst snd]. by destruct (apiFault env _).
  - exfalso. revert Hcreate.
    unfold k8s.CreateCFOrg, k8s.request, bind, logCall, getWorld, ret, throw, setCluster, result.
    cbn [fst snd]. destruct (apiFault env _); [done|]. cbn [cluster clock uuids calls].
    by destruct (decide _).
Qed.

Lemma outer_present_after env r info resourceType name t1 (k : nat) :
  ∀ fuel w authorized,
    (∀ j : nat, j < k →
       ∃ m, permsFor env resourceType info (clock w + 500 * Z.of_nat j) = inr m ∧ m !! name = None) →
    permsFor env resourceType info (clock w + 500 * Z.of_nat k) = inr authorized →
    is_Some (authorized !! name) →
    (clock w - t1 + 500 * Z.of_nat k < timeout r)%Z →
    createSubnamespaceAnchor_outer env r (S k + fuel) info resourceType name t1 w
    = (Done tt, slept (500 * Z.of_nat k) w).
Proof.
  induction k as [|k IH]; intros fuel w authorized Hbefore Hnow Hpresent Htime.
  - cbn [plus]. rewrite outer_step. rewrite decide_False by lia.
    replace (clock w + 500 * Z.of_nat 0)%Z with (clock w) in Hnow by lia. rewrite Hnow.
    apply present_true in Hpresent. rewrite Hpresent. by rewrite slept_0.
  - change (S (S k) + fuel) with (S (S k + fuel)). rewrite outer_step.
    rewrite decide_False by lia.
    destruct (Hbefore 0 ltac:(lia)) as (m & Hm & Habsent).
    replace (clock w + 500 * Z.of_nat 0)%Z with (clock w) in Hm by lia. rewrite Hm.
    unfold present at 1. rewrite bool_decide_false by (rewrite Habsent; by intros [? ?]).
    rewrite (IH fuel (slept 500 w) authorized).
    + rewrite slept_slept. do 2 f_equal. lia.
    + intros j Hj. destruct (Hbefore (S j) ltac:(lia)) as (m' & Hm' & Habsent').
      exists m'. split; [|done]. rewrite <- Hm'. f_equal. simpl. lia.
    + rewrite <- Hnow. f_equal. simpl. lia.
    + done.
    + simpl. lia.
Qed.

(** C5: in the wait that follows the creation of an anchor (or of a CFOrg),
    a watch that is closed without showing state Ok (Ready true) fails the
    call with an error that reports the timeout period, and a namespace that
    never appears among the caller's namespaces fails it with a different
    error that reports the elapsed time, at least the timeout; on either
    timeout the call has made one create and one watch call and no other -
    no retry, no delete - and the created object is still in the cluster. *)
Theorem provisioning_timeouts_distinct_and_final
    env r (f : nat) info userClient (anchor : v1alpha2.SubnamespaceAnchor)
    (resourceType : string) (org : workloads.CFOrg) w :
  (timeout r <= 500 * Z.of_nat f)%Z →
  (anchorAccepted env userClient anchor w →
     (createSubnamespaceAnchor_watch
        (watchEvents env (anchorRequest client.Privileged client.Watch anchor)) = None →
      createSubnamespaceAnchor env r (S f) info userClient anchor resourceType w
      = (Failed (Errorf "subnamespaceanchor did not get state 'ok' within timeout period %d ms"
                        [ArgInt (timeout r)] None),
         anchorProvisioned userClient anchor w))
     ∧ (is_Some (createSubnamespaceAnchor_watch
                   (watchEvents env (anchorRequest client.Privileged client.Watch anchor))) →
        neverAuthorized env resourceType info (metav1.Name (v1alpha2.ObjectMeta anchor)) →
        ∃ elapsed : Z,
          (timeout r <= elapsed < Z.max (timeout r) 0 + 500)%Z
          ∧ createSubnamespaceAnchor env r (S f) info userClient anchor resourceType w
            = (Failed (Errorf "failed establishing permissions in new namespace after %s: %w"
                              [ArgDuration elapsed] None),
               slept elapsed (anchorProvisioned userClient anchor w))))
  ∧ (cfOrgAccepted env userClient org w →
       (CFOrgs.createOrgCR_watch
          (watchEvents env (cfOrgRequest client.Privileged client.Watch org)) = None →
        CFOrgs.createOrgCR env r (S f) info userClient org w
        = (Failed (Errorf "cf org did not get Condition `Ready`: 'True' within timeout period %d ms"
                          [ArgInt (timeout r)] None),
           cfOrgProvisioned userClient org w))
       ∧ (is_Some (CFOrgs.createOrgCR_watch
                     (watchEvents env (cfOrgRequest client.Privileged client.Watch org))) →
          neverAuthorized env OrgResourceType info (metav1.Name (workloads.ObjectMeta org)) →
          ∃ elapsed : Z,
            (timeout r <= elapsed < Z.max (timeout r) 0 + 500)%Z
            ∧ CFOrgs.createOrgCR env r (S f) info userClient org w
              = (Failed (Errorf "failed establishing permissions in new namespace after %s: %w"
                                [ArgDuration elapsed] None),
                 slept elapsed (cfOrgProvisioned userClient org w))))
  ∧ (∀ elapsed : Z,
       Errorf "subnamespaceanchor did not get state 'ok' within timeout period %d ms"
              [ArgInt (timeout r)] None
       ≠ Errorf "failed establishing permissions in new namespace after %s: %w"
                [ArgDuration elapsed] None
       ∧ Errorf "cf org did not get Condition `Ready`: 'True' within timeout period %d ms"
                [ArgInt (timeout r)] None
         ≠ Errorf "failed establishing permissions in new namespace after %s: %w"
                  [ArgDuration elapsed] None)
  ∧ (∀ elapsed : Z,
       calls (slept elapsed (anchorProvisioned userClient anchor w))
       = calls w ++ [anchorRequest userClient client.Create anchor;
                     anchorRequest client.Privileged client.Watch anchor]
       ∧ (∃ created, anchors (cluster (slept elapsed (anchorProvisioned userClient anchor w)))
                     = anchors (cluster w) ++ [created]
                     ∧ metav1.Name (v1alpha2.ObjectMeta created) = metav1.Name (v1alpha2.ObjectMeta anchor)
                     ∧ metav1.Namespace (v1alpha2.ObjectMeta created)
                       = metav1.Namespace (v1alpha2.ObjectMeta anchor))
       ∧ calls (slept elapsed (cfOrgProvisioned userClient org w))
         = calls w ++ [cfOrgRequest userClient client.Create org;
                       cfOrgRequest client.Privileged client.Watch org]
       ∧ (∃ created, cfOrgs (cluster (slept elapsed (cfOrgProvisioned userClient org w)))
                     = cfOrgs (cluster w) ++ [created]
                     ∧ metav1.Name (workloads.ObjectMeta created) = metav1.Name (workloads.ObjectMeta org)
                     ∧ metav1.Namespace (workloads.ObjectMeta created)
                       = metav1.Namespace (workloads.ObjectMeta org))).
Proof.
  intros Hfuel. split_and!.
  - intros Haccepted. rewrite (createSubnamespaceAnchor_run _ _ _ _ _ _ _ _ Haccepted). split.
    + by intros ->.
    + intros [createdAnchor ->] Hnever.
      destruct (outer_never_authorized env r f info resourceType
                  (metav1.Name (v1alpha2.ObjectMeta anchor)) (clock w)
                  (anchorProvisioned userClient anchor w))
        as (elapsed & Hge & Hle & Hbound & Hrun); [simpl; lia|done|].
      cbn [anchorProvisioned clock] in Hle, Hbound, Hrun. exists elapsed. split; [lia|].
      rewrite Hrun. do 2 f_equal. lia.
  - intros Haccepted. rewrite (createOrgCR_run _ _ _ _ _ _ _ Haccepted). split.
    + by intros ->.
    + intros [createdOrg ->] Hnever.
      destruct (outer_never_authorized env r f info OrgResourceType
                  (metav1.Name (workloads.ObjectMeta org)) (clock w)
                  (cfOrgProvisioned userClient org w))
        as (elapsed & Hge & Hle & Hbound & Hrun); [simpl; lia|done|].
      cbn [cfOrgProvisioned clock] in Hle, Hbound, Hrun. exists elapsed. split; [lia|].
      rewrite Hrun. do 2 f_equal. lia.
  - intros elapsed. split; discriminate.
  - intros elapsed. split_and!; [done| |done|].
    + eexists. split; [reflexivity|]. done.
    + eexists. split; [reflexivity|]. done.
Qed.

(** ** ListSpaces *)

Lemma ListSpaces_run env r info message w :
  ListSpaces env r info message w =
  (match apiFault env allAnchorsRequest with
   | Some e => Failed (apierrors.FromK8sError (StatusErr e) SpaceResourceType)
   | None =>
       match authorizedSpaceNamespaces env info (clock w) with
       | inl e => Failed e
       | inr authorized => Done (spaceRecords r message authorized (cluster w))
       end
   end,
   logged [allAnchorsRequest] w).
Proof.
  unfold ListSpaces, spaceRecords, orgUIDsOf, allAnchorsRequest.
  unfold bind, onError, k8s.ListAnchors, k8s.request, k8s.GetAuthorizedSpaceNamespaces,
    bind, logCall, ret, throw, getWorld, liftResult, logged. simpl.
  destruct (apiFault env _); simpl; [done|].
  by destruct (authorizedSpaceNamespaces env info (clock w)).
Qed.

Lemma elem_of_orgUIDsOf r message c (orgGUID : string) :
  orgGUID ∈ orgUIDsOf r message c ↔
  ∃ org, org ∈ anchors c
    ∧ metav1.Namespace (v1alpha2.ObjectMeta org) = rootNamespace r
    ∧ metav1.Name (v1alpha2.ObjectMeta org) = orgGUID
    ∧ matchFilter (toMap (ListSpacesMessage.OrganizationGUIDs message)) orgGUID = true.
Proof.
  unfold orgUIDsOf. rewrite elem_of_list_to_set, list_elem_of_omap. split.
  - intros (org & Hin & Hsome). apply list_elem_of_filter in Hin as [_ Hin].
    destruct (decide (_ ≠ _)) as [|Hns]; [done|]. apply dec_stable in Hns.
    destruct (matchFilter _ _) eqn:Hmatch; simpl in Hsome; [|done].
    injection Hsome as <-. by exists org.
  - intros (org & Hin & Hns & <- & Hmatch). exists org. split.
    + apply list_elem_of_filter. by split.
    + rewrite decide_False by (by intros ?). by rewrite Hmatch.
Qed.

Lemma elem_of_spaceRecords r message authorized c record :
  record ∈ spaceRecords r message authorized c ↔
  ∃ space, space ∈ anchors c
    ∧ v1alpha2.State (v1alpha2.Status space) = v1alpha2.Ok
    ∧ matchFilter (toMap (ListSpacesMessage.Names message))
                  (label (v1alpha2.ObjectMeta space) SpaceNameLabel) = true
    ∧ matchFilter (toMap (ListSpacesMessage.GUIDs message))
                  (metav1.Name (v1alpha2.ObjectMeta space)) = true
    ∧ metav1.Namespace (v1alpha2.ObjectMeta space) ∈ orgUIDsOf r message c
    ∧ authorized !! metav1.Name (v1alpha2.ObjectMeta space) = Some true
    ∧ record = anchorToSpaceRecord space.
Proof.
  unfold spaceRecords. rewrite list_elem_of_omap. split.
  - intros (rec & Hrec & Hauth). apply list_elem_of_omap in Hrec as (space & Hin & Hsome).
    apply list_elem_of_filter in Hin as [_ Hin].
    destruct (decide (_ ≠ _)) as [|Hok]; [done|]. apply dec_stable in Hok.
    destruct (matchFilter (toMap (ListSpacesMessage.Names message)) _) eqn:Hname; simpl in Hsome; [|done].
    destruct (matchFilter (toMap (ListSpacesMessage.GUIDs message)) _) eqn:Hguid; simpl in Hsome; [|done].
    destruct (bool_decide (_ ∈ _)) eqn:Horg; simpl in Hsome; [|done].
    apply bool_decide_eq_true in Horg. injection Hsome as <-.
    destruct (index authorized _) eqn:Hidx; simpl in Hauth; [|done].
    injection Hauth as <-. apply index_true in Hidx. by exists space.
  - intros (space & Hin & Hok & Hname & Hguid & Horg & Hauth & ->).
    exists (anchorToSpaceRecord space). split.
    + apply list_elem_of_omap. exists space. split.
      * apply list_elem_of_filter. by split.
      * rewrite decide_False by (by intros ?). rewrite Hname, Hguid. simpl.
        by rewrite bool_decide_true.
    + apply index_true in Hauth. simpl. by rewrite Hauth.
Qed.

(** C10: ListSpaces admits as parent organization any anchor directly under
    the root namespace that passes the org-GUID filter, whatever that
    anchor's state; so a space anchor in state Ok under such a parent - be the
    parent Pending, Missing, Conflict or anything else - is returned when the
    space passes the name and GUID filters and maps to true in the caller's
    authorized space namespaces. *)
Theorem ListSpaces_ignores_parent_state
    env r info (message : ListSpacesMessage.t) w (authorized : gmap string bool)
    (space org : v1alpha2.SubnamespaceAnchor) (parentState : v1alpha2.SubnamespaceAnchorState) :
  apiFault env allAnchorsRequest = None →
  authorizedSpaceNamespaces env info (clock w) = inr authorized →
  org ∈ anchors (cluster w) →
  metav1.Namespace (v1alpha2.ObjectMeta org) = rootNamespace r →
  v1alpha2.State (v1alpha2.Status org) = parentState →
  matchFilter (toMap (ListSpacesMessage.OrganizationGUIDs message))
              (metav1.Name (v1alpha2.ObjectMeta org)) = true →
  space ∈ anchors (cluster w) →
  metav1.Namespace (v1alpha2.ObjectMeta space) = metav1.Name (v1alpha2.ObjectMeta org) →
  v1alpha2.State (v1alpha2.Status space) = v1alpha2.Ok →
  matchFilter (toMap (ListSpacesMessage.Names message))
              (label (v1alpha2.ObjectMeta space) SpaceNameLabel) = true →
  matchFilter (toMap (ListSpacesMessage.GUIDs message))
              (metav1.Name (v1alpha2.ObjectMeta space)) = true →
  authorized !! metav1.Name (v1alpha2.ObjectMeta space) = Some true →
  ∃ records, result (ListSpaces env r info message w) = Done records
    ∧ anchorToSpaceRecord space ∈ records.
Proof.
  intros Hfault Hauth Horg Hroot _ Horgs Hspace Hparent Hok Hname Hguid Hvisible.
  rewrite ListSpaces_run, result_pair, Hfault, Hauth. eexists. split; [done|].
  apply elem_of_spaceRecords. exists space. split_and!; try done.
  apply elem_of_orgUIDsOf. exists org. by rewrite Hparent.
Qed.

(** "cf-space-2" is listed although its organization "cf-org-b" is pending. *)
Lemma ListSpaces_ignores_parent_state_witness :
  ∃ records,
    result (ListSpaces Sample.env Sample.repo "alice"
              {| ListSpacesMessage.Names := ["staging"];
                 ListSpacesMessage.GUIDs := [];
                 ListSpacesMessage.OrganizationGUIDs := ["cf-org-b"] |} Sample.world) = Done records
    ∧ anchorToSpaceRecord (Sample.anchor "cf-org-b" "cf-space-2" SpaceNameLabel "staging" v1alpha2.Ok)
      ∈ records.
Proof.
  apply (ListSpaces_ignores_parent_state Sample.env Sample.repo "alice"
           {| ListSpacesMessage.Names := ["staging"];
              ListSpacesMessage.GUIDs := [];
              ListSpacesMessage.OrganizationGUIDs := ["cf-org-b"] |}
           Sample.world {[ "cf-space-1" := true; "cf-space-2" := true ]}
           (Sample.anchor "cf-org-b" "cf-space-2" SpaceNameLabel "staging" v1alpha2.Ok)
           (Sample.anchor "cf" "cf-org-b" OrgNameLabel "beta" v1alpha2.Pending)
           v1alpha2.Pending);
    try reflexivity.
  - right. by left.
  - do 4 right. by left.
Defined.

(** C9: the wait for permissions ends at the first poll whose answer has the
    new namespace as a key, whatever the value under the key - false
    included; ListOrgs and ListSpaces return no record whose GUID does not map
    to true. With the namespace mapped to false, provisioning succeeds and
    listing leaves the namespace out. *)
Theorem permission_wait_accepts_key_that_listing_rejects
    env r (fuel : nat) info userClient (anchor : v1alpha2.SubnamespaceAnchor)
    (resourceType : string) (org : workloads.CFOrg) w (authorized : gmap string bool) :
  (∀ (k : nat) createdAnchor,
     anchorAccepted env userClient anchor w →
     createSubnamespaceAnchor_watch
       (watchEvents env (anchorRequest client.Privileged client.Watch anchor)) = Some createdAnchor →
     (∀ j : nat, j < k →
        ∃ m, permsFor env resourceType info (clock w + 500 * Z.of_nat j) = inr m
             ∧ m !! metav1.Name (v1alpha2.ObjectMeta anchor) = None) →
     permsFor env resourceType info (clock w + 500 * Z.of_nat k) = inr authorized →
     is_Some (authorized !! metav1.Name (v1alpha2.ObjectMeta anchor)) →
     (500 * Z.of_nat k < timeout r)%Z →
     createSubnamespaceAnchor env r (S k + fuel) info userClient anchor resourceType w
     = (Done createdAnchor, slept (500 * Z.of_nat k) (anchorProvisioned userClient anchor w)))
  ∧ (∀ (k : nat) createdOrg,
       cfOrgAccepted env userClient org w →
       CFOrgs.createOrgCR_watch
         (watchEvents env (cfOrgRequest client.Privileged client.Watch org)) = Some createdOrg →
       (∀ j : nat, j < k →
          ∃ m, authorizedOrgNamespaces env info (clock w + 500 * Z.of_nat j) = inr m
               ∧ m !! metav1.Name (workloads.ObjectMeta org) = None) →
       authorizedOrgNamespaces env info (clock w + 500 * Z.of_nat k) = inr authorized →
       is_Some (authorized !! metav1.Name (workloads.ObjectMeta org)) →
       (500 * Z.of_nat k < timeout r)%Z →
       CFOrgs.createOrgCR env r (S k + fuel) info userClient org w
       = (Done createdOrg, slept (500 * Z.of_nat k) (cfOrgProvisioned userClient org w)))
  ∧ (∀ guid : string,
       authorized !! guid ≠ Some true →
       (authorizedOrgNamespaces env info (clock w) = inr authorized →
        ∀ F record,
          record ∈ returned (result (AnchorOrgs.ListOrgs env r info F w))
          ∨ record ∈ returned (result (CFOrgs.ListOrgs env r info F w)) →
          OrgRecord.GUID record ≠ guid)
       ∧ (authorizedSpaceNamespaces env info (clock w) = inr authorized →
          ∀ message record,
            record ∈ returned (result (ListSpaces env r info message w)) →
            SpaceRecord.GUID record ≠ guid)).
Proof.
  split_and!.
  - intros k createdAnchor Haccepted Hwatch Hbefore Hnow Hpresent Htime.
    rewrite (createSubnamespaceAnchor_run _ _ _ _ _ _ _ _ Haccepted), Hwatch.
    rewrite (outer_present_after env r info resourceType _ (clock w) k fuel
               (anchorProvisioned userClient anchor w) authorized); try done.
    cbn [anchorProvisioned clock]. lia.
  - intros k createdOrg Haccepted Hwatch Hbefore Hnow Hpresent Htime.
    rewrite (createOrgCR_run _ _ _ _ _ _ _ Haccepted), Hwatch.
    rewrite (outer_present_after env r info OrgResourceType _ (clock w) k fuel
               (cfOrgProvisioned userClient org w) authorized); try done.
    cbn [cfOrgProvisioned clock]. lia.
  - intros guid Hnot. split.
    + intros Hauth F record [Hrec|Hrec] Hguid.
      * destruct (result (AnchorOrgs.ListOrgs env r info F w)) as [l|e|] eqn:HF;
          simpl in Hrec; [|by apply elem_of_nil in Hrec..].
        apply AnchorOrgs_ListOrgs_inv in HF as (_ & authorized' & Hauth' & ->).
        rewrite Hauth in Hauth'. injection Hauth' as <-.
        apply elem_of_anchorOrgRecords in Hrec as (a & _ & _ & _ & _ & _ & Htrue & ->).
        simpl in Hguid. by rewrite Hguid in Htrue.
      * rewrite CFOrgs_ListOrgs_result, Hauth in Hrec.
        destruct (apiFault env _); simpl in Hrec; [by apply elem_of_nil in Hrec|].
        apply elem_of_cfOrgRecords in Hrec as (o & _ & _ & _ & _ & _ & Htrue & ->).
        simpl in Hguid. by rewrite Hguid in Htrue.
    + intros Hauth message record Hrec Hguid.
      rewrite ListSpaces_run, result_pair, Hauth in Hrec.
      destruct (apiFault env _); simpl in Hrec; [by apply elem_of_nil in Hrec|].
      apply elem_of_spaceRecords in Hrec as (s & _ & _ & _ & _ & _ & Htrue & ->).
      simpl in Hguid. by rewrite Hguid in Htrue.
Qed.

(** With permissions that map "cf-space-new" and "cf-space-1" to false, the
    creation of "cf-space-new" succeeds at the first poll, and ListSpaces
    leaves "cf-space-1" out. *)
Lemma permission_wait_accepts_key_that_listing_rejects_witness :
  (∃ created,
     createSubnamespaceAnchor Sample.denied Sample.repo 1 "alice" (client.AsUser "alice")
       Sample.newSpace SpaceResourceType Sample.world
     = (Done created, anchorProvisioned (client.AsUser "alice") Sample.newSpace Sample.world))
  ∧ (∀ record,
       record ∈ returned (result (ListSpaces Sample.denied Sample.repo "alice"
                                    {| ListSpacesMessage.Names := [];
                                       ListSpacesMessage.GUIDs := [];
                                       ListSpacesMessage.OrganizationGUIDs := [] |}
                                    Sample.world)) →
       SpaceRecord.GUID record ≠ "cf-space-1").
Proof.
  pose proof (permission_wait_accepts_key_that_listing_rejects
                Sample.denied Sample.repo 0 "alice" (client.AsUser "alice")
                Sample.newSpace SpaceResourceType Sample.newOrg Sample.world
                {[ "cf-space-new" := false; "cf-space-1" := false ]})
    as (Hwait & _ & Hlist).
  split.
  - eexists. rewrite <- (slept_0 (anchorProvisioned _ _ _)).
    apply (Hwait 0%nat).
    + split_and!; [reflexivity| |reflexivity]. by apply (bool_decide_unpack _).
    + reflexivity.
    + intros j Hj. lia.
    + reflexivity.
    + by eexists.
    + reflexivity.
  - intros record. apply (Hlist "cf-space-1"); [by vm_compute|reflexivity].
Defined.

(** With a timeout of 1200 ms: a watch that never shows Ok gives the timeout
    of the state, and a namespace that is never granted gives the timeout of
    the permissions after the polls at 0, 500 and 1000 ms. *)
Lemma provisioning_timeouts_distinct_and_final_witness :
  result (createSubnamespaceAnchor Sample.stalled Sample.repo 4 "alice" (client.AsUser "alice")
            Sample.newSpace SpaceResourceType Sample.world)
  = Failed (Errorf "subnamespaceanchor did not get state 'ok' within timeout period %d ms"
                   [ArgInt 1200] None)
  ∧ ∃ elapsed : Z,
      (1200 <= elapsed < 1700)%Z
      ∧ result (createSubnamespaceAnchor Sample.env Sample.repo 4 "alice" (client.AsUser "alice")
                  Sample.newSpace SpaceResourceType Sample.world)
        = Failed (Errorf "failed establishing permissions in new namespace after %s: %w"
                         [ArgDuration elapsed] None).
Proof.
  assert (∀ e, apiFault e = (fun _ => None) →
               anchorAccepted e (client.AsUser "alice") Sample.newSpace Sample.world) as Haccepted.
  { intros e He. unfold anchorAccepted. rewrite He.
    split_and!; [reflexivity| |reflexivity]. by apply (bool_decide_unpack _). }
  split.
  - destruct (provisioning_timeouts_distinct_and_final Sample.stalled Sample.repo 3 "alice"
                (client.AsUser "alice") Sample.newSpace SpaceResourceType Sample.newOrg Sample.world)
      as (Hanchor & _); [simpl; lia|].
    destruct (Hanchor (Haccepted Sample.stalled eq_refl)) as [Hstate _].
    by rewrite (Hstate eq_refl).
  - destruct (provisioning_timeouts_distinct_and_final Sample.env Sample.repo 3 "alice"
                (client.AsUser "alice") Sample.newSpace SpaceResourceType Sample.newOrg Sample.world)
      as (Hanchor & _); [simpl; lia|].
    destruct (Hanchor (Haccepted Sample.env eq_refl)) as [_ Hperms].
    destruct Hperms as (elapsed & Hbound & Hrun).
    + by eexists.
    + intros t. eexists. split; reflexivity.
    + exists elapsed. split; [exact Hbound|]. by rewrite Hrun.
Defined.

(** ** GetSpace, DeleteOrg and DeleteSpace *)

Lemma GetHierarchyConfiguration_run env who ns name w :
  ∃ o, k8s.GetHierarchyConfiguration env who ns name w
       = (o, logged [k8s.objectRequest who client.Get client.HierarchyConfiguration ns name] w)
    ∧ (apiFault env (k8s.objectRequest who client.Get client.HierarchyConfiguration ns name) = None →
       (Exists (fun h => k8s.named ns name (v1alpha2.HCObjectMeta h)) (hierarchies (cluster w)) →
        ∃ h, o = Done h)
       ∧ (¬ Exists (fun h => k8s.named ns name (v1alpha2.HCObjectMeta h)) (hierarchies (cluster w)) →
          o = Failed k8s.notFound)).
Proof.
  unfold k8s.GetHierarchyConfiguration, k8s.request, bind, logCall, getWorld, ret, throw, logged.
  cbn [fst snd]. destruct (apiFault env _) as [e|]; [by eexists|].
  cbn [cluster clock uuids calls].
  destruct (filter _ (hierarchies (cluster w))) as [|h l] eqn:Hfilter.
  - eexists. split; [done|]. intros _. split; [|done].
    intros (h & Hin & Hnamed)%Exists_exists.
    assert (h ∈ filter (λ h, k8s.named ns name (v1alpha2.HCObjectMeta h)) (hierarchies (cluster w)))
      as Hh by (by apply list_elem_of_filter).
    rewrite Hfilter in Hh. by apply elem_of_nil in Hh.
  - eexists. split; [done|]. intros _. split; [by eexists|].
    intros Hnone. exfalso. apply Hnone, Exists_exists. exists h.
    assert (h ∈ filter (λ h, k8s.named ns name (v1alpha2.HCObjectMeta h)) (hierarchies (cluster w)))
      as Hh by (rewrite Hfilter; by left).
    apply list_elem_of_filter in Hh as [? ?]. done.
Qed.

Lemma DeleteAnchor_run env who ns name w :
  ∃ w', k8s.DeleteAnchor env who ns name w =
        (match apiFault env (k8s.objectRequest who client.Delete client.SubnamespaceAnchor ns name) with
         | Some e => Failed (StatusErr e)
         | None => if decide (hasAnchor (cluster w) ns name) then Done tt else Failed k8s.notFound
         end, w')
    ∧ calls w' = calls w ++ [k8s.objectRequest who client.Delete client.SubnamespaceAnchor ns name].
Proof.
  unfold k8s.DeleteAnchor, k8s.request, bind, logCall, getWorld, ret, throw, setCluster, hasAnchor.
  cbn [fst snd]. destruct (apiFault env _) as [e|]; [by eexists|].
  cbn [cluster clock uuids calls]. destruct (decide _); by eexists.
Qed.

Lemma GetSpace_result env r info spaceGUID w :
  result (GetSpace env r info spaceGUID w) =
  match result (ListSpaces env r info
                  {| ListSpacesMessage.Names := [];
                     ListSpacesMessage.GUIDs := [spaceGUID];
                     ListSpacesMessage.OrganizationGUIDs := [] |} w) with
  | Done [] => Failed (NotFoundError (Some (Errorf "space %q not found" [ArgString spaceGUID] None))
                                     SpaceResourceType)
  | Done (record :: _) => Done record
  | Failed e => Failed e
  | OutOfFuel => OutOfFuel
  end.
Proof.
  unfold GetSpace. rewrite result_bind.
  destruct (result _) as [[|record l]|e|]; done.
Qed.

(** C8, as the code has it: GetSpace is List-then-select like GetOrg, on the
    space GUID alone - the first record of ListSpaces under the GUID filter
    {spaceGUID}, or NotFound for Space when there is none. DeleteOrg starts by
    fetching the hierarchy configuration of the target namespace with the
    privileged client; when that configuration is absent it fails with
    NotFound for Org and deletes nothing; when it is there, the next and last
    call deletes the anchor under the root namespace as the caller. DeleteSpace
    fetches nothing: its only call deletes, as the caller, the anchor named
    GUID in the namespace OrganizationGUID, and it succeeds whenever that
    delete does. *)
Theorem GetSpace_DeleteOrg_DeleteSpace_patterns env r info w :
  (∀ spaceGUID,
     result (GetSpace env r info spaceGUID w) =
     match result (ListSpaces env r info
                     {| ListSpacesMessage.Names := [];
                        ListSpacesMessage.GUIDs := [spaceGUID];
                        ListSpacesMessage.OrganizationGUIDs := [] |} w) with
     | Done [] => Failed (NotFoundError (Some (Errorf "space %q not found" [ArgString spaceGUID] None))
                                        SpaceResourceType)
     | Done (record :: _) => Done record
     | Failed e => Failed e
     | OutOfFuel => OutOfFuel
     end)
  ∧ (∀ orgGUID,
       result (AnchorOrgs.GetOrg env r info orgGUID w) =
       match result (AnchorOrgs.ListOrgs env r info
                       {| ListOrgsMessage.Names := []; ListOrgsMessage.GUIDs := [orgGUID] |} w) with
       | Done [] => Failed (NotFoundError None OrgResourceType)
       | Done (record :: _) => Done record
       | Failed e => Failed e
       | OutOfFuel => OutOfFuel
       end)
  ∧ (∀ orgGUID,
       result (CFOrgs.GetOrg env r info orgGUID w) =
       match result (CFOrgs.ListOrgs env r info
                       {| ListOrgsMessage.Names := []; ListOrgsMessage.GUIDs := [orgGUID] |} w) with
       | Done [] => Failed (NotFoundError None OrgResourceType)
       | Done (record :: _) => Done record
       | Failed e => Failed e
       | OutOfFuel => OutOfFuel
       end)
  ∧ (∀ message : DeleteOrgMessage.t,
       fetchesHierarchyFirst w (final (DeleteOrg env r info message w)) (DeleteOrgMessage.GUID message)
       ∧ (apiFault env (hierarchyRequest (DeleteOrgMessage.GUID message)) = None →
          (¬ hasHierarchy (cluster w) (DeleteOrgMessage.GUID message) →
           DeleteOrg env r info message w
           = (Failed (NotFoundError (Some k8s.notFound) OrgResourceType),
              logged [hierarchyRequest (DeleteOrgMessage.GUID message)] w))
          ∧ (hasHierarchy (cluster w) (DeleteOrgMessage.GUID message) →
             buildClientFault env info = None →
             calls (final (DeleteOrg env r info message w))
             = calls w ++ [hierarchyRequest (DeleteOrgMessage.GUID message);
                           deleteAnchorRequest info (rootNamespace r) (DeleteOrgMessage.GUID message)])))
  ∧ (∀ message : DeleteSpaceMessage.t,
       buildClientFault env info = None →
       calls (final (DeleteSpace env info message w))
       = calls w ++ [deleteAnchorRequest info (DeleteSpaceMessage.OrganizationGUID message)
                                         (DeleteSpaceMessage.GUID message)]
       ∧ result (DeleteSpace env info message w)
         = match apiFault env (deleteAnchorRequest info (DeleteSpaceMessage.OrganizationGUID message)
                                                   (DeleteSpaceMessage.GUID message)) with
           | Some e => Failed (apierrors.FromK8sError (StatusErr e) SpaceResourceType)
           | None =>
               if decide (hasAnchor (cluster w) (DeleteSpaceMessage.OrganizationGUID message)
                                    (DeleteSpaceMessage.GUID message))
               then Done tt
               else Failed (NotFoundError (Some k8s.notFound) SpaceResourceType)
           end).
Proof.
  split_and!.
  - intros spaceGUID. apply GetSpace_result.
  - intros orgGUID. apply AnchorOrgs_GetOrg_result.
  - intros orgGUID. apply CFOrgs_GetOrg_result.
  - intros message.
    destruct (GetHierarchyConfiguration_run env client.Privileged (DeleteOrgMessage.GUID message)
                hierarchyMetadataName w) as (o & Hget & Hcases).
    fold (hierarchyRequest (DeleteOrgMessage.GUID message)) in Hget, Hcases.
    split_and!.
    + unfold DeleteOrg. unfold bind at 1. unfold onError at 1. rewrite Hget.
      destruct o as [h|e|]; [|by exists []..].
      unfold bind at 1. unfold onError at 1. unfold k8s.BuildClient.
      destruct (buildClientFault env info); [by exists []|].
      unfold ret at 1. unfold onError.
      destruct (DeleteAnchor_run env (client.AsUser info) (rootNamespace r) (DeleteOrgMessage.GUID message)
                  (logged [hierarchyRequest (DeleteOrgMessage.GUID message)] w)) as (w' & -> & Hcalls).
      cbn [logged calls] in Hcalls. rewrite <- app_assoc in Hcalls.
      eexists.
      destruct (apiFault env (k8s.objectRequest (client.AsUser info) client.Delete _ _ _));
        [|destruct (decide _)]; cbn [final snd]; exact Hcalls.
    + intros Hfault. split.
      * intros Habsent. destruct (Hcases Hfault) as [_ Hnone].
        rewrite (Hnone Habsent) in Hget.
        unfold DeleteOrg. unfold bind at 1. unfold onError at 1. by rewrite Hget.
      * intros Hthere Hbuild. destruct (Hcases Hfault) as [[h ->] _]; [done|].
        unfold DeleteOrg. unfold bind at 1. unfold onError at 1. rewrite Hget.
        unfold bind at 1. unfold onError at 1. unfold k8s.BuildClient. rewrite Hbuild.
        unfold ret at 1. unfold onError.
        destruct (DeleteAnchor_run env (client.AsUser info) (rootNamespace r) (DeleteOrgMessage.GUID message)
                    (logged [hierarchyRequest (DeleteOrgMessage.GUID message)] w)) as (w' & -> & Hcalls).
        cbn [logged calls] in Hcalls. rewrite <- app_assoc in Hcalls.
        destruct (apiFault env (k8s.objectRequest (client.AsUser info) client.Delete _ _ _));
          [|destruct (decide _)]; cbn [final snd]; exact Hcalls.
  - intros message Hbuild.
    unfold DeleteSpace. unfold bind at 1 2. unfold onError at 1 3. unfold k8s.BuildClient.
    rewrite Hbuild. unfold ret at 1 2. unfold onError.
    destruct (DeleteAnchor_run env (client.AsUser info) (DeleteSpaceMessage.OrganizationGUID message)
                (DeleteSpaceMessage.GUID message) w) as (w' & -> & Hcalls).
    fold (deleteAnchorRequest info (DeleteSpaceMessage.OrganizationGUID message)
            (DeleteSpaceMessage.GUID message)) in *.
    destruct (apiFault env _); [|destruct (decide _)]; rewrite result_pair, final_pair; done.
Qed.

(** "cf-org-b" has no hierarchy configuration: DeleteOrg stops after the
    fetch; DeleteSpace of "cf-space-2" makes its one delete call. *)
Lemma GetSpace_DeleteOrg_DeleteSpace_patterns_witness :
  DeleteOrg Sample.env Sample.repo "alice" {| DeleteOrgMessage.GUID := "cf-org-b" |} Sample.world
  = (Failed (NotFoundError (Some k8s.notFound) OrgResourceType),
     logged [hierarchyRequest "cf-org-b"] Sample.world)
  ∧ calls (final (DeleteSpace Sample.env "alice"
                    {| DeleteSpaceMessage.GUID := "cf-space-2";
                       DeleteSpaceMessage.OrganizationGUID := "cf-org-b" |} Sample.world))
    = [deleteAnchorRequest "alice" "cf-org-b" "cf-space-2"].
Proof.
  destruct (GetSpace_DeleteOrg_DeleteSpace_patterns Sample.env Sample.repo "alice" Sample.world)
    as (_ & _ & _ & Hdelorg & Hdelspace).
  split.
  - destruct (Hdelorg {| DeleteOrgMessage.GUID := "cf-org-b" |}) as (_ & Hcases).
    destruct (Hcases eq_refl) as [Habsent _]. apply Habsent.
    by apply (bool_decide_unpack _).
  - by destruct (Hdelspace {| DeleteSpaceMessage.GUID := "cf-space-2";
                              DeleteSpaceMessage.OrganizationGUID := "cf-org-b" |} eq_refl) as [-> _].
Defined.

(** C8 as stated does not hold: on the sample cluster the namespace
    "cf-space-2" of the space has no hierarchy configuration, and DeleteSpace
    neither fetches one nor reports NotFound - it makes a single delete call
    and succeeds, where DeleteOrg on an organization without hierarchy
    configuration fails with NotFound. *)
Lemma DeleteSpace_is_not_fetch_then_delete :
  ¬ hasHierarchy Sample.objects "cf-space-2"
  ∧ result (DeleteSpace Sample.env "alice"
              {| DeleteSpaceMessage.GUID := "cf-space-2";
                 DeleteSpaceMessage.OrganizationGUID := "cf-org-b" |} Sample.world)
    = Done tt
  ∧ (∀ ns, ¬ fetchesHierarchyFirst Sample.world
               (final (DeleteSpace Sample.env "alice"
                         {| DeleteSpaceMessage.GUID := "cf-space-2";
                            DeleteSpaceMessage.OrganizationGUID := "cf-org-b" |} Sample.world))
               ns)
  ∧ ¬ hasHierarchy Sample.objects "cf-org-b"
  ∧ result (DeleteOrg Sample.env Sample.repo "alice" {| DeleteOrgMessage.GUID := "cf-org-b" |} Sample.world)
    = Failed (NotFoundError (Some k8s.notFound) OrgResourceType).
Proof.
  split_and!.
  - by apply (bool_decide_unpack _).
  - reflexivity.
  - intros ns [rest Hcalls]. vm_compute in Hcalls. discriminate.
  - by apply (bool_decide_unpack _).
  - reflexivity.
Qed.

(** * Further properties *)

(** ** The watch loops *)

(** X1: the watch loop of createSubnamespaceAnchor leaves with the first
    event that is an anchor in state Ok, events of another kind and anchors in
    another state being skipped; it leaves empty-handed exactly when no event
    is an anchor in state Ok. The loop of createOrgCR does the same with the
    first CFOrg whose Ready condition is true. *)
Theorem watch_returns_first_converged (events : list WatchObject) :
  (∀ createdAnchor,
     createSubnamespaceAnchor_watch events = Some createdAnchor ↔
     ∃ before after,
       events = before ++ AnchorObject createdAnchor :: after
       ∧ v1alpha2.State (v1alpha2.Status createdAnchor) = v1alpha2.Ok
       ∧ ∀ a, AnchorObject a ∈ before → v1alpha2.State (v1alpha2.Status a) ≠ v1alpha2.Ok)
  ∧ (createSubnamespaceAnchor_watch events = None ↔
     ∀ a, AnchorObject a ∈ events → v1alpha2.State (v1alpha2.Status a) ≠ v1alpha2.Ok)
  ∧ (∀ createdOrg,
       CFOrgs.createOrgCR_watch events = Some createdOrg ↔
       ∃ before after,
         events = before ++ CFOrgObject createdOrg :: after
         ∧ meta.IsStatusConditionTrue (workloads.Conditions (workloads.Status createdOrg)) "Ready" = true
         ∧ ∀ o, CFOrgObject o ∈ before →
                meta.IsStatusConditionTrue (workloads.Conditions (workloads.Status o)) "Ready" = false)
  ∧ (CFOrgs.createOrgCR_watch events = None ↔
     ∀ o, CFOrgObject o ∈ events →
          meta.IsStatusConditionTrue (workloads.Conditions (workloads.Status o)) "Ready" = false).
Proof.
  split_and!.
  - intros createdAnchor. induction events as [|event events IH]; simpl.
    + split; [done|]. intros (before & after & Heq & _). by destruct before.
    + destruct event as [a|o|].
      * destruct (decide (v1alpha2.State (v1alpha2.Status a) = v1alpha2.Ok)) as [Hok|Hno].
        -- split.
           ++ intros [= <-]. exists [], events. split_and!; [done|done|]. by intros ? ?%elem_of_nil.
           ++ intros (before & after & Heq & Hstate & Hbefore).
              destruct before as [|b before]; simpl in Heq.
              ** by injection Heq as <-.
              ** injection Heq as <- _. exfalso. eapply Hbefore; [by left|done].
        -- rewrite IH. split.
           ++ intros (before & after & -> & Hstate & Hbefore).
              exists (AnchorObject a :: before), after. split_and!; [done|done|].
              intros a' [[= ->]|Hin]%elem_of_cons; [done|by apply Hbefore].
           ++ intros (before & after & Heq & Hstate & Hbefore).
              destruct before as [|b before]; simpl in Heq.
              ** injection Heq as ->. done.
              ** injection Heq as <- ->. exists before, after. split_and!; [done|done|].
                 intros a' Hin. apply Hbefore. by right.
      * rewrite IH. split.
        -- intros (before & after & -> & Hstate & Hbefore).
           exists (CFOrgObject o :: before), after. split_and!; [done|done|].
           intros a' [?|Hin]%elem_of_cons; [done|by apply Hbefore].
        -- intros (before & after & Heq & Hstate & Hbefore).
           destruct before as [|b before]; simpl in Heq; [done|].
           injection Heq as <- ->. exists before, after. split_and!; [done|done|].
           intros a' Hin. apply Hbefore. by right.
      * rewrite IH. split.
        -- intros (before & after & -> & Hstate & Hbefore).
           exists (StatusObject :: before), after. split_and!; [done|done|].
           intros a' [?|Hin]%elem_of_cons; [done|by apply Hbefore].
        -- intros (before & after & Heq & Hstate & Hbefore).
           destruct before as [|b before]; simpl in Heq; [done|].
           injection Heq as <- ->. exists before, after. split_and!; [done|done|].
           intros a' Hin. apply Hbefore. by right.
  - induction events as [|event events IH]; simpl.
    + split; [|done]. by intros _ ? ?%elem_of_nil.
    + destruct event as [a|o|].
      * destruct (decide (v1alpha2.State (v1alpha2.Status a) = v1alpha2.Ok)) as [Hok|Hno].
        -- split; [done|]. intros Hall. exfalso. by apply (Hall a); [left|].
        -- rewrite IH. split.
           ++ intros Hall a' [[= ->]|Hin]%elem_of_cons; [done|by apply Hall].
           ++ intros Hall a' Hin. apply Hall. by right.
      * rewrite IH. split.
        -- intros Hall a' [?|Hin]%elem_of_cons; [done|by apply Hall].
        -- intros Hall a' Hin. apply Hall. by right.
      * rewrite IH. split.
        -- intros Hall a' [?|Hin]%elem_of_cons; [done|by apply Hall].
        -- intros Hall a' Hin. apply Hall. by right.
  - intros createdOrg. induction events as [|event events IH]; simpl.
    + split; [done|]. intros (before & after & Heq & _). by destruct before.
    + destruct event as [a|o|].
      * rewrite IH. split.
        -- intros (before & after & -> & Hstate & Hbefore).
           exists (AnchorObject a :: before), after. split_and!; [done|done|].
           intros a' [?|Hin]%elem_of_cons; [done|by apply Hbefore].
        -- intros (before & after & Heq & Hstate & Hbefore).
           destruct before as [|b before]; simpl in Heq; [done|].
           injection Heq as <- ->. exists before, after. split_and!; [done|done|].
           intros a' Hin. apply Hbefore. by right.
      * destruct (meta.IsStatusConditionTrue (workloads.Conditions (workloads.Status o)) "Ready") eqn:Hready.
        -- split.
           ++ intros [= <-]. exists [], events. split_and!; [done|done|]. by intros ? ?%elem_of_nil.
           ++ intros (before & after & Heq & Hstate & Hbefore).
              destruct before as [|b before]; simpl in Heq.
              ** by injection Heq as <-.
              ** injection Heq as <- _. rewrite Hbefore in Hready; [done|by left].
        -- rewrite IH. split.
           ++ intros (before & after & -> & Hstate & Hbefore).
              exists (CFOrgObject o :: before), after. split_and!; [done|done|].
              intros a' [[= ->]|Hin]%elem_of_cons; [done|by apply Hbefore].
           ++ intros (before & after & Heq & Hstate & Hbefore).
              destruct before as [|b before]; simpl in Heq.
              ** injection Heq as ->. by rewrite Hstate in Hready.
              ** injection Heq as <- ->. exists before, after. split_and!; [done|done|].
                 intros a' Hin. apply Hbefore. by right.
      * rewrite IH. split.
        -- intros (before & after & -> & Hstate & Hbefore).
           exists (StatusObject :: before), after. split_and!; [done|done|].
           intros a' [?|Hin]%elem_of_cons; [done|by apply Hbefore].
        -- intros (before & after & Heq & Hstate & Hbefore).
           destruct before as [|b before]; simpl in Heq; [done|].
           injection Heq as <- ->. exists before, after. split_and!; [done|done|].
           intros a' Hin. apply Hbefore. by right.
  - induction events as [|event events IH]; simpl.
    + split; [|done]. by intros _ ? ?%elem_of_nil.
    + destruct event as [a|o|].
      * rewrite IH. split.
        -- intros Hall a' [?|Hin]%elem_of_cons; [done|by apply Hall].
        -- intros Hall a' Hin. apply Hall. by right.
      * destruct (meta.IsStatusConditionTrue (workloads.Conditions (workloads.Status o)) "Ready") eqn:Hready.
        -- split; [done|]. intros Hall. rewrite Hall in Hready; [done|by left].
        -- rewrite IH. split.
           ++ intros Hall a' [[= ->]|Hin]%elem_of_cons; [done|by apply Hall].
           ++ intros Hall a' Hin. apply Hall. by right.
      * rewrite IH. split.
        -- intros Hall a' [?|Hin]%elem_of_cons; [done|by apply Hall].
        -- intros Hall a' Hin. apply Hall. by right.
Qed.

(** ** createSubnamespaceAnchor: the failures other than the two timeouts *)

Lemma CreateAnchor_rejected env userClient anchor w (e : StatusError) :
  apiFault env (anchorRequest userClient client.Create anchor) = Some e →
  k8s.CreateAnchor env userClient anchor w
  = (Failed (StatusErr e), logged [anchorRequest userClient client.Create anchor] w).
Proof.
  intros Hfault. unfold anchorRequest in Hfault.
  unfold k8s.CreateAnchor, k8s.request, bind, logCall, getWorld, ret, throw.
  cbn [fst snd]. by rewrite Hfault.
Qed.

Lemma CreateAnchor_exists env userClient anchor w :
  apiFault env (anchorRequest userClient client.Create anchor) = None →
  hasAnchor (cluster w) (metav1.Namespace (v1alpha2.ObjectMeta anchor))
            (metav1.Name (v1alpha2.ObjectMeta anchor)) →
  k8s.CreateAnchor env userClient anchor w
  = (Failed k8s.alreadyExists, logged [anchorRequest userClient client.Create anchor] w).
Proof.
  intros Hfault Hthere. unfold anchorRequest in Hfault. unfold hasAnchor in Hthere.
  unfold k8s.CreateAnchor, k8s.request, bind, logCall, getWorld, ret, throw.
  cbn [fst snd]. rewrite Hfault. cbn [cluster clock uuids calls].
  by rewrite decide_True.
Qed.

(** X2: when the cluster rejects the creation of the anchor, or an anchor of
    that name is already there, createSubnamespaceAnchor fails with "failed to
    create subnamespaceanchor: %w" after that one call: no watch is set up and
    the cluster is unchanged. When the creation is accepted and the watch is
    refused, it fails with "failed to set up watch on subnamespaceanchors: %w"
    and the anchor just created stays in the cluster. *)
Theorem createSubnamespaceAnchor_rejected
    env r fuel info userClient (anchor : v1alpha2.SubnamespaceAnchor) (resourceType : string) w :
  (∀ e, apiFault env (anchorRequest userClient client.Create anchor) = Some e →
        createSubnamespaceAnchor env r fuel info userClient anchor resourceType w
        = (Failed (Errorf "failed to create subnamespaceanchor: %w" []
                          (Some (apierrors.FromK8sError (StatusErr e) resourceType))),
           logged [anchorRequest userClient client.Create anchor] w))
  ∧ (apiFault env (anchorRequest userClient client.Create anchor) = None →
     hasAnchor (cluster w) (metav1.Namespace (v1alpha2.ObjectMeta anchor))
               (metav1.Name (v1alpha2.ObjectMeta anchor)) →
     createSubnamespaceAnchor env r fuel info userClient anchor resourceType w
     = (Failed (Errorf "failed to create subnamespaceanchor: %w" []
                       (Some (apierrors.FromK8sError k8s.alreadyExists resourceType))),
        logged [anchorRequest userClient client.Create anchor] w))
  ∧ (∀ e, apiFault env (anchorRequest userClient client.Create anchor) = None →
          ¬ hasAnchor (cluster w) (metav1.Namespace (v1alpha2.ObjectMeta anchor))
                      (metav1.Name (v1alpha2.ObjectMeta anchor)) →
          apiFault env (anchorRequest client.Privileged client.Watch anchor) = Some e →
          createSubnamespaceAnchor env r fuel info userClient anchor resourceType w
          = (Failed (Errorf "failed to set up watch on subnamespaceanchors: %w" []
                            (Some (apierrors.FromK8sError (StatusErr e) resourceType))),
             anchorProvisioned userClient anchor w)).
Proof.
  split_and!.
  - intros e Hfault. unfold createSubnamespaceAnchor.
    unfold bind at 1. unfold onError at 1. by rewrite (CreateAnchor_rejected _ _ _ _ _ Hfault).
  - intros Hfault Hthere. unfold createSubnamespaceAnchor.
    unfold bind at 1. unfold onError at 1. by rewrite (CreateAnchor_exists _ _ _ _ Hfault Hthere).
  - intros e Hcreate Hfresh Hwatch. unfold createSubnamespaceAnchor.
    unfold bind at 1. unfold onError at 1. rewrite (CreateAnchor_run env userClient anchor w Hcreate Hfresh).
    unfold bind at 1. unfold onError at 1.
    unfold k8s.Watch, k8s.request, bind at 1 2, logCall, ret at 1, throw at 1.
    unfold anchorRequest in Hwatch. cbn [fst snd]. rewrite Hwatch.
    cbn [cluster clock uuids calls]. rewrite <- app_assoc. done.
Qed.

Lemma createSubnamespaceAnchor_rejected_witness :
  createSubnamespaceAnchor
    (Sample.withApiFault (fun req => if decide (client.verb req = client.Watch)
                                     then Some Sample.forbidden else None) Sample.env)
    Sample.repo 4 "alice" (client.AsUser "alice") Sample.newSpace SpaceResourceType Sample.world
  = (Failed (Errorf "failed to set up watch on subnamespaceanchors: %w" []
                    (Some (apierrors.FromK8sError (StatusErr Sample.forbidden) SpaceResourceType))),
     anchorProvisioned (client.AsUser "alice") Sample.newSpace Sample.world)
  ∧ createSubnamespaceAnchor Sample.env Sample.repo 4 "alice" (client.AsUser "alice")
      (Sample.anchor "cf-org-a" "cf-space-1" SpaceNameLabel "dev" v1alpha2.Pending)
      SpaceResourceType Sample.world
    = (Failed (Errorf "failed to create subnamespaceanchor: %w" []
                      (Some (apierrors.FromK8sError k8s.alreadyExists SpaceResourceType))),
       logged [anchorRequest (client.AsUser "alice") client.Create
                 (Sample.anchor "cf-org-a" "cf-space-1" SpaceNameLabel "dev" v1alpha2.Pending)]
              Sample.world).
Proof.
  split.
  - apply (createSubnamespaceAnchor_rejected
             (Sample.withApiFault (fun req => if decide (client.verb req = client.Watch)
                                              then Some Sample.forbidden else None) Sample.env)
             Sample.repo 4 "alice" (client.AsUser "alice") Sample.newSpace SpaceResourceType
             Sample.world); [reflexivity| |reflexivity].
    by apply (bool_decide_unpack _).
  - apply (createSubnamespaceAnchor_rejected Sample.env Sample.repo 4 "alice" (client.AsUser "alice")
             (Sample.anchor "cf-org-a" "cf-space-1" SpaceNameLabel "dev" v1alpha2.Pending)
             SpaceResourceType Sample.world); [reflexivity|].
    by apply (bool_decide_unpack _).
Defined.

Lemma outer_error_after env r info resourceType name t1 (k : nat) :
  ∀ fuel w (e : error),
    (∀ j : nat, j < k →
       ∃ m, permsFor env resourceType info (clock w + 500 * Z.of_nat j) = inr m ∧ m !! name = None) →
    permsFor env resourceType info (clock w + 500 * Z.of_nat k) = inl e →
    (clock w - t1 + 500 * Z.of_nat k < timeout r)%Z →
    createSubnamespaceAnchor_outer env r (S k + fuel) info resourceType name t1 w
    = (Failed e, slept (500 * Z.of_nat k) w).
Proof.
  induction k as [|k IH]; intros fuel w e Hbefore Hnow Htime.
  - cbn [plus]. rewrite outer_step. rewrite decide_False by lia.
    replace (clock w + 500 * Z.of_nat 0)%Z with (clock w) in Hnow by lia. rewrite Hnow.
    by rewrite slept_0.
  - change (S (S k) + fuel) with (S (S k + fuel)). rewrite outer_step.
    rewrite decide_False by lia.
    destruct (Hbefore 0 ltac:(lia)) as (m & Hm & Habsent).
    replace (clock w + 500 * Z.of_nat 0)%Z with (clock w) in Hm by lia. rewrite Hm.
    unfold present at 1. rewrite bool_decide_false by (rewrite Habsent; by intros [? ?]).
    rewrite (IH fuel (slept 500 w) e).
    + rewrite slept_slept. do 2 f_equal. lia.
    + intros j Hj. destruct (Hbefore (S j) ltac:(lia)) as (m' & Hm' & Habsent').
      exists m'. split; [|done]. rewrite <- Hm'. f_equal. simpl. lia.
    + rewrite <- Hnow. f_equal. simpl. lia.
    + simpl. lia.
Qed.

(** X3: when, during the wait for permissions, a lookup of the caller's
    namespaces fails before the timeout, createSubnamespaceAnchor and
    createOrgCR fail with that very error, unwrapped - not with the timeout
    error - after the polls made so far, and the object they created stays in
    the cluster. *)
Theorem permission_lookup_error_ends_wait
    env r (fuel k : nat) info userClient (anchor : v1alpha2.SubnamespaceAnchor)
    (resourceType : string) (org : workloads.CFOrg) w (e : error) :
  (500 * Z.of_nat k < timeout r)%Z →
  (anchorAccepted env userClient anchor w →
   is_Some (createSubnamespaceAnchor_watch
              (watchEvents env (anchorRequest client.Privileged client.Watch anchor))) →
   (∀ j : nat, j < k →
      ∃ m, permsFor env resourceType info (clock w + 500 * Z.of_nat j) = inr m
           ∧ m !! metav1.Name (v1alpha2.ObjectMeta anchor) = None) →
   permsFor env resourceType info (clock w + 500 * Z.of_nat k) = inl e →
   createSubnamespaceAnchor env r (S k + fuel) info userClient anchor resourceType w
   = (Failed e, slept (500 * Z.of_nat k) (anchorProvisioned userClient anchor w)))
  ∧ (cfOrgAccepted env userClient org w →
     is_Some (CFOrgs.createOrgCR_watch
                (watchEvents env (cfOrgRequest client.Privileged client.Watch org))) →
     (∀ j : nat, j < k →
        ∃ m, authorizedOrgNamespaces env info (clock w + 500 * Z.of_nat j) = inr m
             ∧ m !! metav1.Name (workloads.ObjectMeta org) = None) →
     authorizedOrgNamespaces env info (clock w + 500 * Z.of_nat k) = inl e →
     CFOrgs.createOrgCR env r (S k + fuel) info userClient org w
     = (Failed e, slept (500 * Z.of_nat k) (cfOrgProvisioned userClient org w))).
Proof.
  intros Htime. split.
  - intros Haccepted [createdAnchor Hwatch] Hbefore Hnow.
    rewrite (createSubnamespaceAnchor_run _ _ _ _ _ _ _ _ Haccepted), Hwatch.
    rewrite (outer_error_after env r info resourceType _ (clock w) k fuel
               (anchorProvisioned userClient anchor w) e); try done.
    cbn [anchorProvisioned clock]. lia.
  - intros Haccepted [createdOrg Hwatch] Hbefore Hnow.
    rewrite (createOrgCR_run _ _ _ _ _ _ _ Haccepted), Hwatch.
    rewrite (outer_error_after env r info OrgResourceType _ (clock w) k fuel
               (cfOrgProvisioned userClient org w) e); try done.
    cbn [cfOrgProvisioned clock]. lia.
Qed.

Lemma permission_lookup_error_ends_wait_witness :
  createSubnamespaceAnchor Sample.flaky Sample.repo 2 "alice" (client.AsUser "alice")
    Sample.newSpace SpaceResourceType Sample.world
  = (Failed (OpaqueError "permissions unavailable"),
     slept 500 (anchorProvisioned (client.AsUser "alice") Sample.newSpace Sample.world)).
Proof.
  apply (permission_lookup_error_ends_wait Sample.flaky Sample.repo 0 1 "alice"
           (client.AsUser "alice") Sample.newSpace SpaceResourceType Sample.newOrg Sample.world
           (OpaqueError "permissions unavailable")).
  - reflexivity.
  - split_and!; [reflexivity| |reflexivity]. by apply (bool_decide_unpack _).
  - by eexists.
  - intros j Hj. assert (j = 0%nat) as -> by lia. eexists. split; reflexivity.
  - reflexivity.
Defined.

(** ** CreateSpace after the parent organization is found *)

Lemma CreateServiceAccount_rejected env who sa w (e : StatusError) :
  apiFault env (k8s.objectRequest who client.Create client.ServiceAccount
                  (metav1.Namespace (corev1.ObjectMeta sa)) (metav1.Name (corev1.ObjectMeta sa))) = Some e →
  k8s.CreateServiceAccount env who sa w
  = (Failed (StatusErr e),
     logged [k8s.objectRequest who client.Create client.ServiceAccount
               (metav1.Namespace (corev1.ObjectMeta sa)) (metav1.Name (corev1.ObjectMeta sa))] w).
Proof.
  intros Hfault.
  unfold k8s.CreateServiceAccount, k8s.request, bind, logCall, getWorld, ret, throw.
  cbn [fst snd]. by rewrite Hfault.
Qed.

Lemma CreateServiceAccount_run env who sa w :
  apiFault env (k8s.objectRequest who client.Create client.ServiceAccount
                  (metav1.Namespace (corev1.ObjectMeta sa)) (metav1.Name (corev1.ObjectMeta sa))) = None →
  ¬ hasServiceAccount (cluster w) (metav1.Namespace (corev1.ObjectMeta sa)) (metav1.Name (corev1.ObjectMeta sa)) →
  k8s.CreateServiceAccount env who sa w
  = (Done tt,
     {| cluster :=
          {| anchors := anchors (cluster w);
             hierarchies := hierarchies (cluster w);
             cfOrgs := cfOrgs (cluster w);
             serviceAccounts := serviceAccounts (cluster w)
                                ++ [ {| corev1.ObjectMeta := k8s.stamp (corev1.ObjectMeta sa) (clock w);
                                        corev1.ImagePullSecrets := corev1.ImagePullSecrets sa;
                                        corev1.Secrets := corev1.Secrets sa |} ];
             serviceBindings := serviceBindings (cluster w) |};
        clock := clock w;
        uuids := uuids w;
        calls := calls w ++ [k8s.objectRequest who client.Create client.ServiceAccount
                               (metav1.Namespace (corev1.ObjectMeta sa))
                               (metav1.Name (corev1.ObjectMeta sa))] |}).
Proof.
  intros Hfault Hfresh. unfold hasServiceAccount in Hfresh.
  unfold k8s.CreateServiceAccount, k8s.request, bind, logCall, getWorld, ret, throw, setCluster.
  cbn [fst snd]. rewrite Hfault. cbn [cluster clock uuids calls].
  by rewrite decide_False.
Qed.

Lemma CreateSpace_provision env r GetOrg fuel info message w record w0 :
  GetOrg info (CreateSpaceMessage.OrganizationGUID message) w = (Done record, w0) →
  buildClientFault env info = None →
  repositories.CreateSpace env r GetOrg fuel info message w
  = bind (onError (asValidationError env)
            (createSubnamespaceAnchor env r fuel info (client.AsUser info)
               (spaceAnchor message (uuidAt env (uuids w0))) SpaceResourceType))
         (fun anchor =>
            let spaceGUID := SpacePrefix +:+ uuidAt env (uuids w0) in
            onError (fun err => apierrors.FromK8sError err SpaceResourceType)
              (k8s.CreateServiceAccount env client.Privileged (kpackServiceAccount message spaceGUID 0)) ;;;
            onError (fun err => apierrors.FromK8sError err SpaceResourceType)
              (k8s.CreateServiceAccount env client.Privileged (eiriniServiceAccount spaceGUID 0)) ;;;
            ret {| SpaceRecord.Name := CreateSpaceMessage.Name message;
                   SpaceRecord.GUID := metav1.Name (v1alpha2.ObjectMeta anchor);
                   SpaceRecord.OrganizationGUID := CreateSpaceMessage.OrganizationGUID message;
                   SpaceRecord.Labels := ∅;
                   SpaceRecord.Annotations := ∅;
                   SpaceRecord.CreatedAt := metav1.CreationTimestamp (v1alpha2.ObjectMeta anchor);
                   SpaceRecord.UpdatedAt := metav1.CreationTimestamp (v1alpha2.ObjectMeta anchor) |})
         (drawn w0).
Proof.
  intros Hget Hbuild. unfold repositories.CreateSpace.
  unfold bind at 1. unfold onError at 1. rewrite Hget.
  unfold bind at 1. unfold k8s.NewString at 1.
  unfold bind at 1. unfold onError at 1. unfold k8s.BuildClient. rewrite Hbuild.
  unfold ret at 1. done.
Qed.

(** X4: once GetOrg has found the parent and the anchor is provisioned,
    CreateSpace creates, with the privileged client and in the namespace named
    after the new space, first the service account "kpack-service-account"
    that carries the image registry credentials as image pull secret and as
    secret, then the service account "eirini"; it returns a record with the
    name and the organization of the message and with the GUID and the
    creation time of the anchor the watch delivered. *)
Theorem CreateSpace_bootstraps_service_accounts
    env r (GetOrg : authorization.Info → string → M OrgRecord.t) fuel info
    (message : CreateSpaceMessage.t) w record w0 created w2 :
  let spaceGUID := SpacePrefix +:+ uuidAt env (uuids w0) in
  GetOrg info (CreateSpaceMessage.OrganizationGUID message) w = (Done record, w0) →
  buildClientFault env info = None →
  createSubnamespaceAnchor env r fuel info (client.AsUser info)
    (spaceAnchor message (uuidAt env (uuids w0))) SpaceResourceType (drawn w0)
  = (Done created, w2) →
  apiFault env (serviceAccountRequest spaceGUID "kpack-service-account") = None →
  ¬ hasServiceAccount (cluster w2) spaceGUID "kpack-service-account" →
  apiFault env (serviceAccountRequest spaceGUID "eirini") = None →
  ¬ hasServiceAccount (cluster w2) spaceGUID "eirini" →
  result (repositories.CreateSpace env r GetOrg fuel info message w)
  = Done {| SpaceRecord.Name := CreateSpaceMessage.Name message;
            SpaceRecord.GUID := metav1.Name (v1alpha2.ObjectMeta created);
            SpaceRecord.OrganizationGUID := CreateSpaceMessage.OrganizationGUID message;
            SpaceRecord.Labels := ∅;
            SpaceRecord.Annotations := ∅;
            SpaceRecord.CreatedAt := metav1.CreationTimestamp (v1alpha2.ObjectMeta created);
            SpaceRecord.UpdatedAt := metav1.CreationTimestamp (v1alpha2.ObjectMeta created) |}
  ∧ serviceAccounts (cluster (final (repositories.CreateSpace env r GetOrg fuel info message w)))
    = serviceAccounts (cluster w2)
      ++ [kpackServiceAccount message spaceGUID (clock w2); eiriniServiceAccount spaceGUID (clock w2)]
  ∧ calls (final (repositories.CreateSpace env r GetOrg fuel info message w))
    = calls w2 ++ [serviceAccountRequest spaceGUID "kpack-service-account";
                   serviceAccountRequest spaceGUID "eirini"]
  ∧ anchors (cluster (final (repositories.CreateSpace env r GetOrg fuel info message w)))
    = anchors (cluster w2).
Proof.
  intros spaceGUID Hget Hbuild Hanchor Hkpack Hnokpack Heirini Hnoeirini.
  assert (∃ w3, repositories.CreateSpace env r GetOrg fuel info message w
                = (Done {| SpaceRecord.Name := CreateSpaceMessage.Name message;
                           SpaceRecord.GUID := metav1.Name (v1alpha2.ObjectMeta created);
                           SpaceRecord.OrganizationGUID := CreateSpaceMessage.OrganizationGUID message;
                           SpaceRecord.Labels := ∅;
                           SpaceRecord.Annotations := ∅;
                           SpaceRecord.CreatedAt := metav1.CreationTimestamp (v1alpha2.ObjectMeta created);
                           SpaceRecord.UpdatedAt := metav1.CreationTimestamp (v1alpha2.ObjectMeta created) |},
                   w3)
                ∧ serviceAccounts (cluster w3)
                  = serviceAccounts (cluster w2)
                    ++ [kpackServiceAccount message spaceGUID (clock w2);
                        eiriniServiceAccount spaceGUID (clock w2)]
                ∧ calls w3 = calls w2 ++ [serviceAccountRequest spaceGUID "kpack-service-account";
                                          serviceAccountRequest spaceGUID "eirini"]
                ∧ anchors (cluster w3) = anchors (cluster w2)) as (w3 & -> & Hsas & Hcalls & Hanchors).
  { rewrite (CreateSpace_provision env r GetOrg fuel info message w record w0 Hget Hbuild).
    unfold bind at 1. unfold onError at 1. rewrite Hanchor.
    cbv zeta. fold spaceGUID.
    unfold bind at 1. unfold onError at 1.
    rewrite (CreateServiceAccount_run env client.Privileged (kpackServiceAccount message spaceGUID 0) w2
               Hkpack Hnokpack).
    unfold bind at 1. unfold onError at 1.
    rewrite CreateServiceAccount_run.
    - eexists. split; [reflexivity|]. cbn [cluster serviceAccounts calls anchors clock].
      rewrite <- !app_assoc. done.
    - done.
    - unfold hasServiceAccount in *. cbn [cluster serviceAccounts].
      rewrite Exists_app. intros [Hold|Hnew]; [done|].
      apply Exists_cons in Hnew as [[_ Hname]|Hnil]; [done|]. by apply Exists_nil in Hnil. }
  by rewrite result_pair, final_pair.
Qed.

Lemma CreateSpace_bootstraps_service_accounts_witness :
  let run := AnchorOrgs.CreateSpace Sample.granted Sample.repo 1 "alice"
               {| CreateSpaceMessage.Name := "dev";
                  CreateSpaceMessage.OrganizationGUID := "cf-org-a";
                  CreateSpaceMessage.ImageRegistryCredentials := "registry-secret" |}
               Sample.world in
  (∃ record, result run = Done record ∧ SpaceRecord.GUID record = "cf-space-0000")
  ∧ map (fun sa => (metav1.Namespace (corev1.ObjectMeta sa), metav1.Name (corev1.ObjectMeta sa),
                    corev1.ImagePullSecrets sa))
        (serviceAccounts (cluster (final run)))
    = [("cf-space-0000", "kpack-service-account", ["registry-secret"]);
       ("cf-space-0000", "eirini", [])].
Proof.
  intros run.
  pose (message := {| CreateSpaceMessage.Name := "dev";
                      CreateSpaceMessage.OrganizationGUID := "cf-org-a";
                      CreateSpaceMessage.ImageRegistryCredentials := "registry-secret" |}).
  destruct (AnchorOrgs.GetOrg Sample.granted Sample.repo "alice" "cf-org-a" Sample.world)
    as [o w0] eqn:Hget.
  destruct (createSubnamespaceAnchor Sample.granted Sample.repo 1 "alice" (client.AsUser "alice")
              (spaceAnchor message "0000") SpaceResourceType
              (drawn (logged [anchorListRequest Sample.repo] Sample.world)))
    as [o2 w2] eqn:Hanchor.
  vm_compute in Hget. injection Hget as <- <-.
  vm_compute in Hanchor. injection Hanchor as <- <-.
  destruct (CreateSpace_bootstraps_service_accounts Sample.granted Sample.repo
              (AnchorOrgs.GetOrg Sample.granted Sample.repo) 1 "alice" message Sample.world
              _ _ _ _ eq_refl eq_refl eq_refl eq_refl
              ltac:(by apply (bool_decide_unpack _)) eq_refl
              ltac:(by apply (bool_decide_unpack _)))
    as (Hres & Hsas & _).
  split.
  - eexists. split; [exact Hres|reflexivity].
  - unfold run, AnchorOrgs.CreateSpace. fold message. rewrite Hsas. reflexivity.
Defined.

(** X5: CreateSpace undoes nothing. When provisioning the anchor fails, its
    error - turned into an unprocessable-entity error when the webhook helper
    recognizes it - is the result and no service account is asked for; when
    the creation of "kpack-service-account" is rejected, the call fails after
    it and "eirini" is never asked for; when the creation of "eirini" is
    rejected, "kpack-service-account" stays. In each case the anchors are as
    provisioning left them: nothing is deleted. *)
Theorem CreateSpace_leaves_partial_state
    env r (GetOrg : authorization.Info → string → M OrgRecord.t) fuel info
    (message : CreateSpaceMessage.t) w record w0 :
  let spaceGUID := SpacePrefix +:+ uuidAt env (uuids w0) in
  let provision :=
    createSubnamespaceAnchor env r fuel info (client.AsUser info)
      (spaceAnchor message (uuidAt env (uuids w0))) SpaceResourceType (drawn w0) in
  GetOrg info (CreateSpaceMessage.OrganizationGUID message) w = (Done record, w0) →
  buildClientFault env info = None →
  (∀ err w2, provision = (Failed err, w2) →
             repositories.CreateSpace env r GetOrg fuel info message w
             = (Failed (asValidationError env err), w2))
  ∧ (∀ created w2 e,
       provision = (Done created, w2) →
       apiFault env (serviceAccountRequest spaceGUID "kpack-service-account") = Some e →
       repositories.CreateSpace env r GetOrg fuel info message w
       = (Failed (apierrors.FromK8sError (StatusErr e) SpaceResourceType),
          logged [serviceAccountRequest spaceGUID "kpack-service-account"] w2))
  ∧ (∀ created w2 e,
       provision = (Done created, w2) →
       apiFault env (serviceAccountRequest spaceGUID "kpack-service-account") = None →
       ¬ hasServiceAccount (cluster w2) spaceGUID "kpack-service-account" →
       apiFault env (serviceAccountRequest spaceGUID "eirini") = Some e →
       result (repositories.CreateSpace env r GetOrg fuel info message w)
       = Failed (apierrors.FromK8sError (StatusErr e) SpaceResourceType)
       ∧ serviceAccounts (cluster (final (repositories.CreateSpace env r GetOrg fuel info message w)))
         = serviceAccounts (cluster w2) ++ [kpackServiceAccount message spaceGUID (clock w2)]
       ∧ anchors (cluster (final (repositories.CreateSpace env r GetOrg fuel info message w)))
         = anchors (cluster w2)
       ∧ calls (final (repositories.CreateSpace env r GetOrg fuel info message w))
         = calls w2 ++ [serviceAccountRequest spaceGUID "kpack-service-account";
                        serviceAccountRequest spaceGUID "eirini"]).
Proof.
  intros spaceGUID provision Hget Hbuild. unfold provision.
  rewrite (CreateSpace_provision env r GetOrg fuel info message w record w0 Hget Hbuild).
  fold spaceGUID. split_and!.
  - intros err w2 Hanchor. unfold bind at 1. unfold onError at 1. by rewrite Hanchor.
  - intros created w2 e Hanchor Hkpack. unfold bind at 1. unfold onError at 1. rewrite Hanchor.
    unfold bind at 1. unfold onError at 1.
    by rewrite (CreateServiceAccount_rejected env client.Privileged
                  (kpackServiceAccount message spaceGUID 0) w2 e Hkpack).
  - intros created w2 e Hanchor Hkpack Hnokpack Heirini.
    match goal with |- context [result ?run] => remember run as outcome eqn:Hrun end.
    unfold bind at 1 in Hrun. unfold onError at 1 in Hrun. rewrite Hanchor in Hrun.
    unfold bind at 1 in Hrun. unfold onError at 1 in Hrun.
    rewrite (CreateServiceAccount_run env client.Privileged (kpackServiceAccount message spaceGUID 0) w2
               Hkpack Hnokpack) in Hrun.
    unfold bind at 1 in Hrun. unfold onError at 1 in Hrun.
    rewrite (CreateServiceAccount_rejected env client.Privileged (eiriniServiceAccount spaceGUID 0) _ e Heirini)
      in Hrun.
    subst outcome. rewrite result_pair, final_pair. cbn [logged cluster serviceAccounts anchors calls].
    rewrite <- app_assoc. done.
Qed.

Lemma CreateSpace_leaves_partial_state_witness :
  let env := Sample.withApiFault
               (fun req => if decide (client.name req = "eirini") then Some Sample.forbidden else None)
               Sample.granted in
  let run := AnchorOrgs.CreateSpace env Sample.repo 1 "alice"
               {| CreateSpaceMessage.Name := "dev";
                  CreateSpaceMessage.OrganizationGUID := "cf-org-a";
                  CreateSpaceMessage.ImageRegistryCredentials := "registry-secret" |}
               Sample.world in
  result run = Failed (apierrors.FromK8sError (StatusErr Sample.forbidden) SpaceResourceType)
  ∧ map (fun sa => metav1.Name (corev1.ObjectMeta sa)) (serviceAccounts (cluster (final run)))
    = ["kpack-service-account"]
  ∧ map (fun a => metav1.Name (v1alpha2.ObjectMeta a)) (anchors (cluster (final run)))
    = ["cf-org-a"; "cf-org-b"; "cf-org-x"; "cf-space-1"; "cf-space-2"; "cf-space-0000"].
Proof.
  intros env run.
  pose (message := {| CreateSpaceMessage.Name := "dev";
                      CreateSpaceMessage.OrganizationGUID := "cf-org-a";
                      CreateSpaceMessage.ImageRegistryCredentials := "registry-secret" |}).
  destruct (AnchorOrgs.GetOrg env Sample.repo "alice" "cf-org-a" Sample.world) as [o w0] eqn:Hget.
  destruct (createSubnamespaceAnchor env Sample.repo 1 "alice" (client.AsUser "alice")
              (spaceAnchor message "0000") SpaceResourceType
              (drawn (logged [anchorListRequest Sample.repo] Sample.world)))
    as [o2 w2] eqn:Hanchor.
  vm_compute in Hget. injection Hget as <- <-.
  vm_compute in Hanchor. injection Hanchor as <- <-.
  destruct (CreateSpace_leaves_partial_state env Sample.repo
              (AnchorOrgs.GetOrg env Sample.repo) 1 "alice" message Sample.world
              _ _ eq_refl eq_refl) as (_ & _ & Heirini).
  destruct (Heirini _ _ Sample.forbidden eq_refl eq_refl
              ltac:(by apply (bool_decide_unpack _)) eq_refl) as (Hres & Hsas & Hanchors & _).
  unfold run, AnchorOrgs.CreateSpace. fold message.
  rewrite Hres, Hsas, Hanchors. split_and!; reflexivity.
Defined.

(** ** CreateOrg of the CFOrg revision *)

Lemma CreateOrg_provision env r fuel info (org : CreateOrgMessage.t) w :
  buildClientFault env info = None →
  CFOrgs.CreateOrg env r fuel info org w
  = bind (onError (asValidationError env)
            (CFOrgs.createOrgCR env r fuel info (client.AsUser info)
               (orgResource r org (uuidAt env (uuids w)))))
         (fun orgCR =>
            ret {| OrgRecord.Name := CreateOrgMessage.Name org;
                   OrgRecord.GUID := metav1.Name (workloads.ObjectMeta orgCR);
                   OrgRecord.Suspended := CreateOrgMessage.Suspended org;
                   OrgRecord.Labels := CreateOrgMessage.Labels org;
                   OrgRecord.Annotations := CreateOrgMessage.Annotations org;
                   OrgRecord.CreatedAt := metav1.CreationTimestamp (workloads.ObjectMeta orgCR);
                   OrgRecord.UpdatedAt := metav1.CreationTimestamp (workloads.ObjectMeta orgCR) |})
         (drawn w).
Proof.
  intros Hbuild. unfold CFOrgs.CreateOrg.
  unfold bind at 1. unfold onError at 1. unfold k8s.BuildClient. rewrite Hbuild.
  unfold ret at 1. unfold bind at 1. unfold k8s.NewString at 1. done.
Qed.

(** X6: CreateOrg asks, as the caller, for a CFOrg named "cf-org-" followed
    by a fresh UUID in the root namespace, with the name of the message as
    display name. When the cluster accepts it, the watch shows it Ready and
    the caller's org namespaces come to hold its name, CreateOrg returns a
    record with the name, the suspended flag, the labels and the annotations
    of the message, and with the GUID and the creation time of the CFOrg the
    watch delivered; when provisioning fails, its error - as an
    unprocessable-entity error when the webhook helper recognizes it - is the
    result. *)
Theorem CreateOrg_provisions_and_reports
    env r (fuel k : nat) info (org : CreateOrgMessage.t) w :
  let requested := orgResource r org (uuidAt env (uuids w)) in
  buildClientFault env info = None →
  (∀ createdOrg (authorized : gmap string bool),
     cfOrgAccepted env (client.AsUser info) requested (drawn w) →
     CFOrgs.createOrgCR_watch
       (watchEvents env (cfOrgRequest client.Privileged client.Watch requested)) = Some createdOrg →
     (∀ j : nat, j < k →
        ∃ m, authorizedOrgNamespaces env info (clock w + 500 * Z.of_nat j) = inr m
             ∧ m !! (OrgPrefix +:+ uuidAt env (uuids w)) = None) →
     authorizedOrgNamespaces env info (clock w + 500 * Z.of_nat k) = inr authorized →
     is_Some (authorized !! (OrgPrefix +:+ uuidAt env (uuids w))) →
     (500 * Z.of_nat k < timeout r)%Z →
     CFOrgs.CreateOrg env r (S k + fuel) info org w
     = (Done {| OrgRecord.Name := CreateOrgMessage.Name org;
                OrgRecord.GUID := metav1.Name (workloads.ObjectMeta createdOrg);
                OrgRecord.Suspended := CreateOrgMessage.Suspended org;
                OrgRecord.Labels := CreateOrgMessage.Labels org;
                OrgRecord.Annotations := CreateOrgMessage.Annotations org;
                OrgRecord.CreatedAt := metav1.CreationTimestamp (workloads.ObjectMeta createdOrg);
                OrgRecord.UpdatedAt := metav1.CreationTimestamp (workloads.ObjectMeta createdOrg) |},
        slept (500 * Z.of_nat k) (cfOrgProvisioned (client.AsUser info) requested (drawn w))))
  ∧ (∀ err w2,
       CFOrgs.createOrgCR env r fuel info (client.AsUser info) requested (drawn w) = (Failed err, w2) →
       CFOrgs.CreateOrg env r fuel info org w = (Failed (asValidationError env err), w2)).
Proof.
  intros requested Hbuild. split.
  - intros createdOrg authorized Haccepted Hwatch Hbefore Hnow Hpresent Htime.
    rewrite (CreateOrg_provision env r _ info org w Hbuild). fold requested.
    unfold bind at 1. unfold onError at 1.
    rewrite (createOrgCR_run _ _ _ _ _ _ _ Haccepted), Hwatch.
    rewrite (outer_present_after env r info OrgResourceType _ (clock (drawn w)) k fuel
               (cfOrgProvisioned (client.AsUser info) requested (drawn w)) authorized); try done.
    cbn [cfOrgProvisioned clock drawn]. lia.
  - intros err w2 Hfail.
    rewrite (CreateOrg_provision env r _ info org w Hbuild). fold requested.
    unfold bind at 1. unfold onError at 1. by rewrite Hfail.
Qed.

Lemma CreateOrg_provisions_and_reports_witness :
  ∃ record w',
    CFOrgs.CreateOrg Sample.granted Sample.repo 1 "alice"
      {| CreateOrgMessage.Name := "acme"; CreateOrgMessage.Suspended := true;
         CreateOrgMessage.Labels := {[ "tier" := "gold" ]}; CreateOrgMessage.Annotations := ∅ |}
      Sample.world = (Done record, w')
    ∧ OrgRecord.Name record = "acme"
    ∧ OrgRecord.GUID record = "cf-org-0000"
    ∧ OrgRecord.Suspended record = true
    ∧ map (fun o => metav1.Name (workloads.ObjectMeta o)) (cfOrgs (cluster w'))
      = ["cf-org-a"; "cf-org-b"; "cf-org-x"; "cf-org-0000"].
Proof.
  pose (org := {| CreateOrgMessage.Name := "acme"; CreateOrgMessage.Suspended := true;
                  CreateOrgMessage.Labels := {[ "tier" := "gold" ]};
                  CreateOrgMessage.Annotations := ∅ |}).
  destruct (CreateOrg_provisions_and_reports Sample.granted Sample.repo 0 0 "alice" org
              Sample.world eq_refl) as [Hdone _].
  eexists _, _. split.
  - apply (Hdone (Sample.cfOrg "cf-org-0000" "acme" metav1.ConditionTrue)
                 {[ "cf-org-a" := true; "cf-org-0000" := true ]}).
    + split_and!; [reflexivity| |reflexivity]. by apply (bool_decide_unpack _).
    + reflexivity.
    + intros j Hj. lia.
    + reflexivity.
    + by eexists.
    + reflexivity.
  - split_and!; reflexivity.
Defined.

(** ** A client that cannot be built *)

(** X7: when the client factory refuses the caller, every operation that
    writes or reads as the caller fails with "failed to build user client: %w"
    around the factory's error and makes no call as the caller: CreateOrg,
    DeleteSpace, CreateServiceBinding, DeleteServiceBinding and
    ServiceBindingExists leave the world as it was (no UUID is drawn either);
    DeleteOrg has made its privileged fetch and ListServiceBindings its
    permission lookup, and CreateSpace, which builds the client after GetOrg,
    has drawn the UUID of the space, but none reaches the cluster again. *)
Theorem unbuildable_client_stops_the_call env r fuel info w (e : error) :
  buildClientFault env info = Some e →
  let failure := Errorf "failed to build user client: %w" [] (Some e) in
  (∀ org, CFOrgs.CreateOrg env r fuel info org w = (Failed failure, w))
  ∧ (∀ message, DeleteSpace env info message w = (Failed failure, w))
  ∧ (∀ message, ServiceBindingRepo.CreateServiceBinding env info message w = (Failed failure, w))
  ∧ (∀ guid, ServiceBindingRepo.DeleteServiceBinding env info guid w = (Failed failure, w))
  ∧ (∀ spaceGUID appGUID serviceInstanceGUID,
       ServiceBindingRepo.ServiceBindingExists env info spaceGUID appGUID serviceInstanceGUID w
       = (Failed failure, w))
  ∧ (∀ message nsList,
       authorizedSpaceNamespaces env info (clock w) = inr nsList →
       ServiceBindingRepo.ListServiceBindings env info message w = (Failed failure, w))
  ∧ (∀ message,
       apiFault env (hierarchyRequest (DeleteOrgMessage.GUID message)) = None →
       hasHierarchy (cluster w) (DeleteOrgMessage.GUID message) →
       DeleteOrg env r info message w
       = (Failed failure, logged [hierarchyRequest (DeleteOrgMessage.GUID message)] w))
  ∧ (∀ (GetOrg : authorization.Info → string → M OrgRecord.t) message record w0,
       GetOrg info (CreateSpaceMessage.OrganizationGUID message) w = (Done record, w0) →
       repositories.CreateSpace env r GetOrg fuel info message w = (Failed failure, drawn w0)).
Proof.
  intros Hbuild failure. unfold failure. split_and!.
  - intros org. unfold CFOrgs.CreateOrg. unfold bind at 1. unfold onError at 1.
    unfold k8s.BuildClient. by rewrite Hbuild.
  - intros message. unfold DeleteSpace. unfold bind at 1. unfold onError at 1.
    unfold k8s.BuildClient. by rewrite Hbuild.
  - intros message. unfold ServiceBindingRepo.CreateServiceBinding. unfold bind at 1.
    unfold onError at 1. unfold k8s.BuildClient. by rewrite Hbuild.
  - intros guid. unfold ServiceBindingRepo.DeleteServiceBinding. unfold bind at 1.
    unfold onError at 1. unfold k8s.BuildClient. by rewrite Hbuild.
  - intros spaceGUID appGUID serviceInstanceGUID.
    unfold ServiceBindingRepo.ServiceBindingExists. unfold bind at 1.
    unfold onError at 1. unfold k8s.BuildClient. by rewrite Hbuild.
  - intros message nsList Hauth. unfold ServiceBindingRepo.ListServiceBindings.
    unfold bind at 1. unfold onError at 1. unfold k8s.GetAuthorizedSpaceNamespaces.
    rewrite Hauth. cbn [liftResult]. unfold ret at 1.
    unfold bind at 1. unfold onError at 1. unfold k8s.BuildClient. by rewrite Hbuild.
  - intros message Hfault Hthere.
    destruct (GetHierarchyConfiguration_run env client.Privileged (DeleteOrgMessage.GUID message)
                hierarchyMetadataName w) as (o & Hget & Hcases).
    fold (hierarchyRequest (DeleteOrgMessage.GUID message)) in Hget, Hcases.
    destruct (Hcases Hfault) as [Hsome _]. destruct (Hsome Hthere) as [h ->].
    unfold DeleteOrg. unfold bind at 1. unfold onError at 1. rewrite Hget.
    unfold bind at 1. unfold onError at 1. unfold k8s.BuildClient. by rewrite Hbuild.
  - intros GetOrg message record w0 Hget. unfold repositories.CreateSpace.
    unfold bind at 1. unfold onError at 1. rewrite Hget.
    unfold bind at 1. unfold k8s.NewString at 1.
    unfold bind at 1. unfold onError at 1. unfold k8s.BuildClient. by rewrite Hbuild.
Qed.

Lemma unbuildable_client_stops_the_call_witness :
  DeleteSpace Sample.gated "mallory"
    {| DeleteSpaceMessage.GUID := "cf-space-1"; DeleteSpaceMessage.OrganizationGUID := "cf-org-a" |}
    Sample.world
  = (Failed (Errorf "failed to build user client: %w" [] (Some (OpaqueError "invalid token"))),
     Sample.world).
Proof.
  apply (unbuildable_client_stops_the_call Sample.gated Sample.repo 1 "mallory" Sample.world
           (OpaqueError "invalid token") eq_refl).
Defined.

(** ** More on ListOrgs and ListSpaces *)

(** X8: in the anchor revision a names filter with a value that is not a
    valid label value makes ListOrgs fail before it reaches the cluster: no
    call is made and the world is as it was. *)
Theorem ListOrgs_invalid_name_makes_no_call env r info (F : ListOrgsMessage.t) w :
  ListOrgsMessage.Names F ≠ [] →
  forallb (validLabelValue env) (ListOrgsMessage.Names F) = false →
  ∃ err, AnchorOrgs.ListOrgs env r info F w = (Failed err, w).
Proof.
  intros Hnames Hinvalid. unfold AnchorOrgs.ListOrgs.
  rewrite decide_True by (destruct (ListOrgsMessage.Names F); [done|simpl; lia]).
  unfold bind at 1. unfold bind at 1. unfold k8s.NewRequirement.
  rewrite decide_False by done. rewrite Hinvalid. by eexists.
Qed.

Lemma ListOrgs_invalid_name_makes_no_call_witness :
  ∃ err, AnchorOrgs.ListOrgs Sample.strict Sample.repo "alice"
           {| ListOrgsMessage.Names := ["acme"]; ListOrgsMessage.GUIDs := [] |} Sample.world
         = (Failed err, Sample.world).
Proof.
  apply (ListOrgs_invalid_name_makes_no_call Sample.strict Sample.repo "alice"
           {| ListOrgsMessage.Names := ["acme"]; ListOrgsMessage.GUIDs := [] |} Sample.world);
    [done|reflexivity].
Defined.

(** X9: in the anchor revision the names filter works on the org-name label,
    not on the name of the record. An anchor without that label - converged,
    under the root namespace and granted to the caller - is listed under the
    empty names filter, with the empty string as name; under a non-empty names
    filter every record comes from an anchor that carries the label, so that
    anchor is not listed, not even when the filter holds the empty string. *)
Theorem ListOrgs_names_filter_needs_the_label env r info (F : ListOrgsMessage.t) w :
  (∀ anchor (authorized : gmap string bool),
     ListOrgsMessage.Names F = [] →
     apiFault env (anchorListRequest r) = None →
     authorizedOrgNamespaces env info (clock w) = inr authorized →
     anchor ∈ anchors (cluster w) →
     metav1.Namespace (v1alpha2.ObjectMeta anchor) = rootNamespace r →
     v1alpha2.State (v1alpha2.Status anchor) = v1alpha2.Ok →
     metav1.Labels (v1alpha2.ObjectMeta anchor) !! OrgNameLabel = None →
     matchFilter (toMap (ListOrgsMessage.GUIDs F)) (metav1.Name (v1alpha2.ObjectMeta anchor)) = true →
     authorized !! metav1.Name (v1alpha2.ObjectMeta anchor) = Some true →
     ∃ record, record ∈ returned (result (AnchorOrgs.ListOrgs env r info F w))
               ∧ OrgRecord.GUID record = metav1.Name (v1alpha2.ObjectMeta anchor)
               ∧ OrgRecord.Name record = "")
  ∧ (ListOrgsMessage.Names F ≠ [] →
     ∀ record, record ∈ returned (result (AnchorOrgs.ListOrgs env r info F w)) →
     ∃ anchor, anchor ∈ anchors (cluster w)
       ∧ record = anchorToOrgRecord anchor
       ∧ metav1.Labels (v1alpha2.ObjectMeta anchor) !! OrgNameLabel = Some (OrgRecord.Name record)
       ∧ OrgRecord.Name record ∈ ListOrgsMessage.Names F).
Proof.
  split.
  - intros anchor authorized Hnames Hfault Hauth Hin Hns Hok Hnolabel Hguid Hgranted.
    rewrite (AnchorOrgs_ListOrgs_no_names env r info F w authorized Hnames Hfault Hauth).
    exists (anchorToOrgRecord anchor). split_and!.
    + apply elem_of_anchorOrgRecords. exists anchor. by split_and!.
    + done.
    + unfold anchorToOrgRecord, label. simpl. by rewrite Hnolabel.
  - intros Hnames record Hrec.
    destruct (result (AnchorOrgs.ListOrgs env r info F w)) as [l|e|] eqn:HF;
      simpl in Hrec; [|by apply elem_of_nil in Hrec..].
    apply AnchorOrgs_ListOrgs_inv in HF as (_ & authorized & _ & ->).
    apply elem_of_anchorOrgRecords in Hrec as (anchor & Hin & _ & Hsel & _ & _ & _ & ->).
    apply matchesSelector_names_iff in Hsel as [?|(value & Hlabel & Hvalue)]; [done|].
    exists anchor. split_and!; [done|done| |].
    + unfold anchorToOrgRecord, label. simpl. by rewrite Hlabel.
    + unfold anchorToOrgRecord, label. simpl. by rewrite Hlabel.
Qed.

Lemma ListOrgs_names_filter_needs_the_label_witness :
  let unlabelled := {| v1alpha2.ObjectMeta := Sample.objectMeta "cf" "cf-org-a" [];
                       v1alpha2.Status := {| v1alpha2.State := v1alpha2.Ok |} |} in
  let w := {| cluster := {| anchors := [unlabelled]; hierarchies := []; cfOrgs := [];
                            serviceAccounts := []; serviceBindings := [] |};
              clock := 0; uuids := 0; calls := [] |} in
  (∃ record, record ∈ returned (result (AnchorOrgs.ListOrgs Sample.env Sample.repo "alice" allOrgs w))
             ∧ OrgRecord.GUID record = "cf-org-a" ∧ OrgRecord.Name record = "")
  ∧ returned (result (AnchorOrgs.ListOrgs Sample.env Sample.repo "alice"
                        {| ListOrgsMessage.Names := [""]; ListOrgsMessage.GUIDs := [] |} w)) = [].
Proof.
  intros unlabelled w. split; [|reflexivity].
  apply (proj1 (ListOrgs_names_filter_needs_the_label Sample.env Sample.repo "alice" allOrgs w)
           unlabelled {[ "cf-org-a" := true; "cf-org-b" := true ]});
    try reflexivity.
  by left.
Defined.

Lemma fmap_omap_sublist {A B C} (f : A → option B) (h : B → C) (k : A → C) (l : list A) :
  (∀ x y, f x = Some y → h y = k x) → h <$> omap f l `sublist_of` k <$> l.
Proof.
  intros Hfk. induction l as [|x l IH]; [done|]. cbn [omap list_omap].
  destruct (f x) as [y|] eqn:Hfx; cbn [fmap list_fmap].
  - rewrite (Hfk x y Hfx). by apply sublist_skip.
  - by apply sublist_cons.
Qed.

Lemma records_in_order {A B C} (P : B → Prop) `{!∀ y, Decision (P y)}
    (Q : A → Prop) `{!∀ x, Decision (Q x)}
    (f : A → option B) (h : B → C) (k : A → C) (l : list A) :
  (∀ x y, f x = Some y → h y = k x) →
  h <$> filter P (omap f (filter Q l)) `sublist_of` k <$> l.
Proof.
  intros Hfk. transitivity (h <$> omap f (filter Q l)).
  { apply (fmap_sublist _), sublist_filter. }
  transitivity (k <$> filter Q l).
  { by apply fmap_omap_sublist. }
  apply (fmap_sublist _), sublist_filter.
Qed.

Lemma anchorOrgRecords_in_cluster_order r F selector authorized c :
  OrgRecord.GUID <$> anchorOrgRecords r F selector authorized c
  `sublist_of` (fun a => metav1.Name (v1alpha2.ObjectMeta a)) <$> anchors c.
Proof.
  unfold anchorOrgRecords. rewrite omap_guard_filter.
  apply records_in_order. intros anchor record Hsome.
  destruct (decide _); [done|]. destruct (matchFilter _ _); simpl in Hsome; [|done].
  by injection Hsome as <-.
Qed.

Lemma cfOrgRecords_in_cluster_order r F authorized c :
  OrgRecord.GUID <$> cfOrgRecords r F authorized c
  `sublist_of` (fun o => metav1.Name (workloads.ObjectMeta o)) <$> cfOrgs c.
Proof.
  unfold cfOrgRecords. rewrite omap_guard_filter.
  apply records_in_order. intros cfOrg record Hsome.
  destruct (meta.IsStatusConditionTrue _ _); simpl in Hsome; [|done].
  destruct (matchesFilter _ _ && matchesFilter _ _); [|done].
  by injection Hsome as <-.
Qed.

Lemma spaceRecords_in_cluster_order r message authorized c :
  SpaceRecord.GUID <$> spaceRecords r message authorized c
  `sublist_of` (fun a => metav1.Name (v1alpha2.ObjectMeta a)) <$> anchors c.
Proof.
  unfold spaceRecords. rewrite omap_guard_filter.
  apply records_in_order. intros anchor record Hsome.
  destruct (decide _); [done|].
  destruct (matchFilter _ _); simpl in Hsome; [|done].
  destruct (matchFilter _ _); simpl in Hsome; [|done].
  destruct (bool_decide _); simpl in Hsome; [|done].
  by injection Hsome as <-.
Qed.

(** X10: the list operations answer in the order of the cluster's list and
    with at most one record per listed resource: the GUIDs of the records of
    ListOrgs are a subsequence of the names of the cluster's anchors
    (respectively CFOrgs), and those of ListSpaces a subsequence of the names
    of its anchors; in particular no GUID is returned twice when no two listed
    resources share a name. *)
Theorem listings_follow_cluster_order env r info
    (F : ListOrgsMessage.t) (message : ListSpacesMessage.t) w :
  (OrgRecord.GUID <$> returned (result (AnchorOrgs.ListOrgs env r info F w))
     `sublist_of` (fun a => metav1.Name (v1alpha2.ObjectMeta a)) <$> anchors (cluster w))
  ∧ (OrgRecord.GUID <$> returned (result (CFOrgs.ListOrgs env r info F w))
       `sublist_of` (fun o => metav1.Name (workloads.ObjectMeta o)) <$> cfOrgs (cluster w))
  ∧ (SpaceRecord.GUID <$> returned (result (ListSpaces env r info message w))
       `sublist_of` (fun a => metav1.Name (v1alpha2.ObjectMeta a)) <$> anchors (cluster w))
  ∧ (NoDup ((fun a => metav1.Name (v1alpha2.ObjectMeta a)) <$> anchors (cluster w)) →
     NoDup (OrgRecord.GUID <$> returned (result (AnchorOrgs.ListOrgs env r info F w)))
     ∧ NoDup (SpaceRecord.GUID <$> returned (result (ListSpaces env r info message w))))
  ∧ (NoDup ((fun o => metav1.Name (workloads.ObjectMeta o)) <$> cfOrgs (cluster w)) →
     NoDup (OrgRecord.GUID <$> returned (result (CFOrgs.ListOrgs env r info F w)))).
Proof.
  assert (OrgRecord.GUID <$> returned (result (AnchorOrgs.ListOrgs env r info F w))
          `sublist_of` (fun a => metav1.Name (v1alpha2.ObjectMeta a)) <$> anchors (cluster w)) as HA.
  { destruct (result (AnchorOrgs.ListOrgs env r info F w)) as [l|e|] eqn:HF;
      simpl; [|apply sublist_nil_l..].
    apply AnchorOrgs_ListOrgs_inv in HF as (_ & authorized & _ & ->).
    apply anchorOrgRecords_in_cluster_order. }
  assert (OrgRecord.GUID <$> returned (result (CFOrgs.ListOrgs env r info F w))
          `sublist_of` (fun o => metav1.Name (workloads.ObjectMeta o)) <$> cfOrgs (cluster w)) as HC.
  { rewrite CFOrgs_ListOrgs_result. destruct (apiFault env _); [apply sublist_nil_l|].
    destruct (authorizedOrgNamespaces env info (clock w)); [apply sublist_nil_l|].
    apply cfOrgRecords_in_cluster_order. }
  assert (SpaceRecord.GUID <$> returned (result (ListSpaces env r info message w))
          `sublist_of` (fun a => metav1.Name (v1alpha2.ObjectMeta a)) <$> anchors (cluster w)) as HS.
  { rewrite ListSpaces_run, result_pair. destruct (apiFault env _); [apply sublist_nil_l|].
    destruct (authorizedSpaceNamespaces env info (clock w)); [apply sublist_nil_l|].
    apply spaceRecords_in_cluster_order. }
  split_and!; [done|done|done| |].
  - intros Hnodup. split; eapply sublist_NoDup; done.
  - intros Hnodup. eapply sublist_NoDup; done.
Qed.

Lemma listings_follow_cluster_order_witness :
  NoDup (SpaceRecord.GUID <$> returned (result (ListSpaces Sample.env Sample.repo "alice" allSpaces Sample.world))).
Proof.
  apply (listings_follow_cluster_order Sample.env Sample.repo "alice" allOrgs allSpaces Sample.world).
  apply (bool_decide_unpack _). vm_compute. done.
Defined.

(** ** GetSpace, and the filters as sets *)

Lemma matchFilter_single (g v : string) : matchFilter (toMap [g]) v = true ↔ v = g.
Proof.
  rewrite matchFilter_toMap. split.
  - intros [?|Hin]; [done|]. by apply list_elem_of_singleton in Hin.
  - intros ->. right. by apply list_elem_of_singleton.
Qed.

Lemma matchFilter_none (v : string) : matchFilter (toMap []) v = true.
Proof. apply matchFilter_toMap. by left. Qed.

Lemma elem_of_spaceRecords_guid r authorized c spaceGUID record :
  record ∈ spaceRecords r {| ListSpacesMessage.Names := [];
                             ListSpacesMessage.GUIDs := [spaceGUID];
                             ListSpacesMessage.OrganizationGUIDs := [] |} authorized c ↔
  ∃ space org, space ∈ anchors c ∧ org ∈ anchors c
    ∧ metav1.Name (v1alpha2.ObjectMeta space) = spaceGUID
    ∧ v1alpha2.State (v1alpha2.Status space) = v1alpha2.Ok
    ∧ metav1.Namespace (v1alpha2.ObjectMeta org) = rootNamespace r
    ∧ metav1.Name (v1alpha2.ObjectMeta org) = metav1.Namespace (v1alpha2.ObjectMeta space)
    ∧ authorized !! spaceGUID = Some true
    ∧ record = anchorToSpaceRecord space.
Proof.
  rewrite elem_of_spaceRecords. cbn [ListSpacesMessage.Names ListSpacesMessage.GUIDs]. split.
  - intros (space & Hin & Hok & _ & Hguid & Horg & Hauth & ->).
    apply matchFilter_single in Hguid.
    apply elem_of_orgUIDsOf in Horg as (org & Horgin & Hroot & Hname & _).
    exists space, org. rewrite <- Hguid. by split_and!.
  - intros (space & org & Hin & Horgin & Hguid & Hok & Hroot & Hname & Hauth & ->).
    exists space. split_and!; [done|done|apply matchFilter_none|by apply matchFilter_single| |by rewrite Hguid|done].
    apply elem_of_orgUIDsOf. exists org. split_and!; [done|done|done|apply matchFilter_none].
Qed.

(** X11: GetSpace finds a space exactly when the caller can see it: some
    anchor of that name is in state Ok, lies in a namespace that is the name of
    an anchor under the root namespace, and the GUID maps to true in the
    caller's authorized space namespaces. Then the record of such an anchor is
    returned; otherwise the answer is a not-found error for the resource type
    Space that carries the cause "space %q not found" with the GUID. *)
Theorem GetSpace_found_iff_visible env r info spaceGUID w (authorized : gmap string bool) :
  apiFault env allAnchorsRequest = None →
  authorizedSpaceNamespaces env info (clock w) = inr authorized →
  (visibleSpace r (cluster w) authorized spaceGUID →
   ∃ space, space ∈ anchors (cluster w)
     ∧ v1alpha2.State (v1alpha2.Status space) = v1alpha2.Ok
     ∧ metav1.Name (v1alpha2.ObjectMeta space) = spaceGUID
     ∧ result (GetSpace env r info spaceGUID w) = Done (anchorToSpaceRecord space))
  ∧ (¬ visibleSpace r (cluster w) authorized spaceGUID →
     result (GetSpace env r info spaceGUID w)
     = Failed (NotFoundError (Some (Errorf "space %q not found" [ArgString spaceGUID] None))
                             SpaceResourceType)).
Proof.
  intros Hfault Hauth.
  rewrite GetSpace_result, ListSpaces_run, result_pair, Hfault, Hauth.
  destruct (spaceRecords r _ authorized (cluster w)) as [|record rest] eqn:Hrecords.
  - split; [|done]. intros (space & org & Hin & Horgin & Hguid & Hok & Hroot & Hname & Hgranted).
    assert (anchorToSpaceRecord space ∈ @nil SpaceRecord.t) as Habsurd.
    { rewrite <- Hrecords. apply elem_of_spaceRecords_guid. exists space, org. by split_and!. }
    by apply elem_of_nil in Habsurd.
  - assert (record ∈ spaceRecords r {| ListSpacesMessage.Names := [];
                                       ListSpacesMessage.GUIDs := [spaceGUID];
                                       ListSpacesMessage.OrganizationGUIDs := [] |}
                        authorized (cluster w)) as Hrecord.
    { rewrite Hrecords. by left. }
    apply elem_of_spaceRecords_guid in Hrecord
      as (space & org & Hin & Horgin & Hguid & Hok & Hroot & Hname & Hgranted & ->).
    split.
    + intros _. exists space. by split_and!.
    + intros Hnot. exfalso. apply Hnot. exists space, org. by split_and!.
Qed.

Lemma GetSpace_found_iff_visible_witness :
  (∃ space, space ∈ anchors (cluster Sample.world)
     ∧ v1alpha2.State (v1alpha2.Status space) = v1alpha2.Ok
     ∧ metav1.Name (v1alpha2.ObjectMeta space) = "cf-space-1"
     ∧ result (GetSpace Sample.env Sample.repo "alice" "cf-space-1" Sample.world)
       = Done (anchorToSpaceRecord space)).
Proof.
  apply (GetSpace_found_iff_visible Sample.env Sample.repo "alice" "cf-space-1" Sample.world
           {[ "cf-space-1" := true; "cf-space-2" := true ]}); [reflexivity|reflexivity|].
  exists (Sample.anchor "cf-org-a" "cf-space-1" SpaceNameLabel "dev" v1alpha2.Ok),
         (Sample.anchor "cf" "cf-org-a" OrgNameLabel "acme" v1alpha2.Ok).
  split_and!; first [reflexivity | repeat constructor].
Defined.





Lemma filter_pointwise {A} (P Q : A → Prop)
    `{!∀ x, Decision (P x)} `{!∀ x, Decision (Q x)} (l : list A) :
  (∀ x, P x ↔ Q x) → filter P l = filter Q l.
Proof.
  intros HPQ. induction l as [|x l IH]; [done|].
  rewrite !filter_cons, IH. destruct (decide (P x)) as [HP|HP].
  - by rewrite decide_True by (by apply HPQ).
  - by rewrite decide_False by (by rewrite <- HPQ).
Qed.




Lemma AnchorOrgs_ListOrgs_names_run env r info F w :
  ListOrgsMessage.Names F ≠ [] →
  AnchorOrgs.ListOrgs env r info F w =
  if forallb (validLabelValue env) (ListOrgsMessage.Names F)
  then (match apiFault env (anchorListRequest r) with
        | Some e => Failed (apierrors.FromK8sError (StatusErr e) OrgResourceType)
        | None =>
            match authorizedOrgNamespaces env info (clock w) with
            | inl e => Failed e
            | inr authorized => Done (anchorOrgRecords r F (namesSelector F) authorized (cluster w))
            end
        end,
        final (logCall (anchorListRequest r) w))
  else (Failed (OpaqueError "invalid label value"), w).
Proof.
  intros Hnames.
  unfold AnchorOrgs.ListOrgs, anchorOrgRecords, namesSelector, anchorListRequest.
  unfold bind, onError, k8s.ListAnchors, k8s.request, k8s.NewRequirement,
    k8s.GetAuthorizedOrgNamespaces, bind, logCall, ret, throw, getWorld, liftResult, final.
  destruct (decide (0 < length (ListOrgsMessage.Names F))) as [Hlen|Hlen]; simpl.
  - destruct (decide (ListOrgsMessage.Names F = [])) as [Hnil|Hnil]; simpl; [done|].
    destruct (forallb (validLabelValue env) (ListOrgsMessage.Names F)); simpl; [|done].
    destruct (apiFault env _); simpl; [done|].
    by destruct (authorizedOrgNamespaces env info (clock w)).
  - destruct (ListOrgsMessage.Names F); [done|simpl in Hlen; lia].
Qed.




(** ** Service bindings: create and delete *)

Lemma k8s_CreateServiceBinding_run env who (b : servicesv1alpha1.CFServiceBinding) w :
  let m := servicesv1alpha1.ObjectMeta b in
  let req := k8s.objectRequest who client.Create client.CFServiceBinding
               (metav1.Namespace m) (metav1.Name m) in
  k8s.CreateServiceBinding env who b w =
  match apiFault env req with
  | Some e => (Failed (StatusErr e), logged [req] w)
  | None =>
      if decide (hasBinding (cluster w) (metav1.Namespace m) (metav1.Name m))
      then (Failed k8s.alreadyExists, logged [req] w)
      else (Done {| servicesv1alpha1.ObjectMeta := k8s.stamp m (clock w);
                    servicesv1alpha1.Spec := servicesv1alpha1.Spec b |},
            {| cluster :=
                 {| anchors := anchors (cluster w); hierarchies := hierarchies (cluster w);
                    cfOrgs := cfOrgs (cluster w); serviceAccounts := serviceAccounts (cluster w);
                    serviceBindings :=
                      serviceBindings (cluster w)
                      ++ [ {| servicesv1alpha1.ObjectMeta := k8s.stamp m (clock w);
                              servicesv1alpha1.Spec := servicesv1alpha1.Spec b |} ] |};
               clock := clock w; uuids := uuids w; calls := calls w ++ [req] |})
  end.
Proof.
  intros m req. unfold k8s.CreateServiceBinding, k8s.request, hasBinding.
  unfold bind, logCall, getWorld, setCluster, ret, throw, logged. fold m. fold req.
  destruct (apiFault env req); [done|]. cbn [cluster clock uuids calls].
  by destruct (decide _).
Qed.

Lemma CreateServiceBinding_run env authInfo (message : CreateServiceBindingMessage.t) w :
  let guid := uuidAt env (uuids w) in
  let space := CreateServiceBindingMessage.SpaceGUID message in
  ServiceBindingRepo.CreateServiceBinding env authInfo message w =
  match buildClientFault env authInfo with
  | Some e => (Failed (Errorf "failed to build user client: %w" [] (Some e)), w)
  | None =>
      match apiFault env (bindingRequest authInfo client.Create space guid) with
      | Some e => (Failed (apierrors.FromK8sError (StatusErr e) ServiceBindingRepo.ServiceBindingResourceType),
                   logged [bindingRequest authInfo client.Create space guid] (drawn w))
      | None =>
          if decide (hasBinding (cluster w) space guid)
          then (Failed (apierrors.FromK8sError k8s.alreadyExists ServiceBindingRepo.ServiceBindingResourceType),
                logged [bindingRequest authInfo client.Create space guid] (drawn w))
          else (Done (ServiceBindingRepo.cfServiceBindingToRecord env
                        (storedBinding message guid (clock w))),
                bindingCreated env authInfo message w)
      end
  end.
Proof.
  intros guid space. unfold ServiceBindingRepo.CreateServiceBinding.
  unfold bind at 1. unfold onError at 1, k8s.BuildClient.
  destruct (buildClientFault env authInfo); [done|]. unfold ret at 1.
  unfold bind at 1. unfold ServiceBindingRepo.toCFServiceBinding. unfold bind at 1.
  unfold k8s.NewString at 1. unfold ret at 1.
  unfold bind at 1. unfold onError at 1.
  rewrite k8s_CreateServiceBinding_run. cbn [servicesv1alpha1.ObjectMeta metav1.Namespace metav1.Name].
  fold guid. fold space. unfold bindingRequest.
  destruct (apiFault env _); [done|]. cbn [cluster clock uuids calls].
  destruct (decide _); [done|]. done.
Qed.

(** X13: CreateServiceBinding makes one call, the create, as the caller: of a
    binding named by a fresh UUID in the space of the message, labelled as a
    provisioned service, between the app and the service instance of the
    message. When the cluster accepts it, the record returned is that of the
    binding as the server stored it, created at the time of the call; when
    the cluster refuses it, or holds a binding of that name in that space
    already, the error is passed through FromK8sError and nothing is
    stored. *)
Theorem CreateServiceBinding_stores_and_reports
    env authInfo (message : CreateServiceBindingMessage.t) w :
  let guid := uuidAt env (uuids w) in
  let space := CreateServiceBindingMessage.SpaceGUID message in
  let create := bindingRequest authInfo client.Create space guid in
  buildClientFault env authInfo = None →
  (apiFault env create = None → ¬ hasBinding (cluster w) space guid →
   ServiceBindingRepo.CreateServiceBinding env authInfo message w
   = (Done {| ServiceBindingRecord.GUID := guid;
              ServiceBindingRecord.Type_ := "app";
              ServiceBindingRecord.Name := CreateServiceBindingMessage.Name message;
              ServiceBindingRecord.AppGUID := CreateServiceBindingMessage.AppGUID message;
              ServiceBindingRecord.ServiceInstanceGUID :=
                CreateServiceBindingMessage.ServiceInstanceGUID message;
              ServiceBindingRecord.SpaceGUID := space;
              ServiceBindingRecord.CreatedAt := formatTimestamp env (clock w);
              ServiceBindingRecord.UpdatedAt :=
                getTimeLastUpdatedTimestamp env
                  (servicesv1alpha1.ObjectMeta (storedBinding message guid (clock w)));
              ServiceBindingRecord.LastOperation :=
                {| ServiceBindingLastOperation.Type_ := "create";
                   ServiceBindingLastOperation.State := "succeeded";
                   ServiceBindingLastOperation.Description := None;
                   ServiceBindingLastOperation.CreatedAt := formatTimestamp env (clock w);
                   ServiceBindingLastOperation.UpdatedAt :=
                     getTimeLastUpdatedTimestamp env
                       (servicesv1alpha1.ObjectMeta (storedBinding message guid (clock w))) |} |},
      bindingCreated env authInfo message w))
  ∧ (∀ e, apiFault env create = Some e →
       ServiceBindingRepo.CreateServiceBinding env authInfo message w
       = (Failed (apierrors.FromK8sError (StatusErr e) ServiceBindingRepo.ServiceBindingResourceType),
          logged [create] (drawn w)))
  ∧ (apiFault env create = None → hasBinding (cluster w) space guid →
     ServiceBindingRepo.CreateServiceBinding env authInfo message w
     = (Failed (apierrors.FromK8sError k8s.alreadyExists ServiceBindingRepo.ServiceBindingResourceType),
        logged [create] (drawn w))).
Proof.
  intros guid space create Hbuild. rewrite CreateServiceBinding_run, Hbuild.
  fold guid. fold space. fold create. split_and!.
  - intros -> Hfresh. by rewrite decide_False by done.
  - by intros e ->.
  - intros -> Hthere. by rewrite decide_True by done.
Qed.

Lemma CreateServiceBinding_stores_and_reports_witness :
  ∃ record,
    ServiceBindingRepo.CreateServiceBinding Sample.env "alice"
      {| CreateServiceBindingMessage.Name := None;
         CreateServiceBindingMessage.ServiceInstanceGUID := "instance-1";
         CreateServiceBindingMessage.AppGUID := "app-2";
         CreateServiceBindingMessage.SpaceGUID := "cf-space-1" |} Sample.world
    = (Done record,
       bindingCreated Sample.env "alice"
         {| CreateServiceBindingMessage.Name := None;
            CreateServiceBindingMessage.ServiceInstanceGUID := "instance-1";
            CreateServiceBindingMessage.AppGUID := "app-2";
            CreateServiceBindingMessage.SpaceGUID := "cf-space-1" |} Sample.world)
    ∧ ServiceBindingRecord.GUID record = "0000"
    ∧ ServiceBindingRecord.SpaceGUID record = "cf-space-1".
Proof.
  eexists. split.
  - apply (CreateServiceBinding_stores_and_reports Sample.env "alice"
             {| CreateServiceBindingMessage.Name := None;
                CreateServiceBindingMessage.ServiceInstanceGUID := "instance-1";
                CreateServiceBindingMessage.AppGUID := "app-2";
                CreateServiceBindingMessage.SpaceGUID := "cf-space-1" |} Sample.world);
      [reflexivity|reflexivity|].
    apply (bool_decide_unpack _). vm_compute. done.
  - split; reflexivity.
Defined.

Lemma ServiceBindingExists_run env authInfo (spaceGUID appGUID serviceInstanceGUID : string) w :
  buildClientFault env authInfo = None →
  apiFault env (bindingListRequest authInfo spaceGUID) = None →
  ServiceBindingRepo.ServiceBindingExists env authInfo spaceGUID appGUID serviceInstanceGUID w
  = (Done (existsb (fun serviceBinding =>
             bool_decide (servicesv1alpha1.AppRef (servicesv1alpha1.Spec serviceBinding) = appGUID)
             && bool_decide (servicesv1alpha1.Service (servicesv1alpha1.Spec serviceBinding)
                             = serviceInstanceGUID))
             (bindingsIn (cluster w) spaceGUID)),
     logged [bindingListRequest authInfo spaceGUID] w).
Proof.
  intros Hbuild Hlist. unfold bindingListRequest in Hlist.
  unfold ServiceBindingRepo.ServiceBindingExists, k8s.BuildClient. rewrite Hbuild.
  unfold bind at 1. unfold onError at 1, ret at 1.
  unfold bind at 1. unfold onError at 1.
  by rewrite k8s_ListServiceBindings_run, Hlist.
Qed.

Lemma existsb_binds (c : Cluster) (spaceGUID appGUID serviceInstanceGUID : string) :
  existsb (fun serviceBinding =>
             bool_decide (servicesv1alpha1.AppRef (servicesv1alpha1.Spec serviceBinding) = appGUID)
             && bool_decide (servicesv1alpha1.Service (servicesv1alpha1.Spec serviceBinding)
                             = serviceInstanceGUID))
          (bindingsIn c spaceGUID) = true
  ↔ ∃ binding, binding ∈ serviceBindings c ∧ binds spaceGUID appGUID serviceInstanceGUID binding.
Proof.
  rewrite existsb_exists. unfold bindingsIn, binds. split.
  - intros (binding & Hin & Hboth).
    apply list_elem_of_In, list_elem_of_filter in Hin as [Hns Hin].
    apply andb_true_iff in Hboth as [Happ Hsvc].
    apply bool_decide_eq_true in Happ, Hsvc. by exists binding.
  - intros (binding & Hin & Hns & Happ & Hsvc). exists binding. split.
    + apply list_elem_of_In, list_elem_of_filter. by split.
    + apply andb_true_iff. by rewrite !bool_decide_eq_true.
Qed.

Lemma CreateServiceBinding_inv env authInfo (message : CreateServiceBindingMessage.t) w record w' :
  ServiceBindingRepo.CreateServiceBinding env authInfo message w = (Done record, w') →
  buildClientFault env authInfo = None
  ∧ ¬ hasBinding (cluster w) (CreateServiceBindingMessage.SpaceGUID message) (uuidAt env (uuids w))
  ∧ record = ServiceBindingRepo.cfServiceBindingToRecord env
               (storedBinding message (uuidAt env (uuids w)) (clock w))
  ∧ w' = bindingCreated env authInfo message w.
Proof.
  rewrite CreateServiceBinding_run.
  destruct (buildClientFault env authInfo); [done|].
  destruct (apiFault env _); [done|]. destruct (decide _) as [|Hfresh]; [done|].
  by intros [= <- <-].
Qed.

(** X14: CreateServiceBinding does not look for a binding of the same app to
    the same service instance: a call that succeeds has made the create call
    and no other, and has added one binding between that app and that
    instance to those the space held - however many there were. After it
    ServiceBindingExists answers true for the space, the app and the
    instance. *)
Theorem CreateServiceBinding_checks_no_duplicate
    env authInfo (message : CreateServiceBindingMessage.t) w record w' :
  let space := CreateServiceBindingMessage.SpaceGUID message in
  let app := CreateServiceBindingMessage.AppGUID message in
  let instance := CreateServiceBindingMessage.ServiceInstanceGUID message in
  ServiceBindingRepo.CreateServiceBinding env authInfo message w = (Done record, w') →
  calls w' = calls w ++ [bindingRequest authInfo client.Create space (ServiceBindingRecord.GUID record)]
  ∧ length (filter (binds space app instance) (serviceBindings (cluster w')))
    = S (length (filter (binds space app instance) (serviceBindings (cluster w))))
  ∧ (apiFault env (bindingListRequest authInfo space) = None →
     result (ServiceBindingRepo.ServiceBindingExists env authInfo space app instance w') = Done true).
Proof.
  intros space app instance Hrun.
  apply CreateServiceBinding_inv in Hrun as (Hbuild & Hfresh & -> & ->). split_and!.
  - done.
  - cbn [bindingCreated cluster serviceBindings]. rewrite filter_app, length_app.
    rewrite filter_cons, decide_True by done. simpl. lia.
  - intros Hlist. rewrite ServiceBindingExists_run, result_pair by done. f_equal.
    apply existsb_binds. exists (storedBinding message (uuidAt env (uuids w)) (clock w)).
    split; [|done]. cbn [bindingCreated cluster serviceBindings].
    apply elem_of_app. right. by left.
Qed.

(** In the sample world "app-1" is bound to "instance-1" in "cf-space-1"
    already; a second binding of the two is created all the same. *)
Lemma CreateServiceBinding_checks_no_duplicate_witness :
  let message := {| CreateServiceBindingMessage.Name := None;
                    CreateServiceBindingMessage.ServiceInstanceGUID := "instance-1";
                    CreateServiceBindingMessage.AppGUID := "app-1";
                    CreateServiceBindingMessage.SpaceGUID := "cf-space-1" |} in
  length (filter (binds "cf-space-1" "app-1" "instance-1")
            (serviceBindings (cluster (bindingCreated Sample.env "alice" message Sample.world))))
  = 2.
Proof.
  intros message.
  apply (CreateServiceBinding_checks_no_duplicate Sample.env "alice" message Sample.world
           (ServiceBindingRepo.cfServiceBindingToRecord Sample.env
              (storedBinding message "0000" 0))
           (bindingCreated Sample.env "alice" message Sample.world)).
  reflexivity.
Defined.

(** ** Service bindings: delete, and the round trip *)

Lemma GetServiceBinding_found env who ns guid w :
  apiFault env (k8s.objectRequest who client.Get client.CFServiceBinding ns guid) = None →
  hasBinding (cluster w) ns guid →
  ∃ binding,
    k8s.GetServiceBinding env who ns guid w
    = (Done binding, logged [k8s.objectRequest who client.Get client.CFServiceBinding ns guid] w)
    ∧ binding ∈ serviceBindings (cluster w)
    ∧ k8s.named ns guid (servicesv1alpha1.ObjectMeta binding).
Proof.
  intros Hfault Hthere. unfold k8s.GetServiceBinding, k8s.request.
  unfold bind, logCall, getWorld, ret, throw, logged. rewrite Hfault. cbn [cluster].
  destruct (filter _ (serviceBindings (cluster w))) as [|binding rest] eqn:Hfilter.
  - exfalso. apply Exists_exists in Hthere as (binding & Hin & Hnamed).
    assert (binding ∈ @nil servicesv1alpha1.CFServiceBinding) as Habsurd.
    { rewrite <- Hfilter. apply list_elem_of_filter. by split. }
    by apply elem_of_nil in Habsurd.
  - exists binding. split; [done|].
    assert (binding ∈ filter (fun b => k8s.named ns guid (servicesv1alpha1.ObjectMeta b))
                        (serviceBindings (cluster w))) as Hin.
    { rewrite Hfilter. by left. }
    apply list_elem_of_filter in Hin as [Hnamed Hin]. by split.
Qed.

Lemma GetServiceBinding_absent env who ns guid w :
  apiFault env (k8s.objectRequest who client.Get client.CFServiceBinding ns guid) = None →
  ¬ hasBinding (cluster w) ns guid →
  k8s.GetServiceBinding env who ns guid w
  = (Failed k8s.notFound, logged [k8s.objectRequest who client.Get client.CFServiceBinding ns guid] w).
Proof.
  intros Hfault Habsent. unfold k8s.GetServiceBinding, k8s.request.
  unfold bind, logCall, getWorld, ret, throw, logged. rewrite Hfault. cbn [cluster].
  destruct (filter _ (serviceBindings (cluster w))) as [|binding rest] eqn:Hfilter; [done|].
  exfalso. apply Habsent.
  assert (binding ∈ filter (fun b => k8s.named ns guid (servicesv1alpha1.ObjectMeta b))
                      (serviceBindings (cluster w))) as Hin.
  { rewrite Hfilter. by left. }
  apply list_elem_of_filter in Hin as [Hnamed Hin].
  apply Exists_exists. by exists binding.
Qed.

Lemma k8s_DeleteServiceBinding_run env who ns name w :
  let req := k8s.objectRequest who client.Delete client.CFServiceBinding ns name in
  k8s.DeleteServiceBinding env who ns name w =
  match apiFault env req with
  | Some e => (Failed (StatusErr e), logged [req] w)
  | None =>
      if decide (hasBinding (cluster w) ns name)
      then (Done tt,
            {| cluster :=
                 {| anchors := anchors (cluster w); hierarchies := hierarchies (cluster w);
                    cfOrgs := cfOrgs (cluster w); serviceAccounts := serviceAccounts (cluster w);
                    serviceBindings :=
                      filter (fun x => ¬ k8s.named ns name (servicesv1alpha1.ObjectMeta x))
                             (serviceBindings (cluster w)) |};
               clock := clock w; uuids := uuids w; calls := calls w ++ [req] |})
      else (Failed k8s.notFound, logged [req] w)
  end.
Proof.
  intros req. unfold k8s.DeleteServiceBinding, k8s.request, hasBinding.
  unfold bind, logCall, getWorld, setCluster, ret, throw, logged. fold req.
  destruct (apiFault env req); [done|]. cbn [cluster clock uuids calls].
  by destruct (decide _).
Qed.

Lemma DeleteServiceBinding_steps env authInfo guid w (ns : string) :
  buildClientFault env authInfo = None →
  namespaceFor env guid ServiceBindingRepo.ServiceBindingResourceType = inr ns →
  ServiceBindingRepo.DeleteServiceBinding env authInfo guid w
  = bind (onError (fun err => apierrors.ForbiddenAsNotFound
                                (apierrors.FromK8sError err ServiceBindingRepo.ServiceBindingResourceType))
                  (k8s.GetServiceBinding env (client.AsUser authInfo) ns guid))
         (fun binding =>
            onError (fun err => apierrors.FromK8sError err ServiceBindingRepo.ServiceBindingResourceType)
                    (k8s.DeleteServiceBinding env (client.AsUser authInfo)
                       (metav1.Namespace (servicesv1alpha1.ObjectMeta binding))
                       (metav1.Name (servicesv1alpha1.ObjectMeta binding))))
         w.
Proof.
  intros Hbuild Hns.
  unfold ServiceBindingRepo.DeleteServiceBinding, k8s.BuildClient, k8s.NamespaceFor.
  rewrite Hbuild, Hns. unfold bind at 1. unfold onError at 1, ret at 1.
  unfold bind at 1. unfold liftResult, ret at 1. done.
Qed.

Lemma DeleteServiceBinding_run_ok env authInfo guid w (ns : string) :
  buildClientFault env authInfo = None →
  namespaceFor env guid ServiceBindingRepo.ServiceBindingResourceType = inr ns →
  apiFault env (bindingRequest authInfo client.Get ns guid) = None →
  hasBinding (cluster w) ns guid →
  ServiceBindingRepo.DeleteServiceBinding env authInfo guid w
  = match apiFault env (bindingRequest authInfo client.Delete ns guid) with
    | Some e => (Failed (apierrors.FromK8sError (StatusErr e) ServiceBindingRepo.ServiceBindingResourceType),
                 logged [bindingRequest authInfo client.Get ns guid;
                         bindingRequest authInfo client.Delete ns guid] w)
    | None => (Done tt, bindingDeleted authInfo ns guid w)
    end.
Proof.
  intros Hbuild Hns Hget Hthere.
  destruct (GetServiceBinding_found env (client.AsUser authInfo) ns guid w Hget Hthere)
    as (binding & Hfetch & Hin & Hnsb & Hnameb).
  rewrite (DeleteServiceBinding_steps env authInfo guid w ns Hbuild Hns).
  unfold bind at 1. unfold onError at 1. rewrite Hfetch, Hnsb, Hnameb.
  unfold onError. rewrite k8s_DeleteServiceBinding_run.
  fold (bindingRequest authInfo client.Delete ns guid).
  destruct (apiFault env (bindingRequest authInfo client.Delete ns guid)).
  - unfold logged. cbn [cluster clock uuids calls]. by rewrite <- app_assoc.
  - rewrite decide_True by done. unfold bindingDeleted, logged.
    cbn [cluster clock uuids calls]. by rewrite <- app_assoc.
Qed.

Lemma bindingDeleted_gone authInfo ns guid w :
  ¬ hasBinding (cluster (bindingDeleted authInfo ns guid w)) ns guid.
Proof.
  unfold hasBinding, bindingDeleted. cbn [cluster serviceBindings].
  rewrite Exists_exists. intros (x & Hx & Hnamed).
  apply list_elem_of_filter in Hx as [Hnot _]. done.
Qed.

(** X15: DeleteServiceBinding, with the client built: when the namespace
    retriever fails, its error is returned as it is and no call is made. When
    it resolves the GUID and the binding is fetched, the delete of that
    binding follows: accepted, the binding is gone from its namespace and
    nothing else changed; refused, the error is passed through FromK8sError
    only, so a forbidden delete is reported as Forbidden - unlike a forbidden
    fetch - and the cluster is as it was. *)
Theorem DeleteServiceBinding_fetches_then_deletes env authInfo guid w :
  buildClientFault env authInfo = None →
  (∀ err, namespaceFor env guid ServiceBindingRepo.ServiceBindingResourceType = inl err →
     ServiceBindingRepo.DeleteServiceBinding env authInfo guid w = (Failed err, w))
  ∧ (∀ ns, namespaceFor env guid ServiceBindingRepo.ServiceBindingResourceType = inr ns →
       apiFault env (bindingRequest authInfo client.Get ns guid) = None →
       hasBinding (cluster w) ns guid →
       (apiFault env (bindingRequest authInfo client.Delete ns guid) = None →
        ServiceBindingRepo.DeleteServiceBinding env authInfo guid w
        = (Done tt, bindingDeleted authInfo ns guid w)
        ∧ ¬ hasBinding (cluster (bindingDeleted authInfo ns guid w)) ns guid)
       ∧ (∀ e, apiFault env (bindingRequest authInfo client.Delete ns guid) = Some e →
            ServiceBindingRepo.DeleteServiceBinding env authInfo guid w
            = (Failed (apierrors.FromK8sError (StatusErr e) ServiceBindingRepo.ServiceBindingResourceType),
               logged [bindingRequest authInfo client.Get ns guid;
                       bindingRequest authInfo client.Delete ns guid] w)
            ∧ (Reason e = StatusReasonForbidden →
               result (ServiceBindingRepo.DeleteServiceBinding env authInfo guid w)
               = Failed (ForbiddenError (Some (StatusErr e))
                           ServiceBindingRepo.ServiceBindingResourceType)))).
Proof.
  intros Hbuild. split.
  - intros err Hns.
    unfold ServiceBindingRepo.DeleteServiceBinding, k8s.BuildClient, k8s.NamespaceFor.
    rewrite Hbuild, Hns. unfold bind at 1. unfold onError at 1, ret at 1.
    unfold bind at 1. by unfold liftResult, throw.
  - intros ns Hns Hget Hthere.
    rewrite (DeleteServiceBinding_run_ok env authInfo guid w ns Hbuild Hns Hget Hthere). split.
    + intros ->. split; [done|apply bindingDeleted_gone].
    + intros e ->. split; [done|].
      intros Hreason. rewrite result_pair. simpl. by rewrite Hreason.
Qed.

Lemma DeleteServiceBinding_fetches_then_deletes_witness :
  ServiceBindingRepo.DeleteServiceBinding Sample.env "alice" "binding-1" Sample.world
  = (Done tt, bindingDeleted "alice" "cf-space-1" "binding-1" Sample.world)
  ∧ ¬ hasBinding (cluster (bindingDeleted "alice" "cf-space-1" "binding-1" Sample.world))
        "cf-space-1" "binding-1".
Proof.
  apply (DeleteServiceBinding_fetches_then_deletes Sample.env "alice" "binding-1" Sample.world);
    [reflexivity|reflexivity|reflexivity| |reflexivity].
  apply (bool_decide_unpack _). vm_compute. done.
Defined.

Lemma filter_fresh_snoc {A} (P : A → Prop) `{!∀ x, Decision (P x)} (l : list A) (x : A) :
  (∀ y, y ∈ l → P y) → ¬ P x → filter P (l ++ [x]) = l.
Proof.
  intros Hall Hx. rewrite filter_app, filter_cons, decide_False by done.
  rewrite filter_nil, app_nil_r. induction l as [|y l IH]; [done|].
  rewrite filter_cons, decide_True by (apply Hall; by left).
  f_equal. apply IH. intros z Hz. apply Hall. by right.
Qed.

(** X16: creating a binding and deleting it by the GUID of the record
    returned is a round trip: when the namespace retriever resolves that GUID
    to the space of the binding and the cluster accepts the fetch and the
    delete, the delete succeeds and leaves the cluster as it was before the
    create; a further delete of the same GUID then finds nothing and answers
    NotFound for the resource type "Service Binding". *)
Theorem create_then_delete_restores_the_cluster
    env authInfo (message : CreateServiceBindingMessage.t) w record w1 :
  let guid := ServiceBindingRecord.GUID record in
  let space := ServiceBindingRecord.SpaceGUID record in
  ServiceBindingRepo.CreateServiceBinding env authInfo message w = (Done record, w1) →
  namespaceFor env guid ServiceBindingRepo.ServiceBindingResourceType = inr space →
  apiFault env (bindingRequest authInfo client.Get space guid) = None →
  apiFault env (bindingRequest authInfo client.Delete space guid) = None →
  ∃ w2,
    ServiceBindingRepo.DeleteServiceBinding env authInfo guid w1 = (Done tt, w2)
    ∧ cluster w2 = cluster w
    ∧ result (ServiceBindingRepo.DeleteServiceBinding env authInfo guid w2)
      = Failed (NotFoundError (Some k8s.notFound) ServiceBindingRepo.ServiceBindingResourceType).
Proof.
  intros guid space Hcreate Hns Hget Hdelete.
  apply CreateServiceBinding_inv in Hcreate as (Hbuild & Hfresh & -> & ->).
  cbn in guid, space. subst guid space.
  set (guid := uuidAt env (uuids w)) in *.
  set (space := CreateServiceBindingMessage.SpaceGUID message) in *.
  assert (hasBinding (cluster (bindingCreated env authInfo message w)) space guid) as Hthere.
  { unfold hasBinding, bindingCreated. cbn [cluster serviceBindings].
    apply Exists_app. right. by left. }
  assert (filter (fun x => ¬ k8s.named space guid (servicesv1alpha1.ObjectMeta x))
                 (serviceBindings (cluster w) ++ [storedBinding message guid (clock w)])
          = serviceBindings (cluster w)) as Hrestored.
  { apply filter_fresh_snoc.
    - intros y Hy Hnamed. apply Hfresh, Exists_exists. exists y.
      by split.
    - intros Hnot. by apply Hnot. }
  exists (bindingDeleted authInfo space guid (bindingCreated env authInfo message w)). split_and!.
  - by rewrite (DeleteServiceBinding_run_ok env authInfo guid
                  (bindingCreated env authInfo message w) space Hbuild Hns Hget Hthere), Hdelete.
  - unfold bindingDeleted, bindingCreated.
    cbn [cluster serviceBindings anchors hierarchies cfOrgs serviceAccounts].
    subst guid space. rewrite Hrestored. by destruct (cluster w).
  - rewrite (DeleteServiceBinding_steps env authInfo guid _ space Hbuild Hns).
    rewrite result_bind, result_onError.
    rewrite GetServiceBinding_absent; [done|done|apply bindingDeleted_gone].
Qed.

Lemma create_then_delete_restores_the_cluster_witness :
  let message := {| CreateServiceBindingMessage.Name := Some "db";
                    CreateServiceBindingMessage.ServiceInstanceGUID := "instance-2";
                    CreateServiceBindingMessage.AppGUID := "app-1";
                    CreateServiceBindingMessage.SpaceGUID := "cf-space-1" |} in
  ∃ w2,
    ServiceBindingRepo.DeleteServiceBinding Sample.env "alice" "0000"
      (bindingCreated Sample.env "alice" message Sample.world) = (Done tt, w2)
    ∧ cluster w2 = cluster Sample.world
    ∧ result (ServiceBindingRepo.DeleteServiceBinding Sample.env "alice" "0000" w2)
      = Failed (NotFoundError (Some k8s.notFound) ServiceBindingRepo.ServiceBindingResourceType).
Proof.
  intros message.
  apply (create_then_delete_restores_the_cluster Sample.env "alice" message Sample.world
           (ServiceBindingRepo.cfServiceBindingToRecord Sample.env (storedBinding message "0000" 0))
           (bindingCreated Sample.env "alice" message Sample.world));
    reflexivity.
Defined.

(** ** ListServiceBindings, counted *)

Lemma filter_none {A} (P : A → Prop) `{!∀ x, Decision (P x)} (l : list A) :
  (∀ x, x ∈ l → ¬ P x) → filter P l = [].
Proof.
  intros Hnone. induction l as [|x l IH]; [done|].
  rewrite filter_cons, decide_False by (apply Hnone; by left).
  apply IH. intros y Hy. apply Hnone. by right.
Qed.

Lemma filter_disjoint_app {A} (P Q : A → Prop)
    `{!∀ x, Decision (P x)} `{!∀ x, Decision (Q x)} (l : list A) :
  (∀ x, P x → ¬ Q x) →
  filter P l ++ filter Q l ≡ₚ filter (fun x => P x ∨ Q x) l.
Proof.
  intros Hdisjoint. induction l as [|x l IH]; [done|].
  rewrite !filter_cons. destruct (decide (P x)) as [HP|HP].
  - rewrite decide_False by (by apply Hdisjoint).
    rewrite decide_True by (by left). simpl. by rewrite IH.
  - destruct (decide (Q x)) as [HQ|HQ].
    + rewrite decide_True by (by right). rewrite <- Permutation_middle. by rewrite IH.
    + rewrite decide_False by (intros [?|?]; done). done.
Qed.

Lemma applyServiceBindingListFilter_filter items message :
  ServiceBindingRepo.applyServiceBindingListFilter items message
  = filter (fun b => matchesFilter (servicesv1alpha1.Service (servicesv1alpha1.Spec b))
                                   (ListServiceBindingsMessage.ServiceInstanceGUIDs message) = true
                     ∧ matchesFilter (servicesv1alpha1.AppRef (servicesv1alpha1.Spec b))
                                     (ListServiceBindingsMessage.AppGUIDs message) = true)
           items.
Proof.
  unfold ServiceBindingRepo.applyServiceBindingListFilter.
  induction items as [|b items IH]; [done|].
  cbn [omap list_omap]. rewrite filter_cons, IH.
  destruct (matchesFilter (servicesv1alpha1.Service (servicesv1alpha1.Spec b))
                          (ListServiceBindingsMessage.ServiceInstanceGUIDs message)) eqn:Hservice,
           (matchesFilter (servicesv1alpha1.AppRef (servicesv1alpha1.Spec b))
                          (ListServiceBindingsMessage.AppGUIDs message)) eqn:Happ; simpl.
  all: done.
Qed.

Lemma contribution_filter env authInfo message c (ns : string) :
  contribution env authInfo message c ns
  = filter (listedBinding env authInfo message [ns]) (serviceBindings c).
Proof.
  unfold contribution, bindingsIn. rewrite applyServiceBindingListFilter_filter.
  destruct (apiFault env (bindingListRequest authInfo ns)) as [e|] eqn:Hfault.
  - symmetry. apply filter_none. intros b _ (Hin & Hnone & _).
    apply list_elem_of_singleton in Hin. rewrite Hin in Hnone. congruence.
  - rewrite list_filter_filter. apply filter_pointwise. intros b.
    unfold listedBinding. rewrite list_elem_of_singleton. simpl. split.
    + intros ((Hservice & Happ) & Hns). by rewrite Hns.
    + intros (Hns & _ & Hservice & Happ). done.
Qed.

Lemma contributions_filter env authInfo message c (namespaces : list string) :
  NoDup namespaces →
  namespaces ≫= contribution env authInfo message c
  ≡ₚ filter (listedBinding env authInfo message namespaces) (serviceBindings c).
Proof.
  induction 1 as [|ns rest Hfresh Hnodup IH]; simpl.
  - symmetry. rewrite filter_none; [done|].
    intros b _ (Hin & _). by apply elem_of_nil in Hin.
  - rewrite IH, contribution_filter, filter_disjoint_app.
    + erewrite filter_pointwise; [done|]. intros b. unfold listedBinding.
      rewrite list_elem_of_singleton, elem_of_cons. tauto.
    + intros b (Hin & _) (Hin' & _). apply list_elem_of_singleton in Hin.
      by rewrite Hin in Hin'.
Qed.

(** X17: when every list call of ListServiceBindings is accepted or refused
    as forbidden, the records returned are, up to their order, those of the
    bindings of the cluster that lie in a namespace the caller's authorized
    space namespaces have as a key and that was not refused, and that pass
    both filters: each such binding is returned exactly as often as the
    cluster holds it, whatever the order in which the runtime ranges over the
    namespaces. When the permission lookup fails, its error is wrapped as
    "failed to list namespaces for spaces with user role bindings: %w" and no
    call is made. *)
Theorem ListServiceBindings_counts_each_binding_once
    env authInfo (message : ListServiceBindingsMessage.t) w :
  rangeKeys_ok env →
  (∀ nsList : gmap string bool,
     authorizedSpaceNamespaces env authInfo (clock w) = inr nsList →
     buildClientFault env authInfo = None →
     (∀ ns, ns ∈ dom nsList → forbiddenOrListed env authInfo ns) →
     ∃ records,
       result (ServiceBindingRepo.ListServiceBindings env authInfo message w) = Done records
       ∧ records ≡ₚ ServiceBindingRepo.cfServiceBindingToRecord env
                      <$> filter (listedBinding env authInfo message (elements (dom nsList)))
                                 (serviceBindings (cluster w)))
  ∧ (∀ err, authorizedSpaceNamespaces env authInfo (clock w) = inl err →
       ServiceBindingRepo.ListServiceBindings env authInfo message w
       = (Failed (Errorf "failed to list namespaces for spaces with user role bindings: %w" []
                    (Some err)), w)).
Proof.
  intros Hrange. split.
  - intros nsList Hperms Hbuild Hlisted.
    rewrite (ListServiceBindings_run env authInfo message w nsList Hperms Hbuild).
    rewrite ListServiceBindings_range_ok
      by (intros ns Hns; by apply Hlisted, (elem_of_rangeKeys env nsList ns Hrange)).
    rewrite !result_pair. eexists. split; [done|].
    unfold ServiceBindingRepo.toServiceBindingRecords. simpl.
    change (map (ServiceBindingRepo.cfServiceBindingToRecord env))
      with (fmap (M:=list) (ServiceBindingRepo.cfServiceBindingToRecord env)).
    apply fmap_Permutation.
    rewrite (Hrange nsList). apply contributions_filter, NoDup_elements.
  - intros err Hperms. unfold ServiceBindingRepo.ListServiceBindings.
    unfold bind at 1. unfold onError at 1, k8s.GetAuthorizedSpaceNamespaces.
    rewrite Hperms. done.
Qed.

Lemma ListServiceBindings_counts_each_binding_once_witness :
  ∃ records,
    result (ServiceBindingRepo.ListServiceBindings Sample.env "alice"
              {| ListServiceBindingsMessage.AppGUIDs := ["app-1"];
                 ListServiceBindingsMessage.ServiceInstanceGUIDs := [] |} Sample.world)
    = Done records
    ∧ length records = 2.
Proof.
  assert (rangeKeys_ok Sample.env) as Hrange by (intros m; reflexivity).
  destruct (proj1 (ListServiceBindings_counts_each_binding_once Sample.env "alice"
                     {| ListServiceBindingsMessage.AppGUIDs := ["app-1"];
                        ListServiceBindingsMessage.ServiceInstanceGUIDs := [] |} Sample.world Hrange)
              {[ "cf-space-1" := true; "cf-space-2" := true ]})
    as (records & Hdone & Hperm); [reflexivity|reflexivity|done|].
  exists records. split; [done|].
  rewrite Hperm, length_fmap. reflexivity.
Defined.

(** ** The queries change nothing *)

Lemma readOnly_refl who w : readOnly who w w.
Proof.
  split; [done|]. exists []. split; [by rewrite app_nil_r|constructor].
Qed.

Lemma readOnly_trans who w1 w2 w3 :
  readOnly who w1 w2 → readOnly who w2 w3 → readOnly who w1 w3.
Proof.
  intros [(Hc1 & Ht1 & Hu1) (reqs1 & Hcalls1 & Hall1)] [(Hc2 & Ht2 & Hu2) (reqs2 & Hcalls2 & Hall2)].
  split; [split_and!; congruence|].
  exists (reqs1 ++ reqs2). split.
  - by rewrite Hcalls2, Hcalls1, app_assoc.
  - by apply Forall_app.
Qed.

Lemma readOnly_list who kind ns w :
  readOnly who w (final (logCall (k8s.listRequest who kind ns) w)).
Proof.
  split; [done|]. exists [k8s.listRequest who kind ns]. split; [done|].
  by repeat constructor.
Qed.

Lemma AnchorOrgs_ListOrgs_readOnly env r info F w :
  readOnly client.Privileged w (final (AnchorOrgs.ListOrgs env r info F w)).
Proof.
  destruct (decide (ListOrgsMessage.Names F = [])) as [Hnil|Hnil].
  - rewrite AnchorOrgs_ListOrgs_no_names_run, final_pair by done. apply readOnly_list.
  - rewrite AnchorOrgs_ListOrgs_names_run by done.
    destruct (forallb _ _); rewrite final_pair; [apply readOnly_list|apply readOnly_refl].
Qed.

Lemma CFOrgs_ListOrgs_readOnly env r info F w :
  readOnly client.Privileged w (final (CFOrgs.ListOrgs env r info F w)).
Proof. rewrite CFOrgs_ListOrgs_run, final_pair. apply readOnly_list. Qed.

Lemma ListSpaces_readOnly env r info message w :
  readOnly client.Privileged w (final (ListSpaces env r info message w)).
Proof.
  rewrite ListSpaces_run, final_pair. apply (readOnly_list client.Privileged client.SubnamespaceAnchor None).
Qed.

Lemma ListServiceBindings_range_readOnly env authInfo message namespaces :
  ∀ acc w,
    readOnly (client.AsUser authInfo) w
      (final (ServiceBindingRepo.ListServiceBindings_range env (client.AsUser authInfo)
                message namespaces acc w)).
Proof.
  induction namespaces as [|ns rest IH]; intros acc w; [apply readOnly_refl|].
  cbn [ServiceBindingRepo.ListServiceBindings_range]. unfold bind, try.
  rewrite k8s_ListServiceBindings_run.
  pose proof (readOnly_list (client.AsUser authInfo) client.CFServiceBinding (Some ns) w) as Hstep.
  destruct (apiFault env _) as [e|].
  - destruct (k8serrors.IsForbidden (StatusErr e)).
    + eapply readOnly_trans; [exact Hstep|apply IH].
    + exact Hstep.
  - eapply readOnly_trans; [exact Hstep|apply IH].
Qed.

(** X18: the queries only read. Whatever they answer, ListOrgs and GetOrg of
    both revisions, ListSpaces and GetSpace leave the cluster, the clock and
    the UUID source as they were and make list calls with the privileged
    client only - never with the caller's; ServiceBindingExists and
    ListServiceBindings leave them as they were and make list calls as the
    caller only. *)
Theorem queries_only_read env r info
    (F : ListOrgsMessage.t) (message : ListSpacesMessage.t)
    (bindings : ListServiceBindingsMessage.t) (guid spaceGUID appGUID serviceInstanceGUID : string) w :
  readOnly client.Privileged w (final (AnchorOrgs.ListOrgs env r info F w))
  ∧ readOnly client.Privileged w (final (CFOrgs.ListOrgs env r info F w))
  ∧ readOnly client.Privileged w (final (AnchorOrgs.GetOrg env r info guid w))
  ∧ readOnly client.Privileged w (final (CFOrgs.GetOrg env r info guid w))
  ∧ readOnly client.Privileged w (final (ListSpaces env r info message w))
  ∧ readOnly client.Privileged w (final (GetSpace env r info guid w))
  ∧ readOnly (client.AsUser info) w
      (final (ServiceBindingRepo.ServiceBindingExists env info spaceGUID appGUID serviceInstanceGUID w))
  ∧ readOnly (client.AsUser info) w
      (final (ServiceBindingRepo.ListServiceBindings env info bindings w)).
Proof.
  split_and!.
  - apply AnchorOrgs_ListOrgs_readOnly.
  - apply CFOrgs_ListOrgs_readOnly.
  - unfold AnchorOrgs.GetOrg. rewrite final_bind.
    pose proof (AnchorOrgs_ListOrgs_readOnly env r info
                  {| ListOrgsMessage.Names := []; ListOrgsMessage.GUIDs := [guid] |} w) as Hlist.
    by destruct (result (AnchorOrgs.ListOrgs env r info _ w)) as [[|record rest]|e|].
  - unfold CFOrgs.GetOrg. rewrite final_bind.
    pose proof (CFOrgs_ListOrgs_readOnly env r info
                  {| ListOrgsMessage.Names := []; ListOrgsMessage.GUIDs := [guid] |} w) as Hlist.
    by destruct (result (CFOrgs.ListOrgs env r info _ w)) as [[|record rest]|e|].
  - apply ListSpaces_readOnly.
  - unfold GetSpace. rewrite final_bind.
    pose proof (ListSpaces_readOnly env r info
                  {| ListSpacesMessage.Names := []; ListSpacesMessage.GUIDs := [guid];
                     ListSpacesMessage.OrganizationGUIDs := [] |} w) as Hlist.
    by destruct (result (ListSpaces env r info _ w)) as [[|record rest]|e|].
  - unfold ServiceBindingRepo.ServiceBindingExists, k8s.BuildClient.
    destruct (buildClientFault env info).
    + apply readOnly_refl.
    + unfold bind at 1. unfold onError at 1, ret at 1.
      unfold bind, onError. rewrite k8s_ListServiceBindings_run.
      pose proof (readOnly_list (client.AsUser info) client.CFServiceBinding (Some spaceGUID) w).
      by destruct (apiFault env _).
  - unfold ServiceBindingRepo.ListServiceBindings, k8s.GetAuthorizedSpaceNamespaces, k8s.BuildClient.
    unfold bind at 1. unfold onError at 1.
    destruct (authorizedSpaceNamespaces env info (clock w)) as [err|nsList];
      [apply readOnly_refl|].
    unfold liftResult, ret at 1.
    destruct (buildClientFault env info).
    + apply readOnly_refl.
    + unfold bind at 1. unfold onError at 1, ret at 1. unfold bind.
      pose proof (ListServiceBindings_range_readOnly env info bindings (rangeKeys env nsList) [] w)
        as Hrange.
      by destruct (ServiceBindingRepo.ListServiceBindings_range _ _ _ _ _ w) as [[listed|e|] w'].
Qed.

(** ** DeleteSpace and DeleteOrg: what is gone afterwards *)

Lemma DeleteAnchor_steps env who ns name w :
  let req := k8s.objectRequest who client.Delete client.SubnamespaceAnchor ns name in
  k8s.DeleteAnchor env who ns name w =
  match apiFault env req with
  | Some e => (Failed (StatusErr e), logged [req] w)
  | None =>
      if decide (hasAnchor (cluster w) ns name)
      then (Done tt, anchorDeleted [req] ns name w)
      else (Failed k8s.notFound, logged [req] w)
  end.
Proof.
  intros req. unfold k8s.DeleteAnchor, k8s.request, hasAnchor.
  unfold bind, logCall, getWorld, setCluster, ret, throw, logged, anchorDeleted. fold req.
  destruct (apiFault env req); [done|]. cbn [cluster clock uuids calls].
  by destruct (decide _).
Qed.

Lemma anchorDeleted_logged reqs0 reqs ns name w :
  anchorDeleted reqs ns name (logged reqs0 w) = anchorDeleted (reqs0 ++ reqs) ns name w.
Proof. unfold anchorDeleted, logged. cbn [cluster clock uuids calls]. by rewrite app_assoc. Qed.

Lemma DeleteSpace_run env info (message : DeleteSpaceMessage.t) w :
  let org := DeleteSpaceMessage.OrganizationGUID message in
  let guid := DeleteSpaceMessage.GUID message in
  buildClientFault env info = None →
  DeleteSpace env info message w =
  match apiFault env (deleteAnchorRequest info org guid) with
  | Some e => (Failed (apierrors.FromK8sError (StatusErr e) SpaceResourceType),
               logged [deleteAnchorRequest info org guid] w)
  | None =>
      if decide (hasAnchor (cluster w) org guid)
      then (Done tt, anchorDeleted [deleteAnchorRequest info org guid] org guid w)
      else (Failed (apierrors.FromK8sError k8s.notFound SpaceResourceType),
            logged [deleteAnchorRequest info org guid] w)
  end.
Proof.
  intros org guid Hbuild. unfold DeleteSpace, k8s.BuildClient. rewrite Hbuild.
  unfold bind at 1. unfold onError at 1, ret at 1. unfold onError.
  rewrite DeleteAnchor_steps. fold org. fold guid. unfold deleteAnchorRequest.
  destruct (apiFault env _); [done|]. by destruct (decide _).
Qed.

Lemma DeleteOrg_run env r info (message : DeleteOrgMessage.t) w :
  let guid := DeleteOrgMessage.GUID message in
  let root := rootNamespace r in
  apiFault env (hierarchyRequest guid) = None →
  hasHierarchy (cluster w) guid →
  buildClientFault env info = None →
  DeleteOrg env r info message w =
  match apiFault env (deleteAnchorRequest info root guid) with
  | Some e => (Failed (apierrors.FromK8sError (StatusErr e) OrgResourceType),
               logged [hierarchyRequest guid; deleteAnchorRequest info root guid] w)
  | None =>
      if decide (hasAnchor (cluster w) root guid)
      then (Done tt, anchorDeleted [hierarchyRequest guid; deleteAnchorRequest info root guid] root guid w)
      else (Failed (apierrors.FromK8sError k8s.notFound OrgResourceType),
            logged [hierarchyRequest guid; deleteAnchorRequest info root guid] w)
  end.
Proof.
  intros guid root Hfault Hthere Hbuild.
  destruct (GetHierarchyConfiguration_run env client.Privileged guid hierarchyMetadataName w)
    as (o & Hget & Hok).
  destruct (Hok Hfault) as [Hfound _]. destruct (Hfound Hthere) as [h ->].
  unfold DeleteOrg, k8s.BuildClient. rewrite Hbuild. fold guid. fold root.
  unfold bind at 1. unfold onError at 1. rewrite Hget.
  unfold bind at 1. unfold onError at 1, ret at 1. unfold onError.
  rewrite DeleteAnchor_steps. unfold deleteAnchorRequest, hierarchyRequest.
  rewrite anchorDeleted_logged, logged_logged.
  change (cluster (logged _ w)) with (cluster w).
  destruct (apiFault env (k8s.objectRequest (client.AsUser info) client.Delete
                            client.SubnamespaceAnchor root guid)); [done|].
  by destruct (decide _).
Qed.

Lemma elem_of_anchors_anchorDeleted reqs ns name w a :
  a ∈ anchors (cluster (anchorDeleted reqs ns name w))
  ↔ a ∈ anchors (cluster w) ∧ ¬ k8s.named ns name (v1alpha2.ObjectMeta a).
Proof.
  unfold anchorDeleted. cbn [cluster anchors]. rewrite list_elem_of_filter. tauto.
Qed.

Lemma spaceRecords_anchorDeleted r message authorized reqs ns name w record :
  record ∈ spaceRecords r message authorized (cluster (anchorDeleted reqs ns name w)) →
  record ∈ spaceRecords r message authorized (cluster w)
  ∧ ¬ (SpaceRecord.OrganizationGUID record = ns ∧ SpaceRecord.GUID record = name)
  ∧ (ns = rootNamespace r → SpaceRecord.OrganizationGUID record ≠ name).
Proof.
  rewrite !elem_of_spaceRecords.
  intros (space & Hin & Hok & Hname & Hguid & Horg & Hauth & ->).
  apply elem_of_anchors_anchorDeleted in Hin as [Hin Hnot].
  apply elem_of_orgUIDsOf in Horg as (org & Horgin & Hroot & Horgname & Hfilter).
  apply elem_of_anchors_anchorDeleted in Horgin as [Horgin Horgnot].
  split_and!.
  - exists space. split_and!; try done.
    apply elem_of_orgUIDsOf. by exists org.
  - done.
  - intros -> Heq. apply Horgnot. split; [done|]. simpl in Heq. congruence.
Qed.

(** X19: a DeleteSpace that succeeds removes the anchors of that name in
    that namespace and nothing else. For every caller and every filter
    ListSpaces then returns only records it returned before, and none with
    that GUID under that organization. DeleteSpace does not ask what the
    anchor is: the organization GUID of the message is the namespace of the
    delete call, whatever anchor lies there. *)
Theorem DeleteSpace_removes_the_anchor env info (message : DeleteSpaceMessage.t) w :
  let org := DeleteSpaceMessage.OrganizationGUID message in
  let guid := DeleteSpaceMessage.GUID message in
  let after := anchorDeleted [deleteAnchorRequest info org guid] org guid w in
  buildClientFault env info = None →
  apiFault env (deleteAnchorRequest info org guid) = None →
  hasAnchor (cluster w) org guid →
  DeleteSpace env info message w = (Done tt, after)
  ∧ ¬ hasAnchor (cluster after) org guid
  ∧ (∀ anchor, anchor ∈ anchors (cluster w) →
       ¬ k8s.named org guid (v1alpha2.ObjectMeta anchor) → anchor ∈ anchors (cluster after))
  ∧ (∀ r info' message' record,
       record ∈ returned (result (ListSpaces env r info' message' after)) →
       record ∈ returned (result (ListSpaces env r info' message' w))
       ∧ ¬ (SpaceRecord.OrganizationGUID record = org ∧ SpaceRecord.GUID record = guid)).
Proof.
  intros org guid after Hbuild Hfault Hthere. split_and!.
  - rewrite DeleteSpace_run by done. fold org. fold guid.
    by rewrite Hfault, decide_True by done.
  - unfold hasAnchor. rewrite Exists_exists. intros (x & Hx & Hnamed).
    apply elem_of_anchors_anchorDeleted in Hx as [_ Hnot]. done.
  - intros anchor Hin Hnot. by apply elem_of_anchors_anchorDeleted.
  - intros r info' message' record. rewrite !ListSpaces_run, !result_pair.
    destruct (apiFault env allAnchorsRequest); [by intros ?%elem_of_nil|].
    change (clock after) with (clock w).
    destruct (authorizedSpaceNamespaces env info' (clock w)) as [e|authorized];
      [by intros ?%elem_of_nil|].
    cbn [returned]. intros Hrecord.
    apply spaceRecords_anchorDeleted in Hrecord as (Hbefore & Hnot & _). done.
Qed.

(** In the sample world the organization "cf-org-b" has no hierarchy
    configuration, so DeleteOrg refuses it; DeleteSpace removes its anchor
    when given the root namespace as organization. *)
Lemma DeleteSpace_removes_the_anchor_witness :
  let message := {| DeleteSpaceMessage.GUID := "cf-org-b";
                    DeleteSpaceMessage.OrganizationGUID := "cf" |} in
  DeleteSpace Sample.env "alice" message Sample.world
  = (Done tt, anchorDeleted [deleteAnchorRequest "alice" "cf" "cf-org-b"] "cf" "cf-org-b" Sample.world).
Proof.
  intros message.
  apply (DeleteSpace_removes_the_anchor Sample.env "alice" message Sample.world);
    [reflexivity|reflexivity|].
  apply (bool_decide_unpack _). vm_compute. done.
Defined.

(** X20: a DeleteOrg that succeeds - the hierarchy configuration of the
    organization's namespace fetched, the anchor under the root namespace
    deleted as the caller - removes that anchor and nothing else: the anchors
    of the organization's spaces, the hierarchy configurations and the CFOrgs
    are still there. Afterwards the anchor revision's ListOrgs returns no
    record with that GUID and ListSpaces no space of that organization, for
    any caller and filter; the CFOrg revision's ListOrgs, which reads the
    CFOrgs, answers as before. *)
Theorem DeleteOrg_removes_the_anchor_only env r info (message : DeleteOrgMessage.t) w :
  let guid := DeleteOrgMessage.GUID message in
  let root := rootNamespace r in
  let after := anchorDeleted [hierarchyRequest guid; deleteAnchorRequest info root guid] root guid w in
  apiFault env (hierarchyRequest guid) = None →
  hasHierarchy (cluster w) guid →
  buildClientFault env info = None →
  apiFault env (deleteAnchorRequest info root guid) = None →
  hasAnchor (cluster w) root guid →
  DeleteOrg env r info message w = (Done tt, after)
  ∧ (∀ anchor, anchor ∈ anchors (cluster w) →
       ¬ k8s.named root guid (v1alpha2.ObjectMeta anchor) → anchor ∈ anchors (cluster after))
  ∧ hierarchies (cluster after) = hierarchies (cluster w)
  ∧ cfOrgs (cluster after) = cfOrgs (cluster w)
  ∧ (∀ info' F record,
       record ∈ returned (result (AnchorOrgs.ListOrgs env r info' F after)) →
       OrgRecord.GUID record ≠ guid)
  ∧ (∀ info' message' record,
       record ∈ returned (result (ListSpaces env r info' message' after)) →
       SpaceRecord.OrganizationGUID record ≠ guid)
  ∧ (∀ info' F,
       result (CFOrgs.ListOrgs env r info' F after) = result (CFOrgs.ListOrgs env r info' F w)).
Proof.
  intros guid root after Hfault Hhierarchy Hbuild Hdelete Hthere. split_and!.
  - rewrite DeleteOrg_run by done. fold guid. fold root.
    by rewrite Hdelete, decide_True by done.
  - intros anchor Hin Hnot. by apply elem_of_anchors_anchorDeleted.
  - done.
  - done.
  - intros info' F record Hrecord.
    destruct (result (AnchorOrgs.ListOrgs env r info' F after)) as [l|e|] eqn:HF;
      simpl in Hrecord; [|by apply elem_of_nil in Hrecord..].
    apply AnchorOrgs_ListOrgs_inv in HF as (_ & authorized & _ & ->).
    apply elem_of_anchorOrgRecords in Hrecord as (anchor & Hin & Hns & _ & _ & _ & _ & ->).
    apply elem_of_anchors_anchorDeleted in Hin as [_ Hnot].
    intros Heq. apply Hnot. by split.
  - intros info' message' record. rewrite ListSpaces_run, result_pair.
    destruct (apiFault env allAnchorsRequest); [by intros ?%elem_of_nil|].
    destruct (authorizedSpaceNamespaces env info' (clock after)) as [e|authorized];
      [by intros ?%elem_of_nil|].
    cbn [returned]. intros Hrecord.
    apply spaceRecords_anchorDeleted in Hrecord as (_ & _ & Hparent). by apply Hparent.
  - intros info' F. by rewrite !CFOrgs_ListOrgs_result.
Qed.

Lemma DeleteOrg_removes_the_anchor_only_witness :
  DeleteOrg Sample.env Sample.repo "alice" {| DeleteOrgMessage.GUID := "cf-org-a" |} Sample.world
  = (Done tt,
     anchorDeleted [hierarchyRequest "cf-org-a"; deleteAnchorRequest "alice" "cf" "cf-org-a"]
       "cf" "cf-org-a" Sample.world).
Proof.
  apply (DeleteOrg_removes_the_anchor_only Sample.env Sample.repo "alice"
           {| DeleteOrgMessage.GUID := "cf-org-a" |} Sample.world);
    try reflexivity; apply (bool_decide_unpack _); vm_compute; done.
Defined.

(** ** PermissionDeniedOrNotFoundError *)

Lemma string_app_cons (c : Ascii.ascii) (s1 s2 : string) :
  String c s1 +:+ s2 = String c (s1 +:+ s2).
Proof. reflexivity. Qed.

Lemma string_app_assoc (s1 s2 s3 : string) : (s1 +:+ s2) +:+ s3 = s1 +:+ (s2 +:+ s3).
Proof. induction s1 as [|c s1 IH]; [done|]. by rewrite !string_app_cons, IH. Qed.

Lemma string_app_length (s1 s2 : string) :
  String.length (s1 +:+ s2) = String.length s1 + String.length s2.
Proof. induction s1 as [|c s1 IH]; [done|]. rewrite string_app_cons. simpl. by rewrite IH. Qed.

Lemma string_prefix_app (s1 s2 : string) : String.prefix s1 (s1 +:+ s2) = true.
Proof.
  induction s1 as [|c s1 IH]; [by destruct s2|]. rewrite string_app_cons. simpl.
  by destruct (Ascii.ascii_dec c c).
Qed.

(** X21: the text of a PermissionDeniedOrNotFoundError is "not found",
    preceded by the resource type and a space when there is a resource type,
    and followed by ": " and the text of the wrapped error when there is one;
    so it starts with the resource type, and its length is that of its
    parts. Unwrap gives the wrapped error. *)
Theorem PermissionDeniedOrNotFoundError_text
    (errorText : error → string) (e : PermissionDeniedOrNotFoundError.t) :
  let head := if decide (PermissionDeniedOrNotFoundError.ResourceType e = "") then ""
              else PermissionDeniedOrNotFoundError.ResourceType e +:+ " " in
  let tail := match PermissionDeniedOrNotFoundError.Err e with
              | Some err => ": " +:+ errorText err
              | None => ""
              end in
  PermissionDeniedOrNotFoundError.Error errorText e = head +:+ ("not found" +:+ tail)
  ∧ String.prefix (PermissionDeniedOrNotFoundError.ResourceType e)
                  (PermissionDeniedOrNotFoundError.Error errorText e) = true
  ∧ String.length (PermissionDeniedOrNotFoundError.Error errorText e)
    = String.length head + 9 + String.length tail
  ∧ PermissionDeniedOrNotFoundError.Unwrap e = PermissionDeniedOrNotFoundError.Err e.
Proof.
  intros head tail.
  assert (PermissionDeniedOrNotFoundError.Error errorText e = head +:+ ("not found" +:+ tail)) as Htext.
  { unfold PermissionDeniedOrNotFoundError.Error, head, tail.
    destruct (decide (PermissionDeniedOrNotFoundError.ResourceType e = "")) as [Hempty|Hsome].
    - rewrite decide_False by (by intros Hne; apply Hne).
      by destruct (PermissionDeniedOrNotFoundError.Err e).
    - rewrite decide_True by done.
      destruct (PermissionDeniedOrNotFoundError.Err e); by rewrite ?string_app_assoc. }
  split_and!.
  - done.
  - rewrite Htext. unfold head.
    destruct (decide (PermissionDeniedOrNotFoundError.ResourceType e = "")) as [->|Hsome].
    + by destruct tail.
    + rewrite string_app_assoc. apply string_prefix_app.
  - rewrite Htext, !string_app_length. simpl. lia.
  - done.
Qed.
